(** * Company_Account_Plan: the agent core and the evidence index

    A shallow embedding of
      - [src/agents/multi_agent.py]    (PlannerAgent, RetrieverAgent,
                                        SynthesizerAgent, CriticAgent),
      - [src/agents/research_agent.py] (ResearchAgent.answer_multi,
                                        ensure_index_loaded,
                                        generate_report_multi, extract_swot),
      - [src/agents/report_builder.py] (_fetch_sources),
      - [src/services/search.py]       (web_search and its two providers),
      - [src/services/index.py]        (VectorIndex),
      - [src/services/llm.py]          (validate_question, call_gemini,
                                        call_gemini_json),
      - [src/services/cache.py]        (the directory name of a company),
    and of the properties the specification states about them.

    Conventions.
      - A Python [str] is a [string]; its characters are the code points
        0..255 (Latin-1).  The character classes below ([isspace],
        [isdecimal], [isalnum], line boundaries, [lower]) are Python's,
        restricted to that range.
      - A value that is a [str] or [None] is an [option string].
      - A Python [dict] is a [gmap] with string keys; a [set] is a [gset].
      - A call that may raise returns an [outcome]; stateful code runs in
        the monad [M], which keeps the state reached when an exception
        is raised (Python does not roll mutations back).
      - What lies outside the repository (HTTP, the text generator, the
        embedding endpoint, the file cache, NumPy's numerics) is an
        oracle of the environment [Env]. *)

From Stdlib Require Import ZArith Ascii String List Bool Lia Permutation Sorted.
From Stdlib Require Import DecimalString.
From stdpp Require Import base option list strings gmap.

Local Open Scope string_scope.

(* ================================================================== *)
(** ** Python strings *)
(* ================================================================== *)

Module Py.

Definition code (c : ascii) : N := N_of_ascii c.

Definition between (lo hi : N) (c : ascii) : bool :=
  ((lo <=? code c) && (code c <=? hi))%N.

(** [str.isspace] on one character. *)
Definition isspace (c : ascii) : bool :=
  between 9 13 c || between 28 32 c || (code c =? 133)%N || (code c =? 160)%N.

(** [str.isdecimal] on one character: what [\d] matches. *)
Definition isdecimal (c : ascii) : bool := between 48 57 c.

(** [str.isalnum] on one character. *)
Definition isalnum (c : ascii) : bool :=
  between 48 57 c || between 65 90 c || between 97 122 c
  || (code c =? 170)%N || (code c =? 178)%N || (code c =? 179)%N
  || (code c =? 181)%N || (code c =? 185)%N || (code c =? 186)%N
  || between 188 190 c || between 192 214 c || between 216 246 c
  || between 248 255 c.

(** What [\w] matches: alphanumerics and the underscore. *)
Definition isword (c : ascii) : bool := isalnum c || (code c =? 95)%N.

(** The line boundaries of [str.splitlines]. *)
Definition islinebreak (c : ascii) : bool :=
  between 10 13 c || between 28 30 c || (code c =? 133)%N.

(** [str.lower] on one character. *)
Definition lower_char (c : ascii) : ascii :=
  if between 65 90 c || (between 192 222 c && negb (code c =? 215)%N)
  then ascii_of_N (code c + 32) else c.

Fixpoint lower (s : string) : string :=
  match s with
  | EmptyString => EmptyString
  | String c s' => String (lower_char c) (lower s')
  end.

(** [not s]: the empty string is the only false one. *)
Definition is_empty (s : string) : bool :=
  match s with EmptyString => true | String _ _ => false end.

(** [s.startswith(sub)]. *)
Fixpoint startswith (sub s : string) : bool :=
  match sub, s with
  | EmptyString, _ => true
  | String a sub', String b s' => Ascii.eqb a b && startswith sub' s'
  | String _ _, EmptyString => false
  end.

(** [sub in s]. *)
Fixpoint str_in (sub s : string) : bool :=
  startswith sub s
  || match s with
     | EmptyString => false
     | String _ s' => str_in sub s'
     end.

(** [s.lstrip()], [s.rstrip()], [s.strip()]. *)
Fixpoint lstrip (s : string) : string :=
  match s with
  | EmptyString => EmptyString
  | String c s' => if isspace c then lstrip s' else s
  end.

Fixpoint rstrip (s : string) : string :=
  match s with
  | EmptyString => EmptyString
  | String c s' =>
      match rstrip s' with
      | EmptyString => if isspace c then EmptyString else String c EmptyString
      | r => String c r
      end
  end.

Definition strip (s : string) : string := rstrip (lstrip s).

(** [s.splitlines()]: [cur] is the line read so far. *)
Fixpoint splitlines_from (cur s : string) : list string :=
  match s with
  | EmptyString => if is_empty cur then [] else [cur]
  | String c rest =>
      if islinebreak c then
        match rest with
        | String c' rest' =>
            if (code c =? 13)%N && (code c' =? 10)%N
            then cur :: splitlines_from EmptyString rest'
            else cur :: splitlines_from EmptyString rest
        | EmptyString => cur :: splitlines_from EmptyString rest
        end
      else splitlines_from (cur ++ String c EmptyString) rest
  end.

Definition splitlines (s : string) : list string :=
  splitlines_from EmptyString s.

(** [s.replace(old, new)] for a non-empty [old]. *)
Fixpoint drop_chars (n : nat) (s : string) : string :=
  match n, s with
  | O, _ => s
  | S n', String _ s' => drop_chars n' s'
  | S _, EmptyString => EmptyString
  end.

Fixpoint replace_fuel (fuel : nat) (old new s : string) : string :=
  match fuel with
  | O => s
  | S fuel' =>
      match s with
      | EmptyString => EmptyString
      | String c s' =>
          if startswith old s
          then new ++ replace_fuel fuel' old new (drop_chars (String.length old) s)
          else String c (replace_fuel fuel' old new s')
      end
  end.

Definition replace (old new s : string) : string :=
  if is_empty old then s else replace_fuel (String.length s) old new s.

(** [sep.join(xs)]. *)
Fixpoint join (sep : string) (xs : list string) : string :=
  match xs with
  | [] => EmptyString
  | [x] => x
  | x :: rest => x ++ sep ++ join sep rest
  end.

(** [str(n)] for an [int]. *)
Definition str_of_int (n : Z) : string :=
  NilEmpty.string_of_int (Z.to_int n).

(** [str(v)] inside an f-string, for a value that is a [str] or [None]. *)
Definition fmt (v : option string) : string :=
  match v with Some s => s | None => "None" end.

(** Truthiness of a value that is a [str] or [None]. *)
Definition truthy (v : option string) : bool :=
  match v with Some s => negb (is_empty s) | None => false end.

(** [v or ""]. *)
Definition or_empty (v : option string) : string :=
  match v with Some s => s | None => EmptyString end.

(** [s[0]] and the character before a position, for [\b]. *)
Definition head (s : string) : option ascii :=
  match s with EmptyString => None | String c _ => Some c end.

Definition isword_opt (c : option ascii) : bool :=
  match c with Some c => isword c | None => false end.

(** [\b] between the character [prev] and the character [next]. *)
Definition word_boundary (prev next : option ascii) : bool :=
  xorb (isword_opt prev) (isword_opt next).

End Py.

(* ================================================================== *)
(** ** CriticAgent  (multi_agent.py, lines 164-172) *)
(* ================================================================== *)

Module CriticAgent.

(** [\b(19|20)\d{2}\b] matched at the head of [s]; [prev] is the
    character before it. *)
Definition year_here (prev : option ascii) (s : string) : bool :=
  match s with
  | String a (String b (String c (String d rest))) =>
      Py.word_boundary prev (Some a)
      && (((Py.code a =? 49)%N && (Py.code b =? 57)%N)
          || ((Py.code a =? 50)%N && (Py.code b =? 48)%N))
      && Py.isdecimal c && Py.isdecimal d
      && Py.word_boundary (Some d) (Py.head rest)
  | _ => false
  end.

(** [re.search(r"\b(19|20)\d{2}\b|\d", s)] finds a match. *)
Fixpoint re_search_from (prev : option ascii) (s : string) : bool :=
  match s with
  | EmptyString => false
  | String c rest =>
      year_here prev s || Py.isdecimal c || re_search_from (Some c) rest
  end.

Definition re_search (s : string) : bool := re_search_from None s.

Definition bad : list string :=
  ["[Insert"; "Cite Source]"; "Not available"; "(Overview)"].

Definition needs_retry (answer_text : string) : bool :=
  if Py.is_empty answer_text || Py.str_in "(No answer)" answer_text then true
  else if existsb (fun b => Py.str_in b answer_text) bad then true
  else negb (re_search answer_text).

End CriticAgent.

(* ================================================================== *)
(** ** Exceptions and the state-and-exception monad *)
(* ================================================================== *)

(** The Python exception classes that occur in the modelled code. *)
Inductive exn : Type :=
| HTTPError            (* requests: raise_for_status *)
| RequestException     (* requests: connection error, timeout *)
| JSONDecodeError      (* Response.json, json.load *)
| ValueError           (* NumPy: shapes that do not match *)
| IndexError
| KeyError
| APIError.            (* the text generator or the embedding endpoint *)

Inductive outcome (A : Type) : Type :=
| Returned (a : A)
| Raised (e : exn).
Arguments Returned {A} a.
Arguments Raised {A} e.

(** A computation over a state [S]: the state after it is kept also
    when it raises. *)
Definition M (S A : Type) : Type := S -> outcome A * S.

Definition ret {S A : Type} (a : A) : M S A := fun s => (Returned a, s).

Definition raise {S A : Type} (e : exn) : M S A := fun s => (Raised e, s).

Definition bind {S A B : Type} (m : M S A) (k : A -> M S B) : M S B :=
  fun s =>
    match m s with
    | (Returned a, s') => k a s'
    | (Raised e, s') => (Raised e, s')
    end.

(** [try: m except Exception: h]. *)
Definition try_except {S A : Type} (m : M S A) (h : exn -> M S A) : M S A :=
  fun s =>
    match m s with
    | (Returned a, s') => (Returned a, s')
    | (Raised e, s') => h e s'
    end.

Definition lift_outcome {S A : Type} (o : outcome A) : M S A := fun s => (o, s).

Definition gets {S A : Type} (f : S -> A) : M S A := fun s => (Returned (f s), s).

Definition modify {S : Type} (f : S -> S) : M S unit := fun s => (Returned tt, f s).

Notation "x <- m ;; k" := (bind m (fun x => k))
  (at level 100, m at next level, right associativity).
Notation "m ;;; k" := (bind m (fun _ => k))
  (at level 100, right associativity).

(** [[f(x) for x in xs]] when [f] may raise. *)
Fixpoint for_each {S A B : Type} (f : A -> M S B) (xs : list A) : M S (list B) :=
  match xs with
  | [] => ret []
  | x :: rest => y <- f x ;; ys <- for_each f rest ;; ret (y :: ys)
  end.

(** [xs[:k]] for any integer [k]: a negative [k] counts from the end. *)
Definition slice_to {A : Type} (k : Z) (xs : list A) : list A :=
  if (0 <=? k)%Z then take (Z.to_nat k) xs
  else take (Z.to_nat (Z.of_nat (length xs) + k)) xs.

(** [xs[i]] for an index [i >= 0]. *)
Definition index_at {S A : Type} (xs : list A) (i : nat) : M S A :=
  match xs !! i with
  | Some x => ret x
  | None => raise IndexError
  end.

(** [list(dict.fromkeys(xs))]: the first occurrence of every value, in order. *)
Fixpoint fromkeys_loop {A : Type} `{EqDecision A} (xs seen : list A) : list A :=
  match xs with
  | [] => seen
  | x :: rest =>
      if decide (x ∈ seen) then fromkeys_loop rest seen
      else fromkeys_loop rest (seen ++ [x])
  end.

Definition fromkeys {A : Type} `{EqDecision A} (xs : list A) : list A :=
  fromkeys_loop xs [].

(* ================================================================== *)
(** ** Data *)
(* ================================================================== *)

(** A JSON object or search result whose values are strings or [None]. *)
Abbreviation Dict := (gmap string (option string)).

(** [d.get(k)] *)
Definition get (d : Dict) (k : string) : option string :=
  match d !! k with Some v => v | None => None end.

(** [d.get(k, "")] *)
Definition get_or_empty (d : Dict) (k : string) : option string :=
  match d !! k with Some v => v | None => Some EmptyString end.

(** [a or b] on values that are strings or [None]. *)
Definition por (a b : option string) : option string :=
  if Py.truthy a then a else b.

(** The dict [{"name": .., "url": .., "snippet": ..}] that
    [gather_snippets] builds. *)
Record Item : Type := mkItem {
  item_name : option string;
  item_url : option string;
  item_snippet : option string
}.

#[global] Instance Item_eq_dec : EqDecision Item.
Proof. solve_decision. Defined.

(** The planner's result. *)
Record Plan : Type := mkPlan {
  need_fresh_search : bool;
  search_queries : list string;
  followups : list string
}.

(** The response of [requests.get]. *)
Record HttpResponse : Type := mkHttpResponse {
  status_code : Z;
  json : outcome (gmap string (list Dict))
}.

(** The cached overview document, [{"summary": .., "results": [..]}];
    a key may be absent ([read_json] gives [{}] when there is no file). *)
Record CacheDoc : Type := mkCacheDoc {
  doc_summary : option string;
  doc_results : option (list Dict)
}.

(** A NumPy array of shape [(length nd_rows, nd_cols)]. *)
Record ndarray (R : Type) : Type := mkArray {
  nd_cols : nat;
  nd_rows : list (list R)
}.
Arguments mkArray {R} _ _.
Arguments nd_cols {R} _.
Arguments nd_rows {R} _.

(** [VectorIndex.__init__]: the four attributes. *)
Record VectorIndex (R : Type) : Type := mkIndex {
  vectors : option (ndarray R);
  metadatas : list Dict;
  texts : list string;
  dim : option nat
}.
Arguments mkIndex {R} _ _ _ _.
Arguments vectors {R} _.
Arguments metadatas {R} _.
Arguments texts {R} _.
Arguments dim {R} _.

Definition VectorIndex_init {R : Type} : VectorIndex R :=
  mkIndex None [] [] None.

(** What [SynthesizerAgent.answer] returns, and the key [followups]
    that [answer_multi] adds ([None]: the key is absent). *)
Record Response (R : Type) : Type := mkResponse {
  answer : string;
  sources : list (option string);
  hits : list (R * Dict);
  resp_followups : option (list string)
}.
Arguments mkResponse {R} _ _ _ _.
Arguments answer {R} _.
Arguments sources {R} _.
Arguments hits {R} _.
Arguments resp_followups {R} _.

(** What a run does to the outside, in order. [EvGather] and
    [EvSynthesize] record that the method was entered. *)
Inductive event : Type :=
| EvHttp (endpoint query : string) (num : Z)
| EvGenerate (system_prompt user_prompt : string)
| EvEmbed (inputs : list string)
| EvReadJson (company name : string)
| EvGather (queries : list string) (count : Z)
| EvSynthesize (question : string) (fresh_snippets : list Item).

#[global] Instance event_eq_dec : EqDecision event.
Proof. solve_decision. Defined.

(** The environment: module-level configuration, the collaborators
    outside the repository, and NumPy's numerics over the scalars [R].
    A collaborator's answer may depend on how many calls came before. *)
Record Env (R : Type) : Type := mkEnv {
  (* search.py *)
  SEARCH_PROVIDER : string;
  SERPAPI_API_KEY : option string;
  GOOGLE_CSE_API_KEY : option string;
  GOOGLE_CSE_CX : option string;
  requests_get : nat -> string -> string -> Z -> outcome HttpResponse;
  (* llm.py *)
  call_gemini : nat -> string -> string -> outcome (option string);
  (* cache.py *)
  read_json : string -> string -> outcome CacheDoc;
  (* index.py *)
  client : bool;
  embeddings_create : nat -> list string -> outcome (list (list R));
  (* NumPy *)
  rng_stream : Z -> nat -> R;          (* default_rng(seed): the i-th draw *)
  float32 : R -> R;                    (* dtype=np.float32 *)
  np_norm : list R -> R;               (* np.linalg.norm of a vector *)
  np_dot : list R -> list R -> R;      (* one entry of a matrix-vector product *)
  np_mul : R -> R -> R;
  np_add : R -> R -> R;
  np_div : R -> R -> R;
  np_neg : R -> R;
  np_leb : R -> R -> bool;             (* the order argsort sorts by *)
  eps : R;                             (* 1e-8 *)
  np_argsort : list R -> list nat;
  (* Python *)
  repr_list : list (option string) -> string
}.
Arguments mkEnv {R}.
Arguments SEARCH_PROVIDER {R} _.
Arguments SERPAPI_API_KEY {R} _.
Arguments GOOGLE_CSE_API_KEY {R} _.
Arguments GOOGLE_CSE_CX {R} _.
Arguments requests_get {R} _ _ _ _ _.
Arguments call_gemini {R} _ _ _ _.
Arguments read_json {R} _ _ _.
Arguments client {R} _.
Arguments embeddings_create {R} _ _ _.
Arguments rng_stream {R} _ _ _.
Arguments float32 {R} _ _.
Arguments np_norm {R} _ _.
Arguments np_dot {R} _ _ _.
Arguments np_mul {R} _ _ _.
Arguments np_add {R} _ _ _.
Arguments np_div {R} _ _ _.
Arguments np_neg {R} _ _.
Arguments np_leb {R} _ _ _.
Arguments eps {R} _.
Arguments np_argsort {R} _ _.
Arguments repr_list {R} _ _.

(** The state a run threads: the calls made so far, the index the
    agent owns, and the trace. *)
Record World (R : Type) : Type := mkWorld {
  http_calls : nat;
  llm_calls : nat;
  embed_calls : nat;
  index : VectorIndex R;
  trace : list event
}.
Arguments mkWorld {R} _ _ _ _ _.
Arguments http_calls {R} _.
Arguments llm_calls {R} _.
Arguments embed_calls {R} _.
Arguments index {R} _.
Arguments trace {R} _.

Definition World_init {R : Type} : World R :=
  mkWorld 0 0 0 VectorIndex_init [].

Definition log {R : Type} (e : event) : M (World R) unit :=
  modify (fun w => mkWorld (http_calls w) (llm_calls w) (embed_calls w)
                           (index w) (trace w ++ [e])).

Definition set_index {R : Type} (ix : VectorIndex R) : M (World R) unit :=
  modify (fun w => mkWorld (http_calls w) (llm_calls w) (embed_calls w)
                           ix (trace w)).

(** One call of each collaborator. *)
Definition do_requests_get {R : Type} (env : Env R) (endpoint query : string) (num : Z)
  : M (World R) HttpResponse :=
  fun w =>
    (requests_get env (http_calls w) endpoint query num,
     mkWorld (S (http_calls w)) (llm_calls w) (embed_calls w) (index w)
             (trace w ++ [EvHttp endpoint query num])).

Definition do_call_gemini {R : Type} (env : Env R) (system_prompt user_prompt : string)
  : M (World R) (option string) :=
  fun w =>
    (call_gemini env (llm_calls w) system_prompt user_prompt,
     mkWorld (http_calls w) (S (llm_calls w)) (embed_calls w) (index w)
             (trace w ++ [EvGenerate system_prompt user_prompt])).

Definition do_embeddings_create {R : Type} (env : Env R) (inputs : list string)
  : M (World R) (list (list R)) :=
  fun w =>
    (embeddings_create env (embed_calls w) inputs,
     mkWorld (http_calls w) (llm_calls w) (S (embed_calls w)) (index w)
             (trace w ++ [EvEmbed inputs])).

Definition do_read_json {R : Type} (env : Env R) (company name : string)
  : M (World R) CacheDoc :=
  fun w =>
    (read_json env company name,
     mkWorld (http_calls w) (llm_calls w) (embed_calls w) (index w)
             (trace w ++ [EvReadJson company name])).

(* ================================================================== *)
(** ** services/search.py *)
(* ================================================================== *)

Module Search.
Section Defs.
Context {R : Type} (env : Env R).

(** [scrape.normalize_url]: [url.strip() if url else url]. *)
Definition normalize_url (url : option string) : option string :=
  match url with
  | Some s => if Py.is_empty s then url else Some (Py.strip s)
  | None => None
  end.

(** [Response.raise_for_status]: an HTTP 4xx or 5xx status raises. *)
Definition raise_for_status (r : HttpResponse) : M (World R) unit :=
  if (400 <=? status_code r)%Z && (status_code r <? 600)%Z
  then raise HTTPError else ret tt.

Definition serpapi_result (item : Dict) : Dict :=
  {[ "name" := get item "title";
     "url" := normalize_url (get item "link");
     "snippet" := get item "snippet";
     "displayUrl" := por (get item "displayed_link") (get item "link") ]}.

Definition serpapi_google_search (query : string) (count : Z)
  : M (World R) (list Dict) :=
  if negb (Py.truthy (SERPAPI_API_KEY env)) then ret []
  else
    r <- do_requests_get env "https://serpapi.com/search.json" query (Z.min 10 count) ;;
    raise_for_status r ;;;
    data <- lift_outcome (json r) ;;
    ret (map serpapi_result (default [] (data !! "organic_results"))).

Definition google_cse_result (item : Dict) : Dict :=
  {[ "name" := get item "title";
     "url" := normalize_url (get item "link");
     "snippet" := get item "snippet";
     "displayUrl" := get item "link" ]}.

Definition google_cse_search (query : string) (count : Z)
  : M (World R) (list Dict) :=
  if negb (Py.truthy (GOOGLE_CSE_API_KEY env) && Py.truthy (GOOGLE_CSE_CX env))
  then ret []
  else
    r <- do_requests_get env "https://www.googleapis.com/customsearch/v1" query
                         (Z.min 10 count) ;;
    raise_for_status r ;;;
    data <- lift_outcome (json r) ;;
    ret (map google_cse_result (default [] (data !! "items"))).

Definition web_search (query : string) (count : Z) : M (World R) (list Dict) :=
  let provider := Py.lower (SEARCH_PROVIDER env) in
  if String.eqb provider "serpapi" then serpapi_google_search query count
  else if String.eqb provider "google_cse" || String.eqb provider "google"
       then google_cse_search query count
  else serpapi_google_search query count.

End Defs.
End Search.

(* ================================================================== *)
(** ** RetrieverAgent  (multi_agent.py, lines 58-78) *)
(* ================================================================== *)

Module RetrieverAgent.
Section Defs.
Context {R : Type} (env : Env R).

Definition make_item (h : Dict) : Item :=
  mkItem (get_or_empty h "name") (get_or_empty h "url") (get_or_empty h "snippet").

(** [for h in hits: ... if item["url"]: results.append(item)] *)
Fixpoint append_hits (hits : list Dict) (results : list Item) : list Item :=
  match hits with
  | [] => results
  | h :: rest =>
      let item := make_item h in
      append_hits rest (if Py.truthy (item_url item) then results ++ [item] else results)
  end.

(** [for q in queries: hits = web_search(q, count=count) or []; ...] *)
Fixpoint search_loop (queries : list string) (count : Z) (results : list Item)
  : M (World R) (list Item) :=
  match queries with
  | [] => ret results
  | q :: rest =>
      hits <- Search.web_search env q count ;;
      search_loop rest count (append_hits hits results)
  end.

(** [for r in results: u = r["url"]; if u not in seen: seen.add(u); uniq.append(r)] *)
Fixpoint dedup_loop (results : list Item) (seen : gset (option string))
  (uniq : list Item) : list Item :=
  match results with
  | [] => uniq
  | r :: rest =>
      let u := item_url r in
      if decide (u ∈ seen) then dedup_loop rest seen uniq
      else dedup_loop rest ({[ u ]} ∪ seen) (uniq ++ [r])
  end.

Definition gather_snippets (queries : list string) (count : Z)
  : M (World R) (list Item) :=
  log (EvGather queries count) ;;;
  results <- search_loop queries count [] ;;
  ret (take 20 (dedup_loop results ∅ [])).

End Defs.
End RetrieverAgent.

(* ================================================================== *)
(** ** PlannerAgent  (multi_agent.py, lines 10-55) *)
(* ================================================================== *)

(** [llm.SYSTEM_BASE] and the fixed instruction texts are sent to the
    text generator and read by nothing else; the two dashes outside
    Latin-1 in them are written [-]. *)
Definition SYSTEM_BASE : string :=
  "You are a research-driven, context-aware assistant for company analysis and account planning. "
  ++ "Your goals: (1) retrieve facts from reliable sources, (2) synthesize concise, useful analysis aligned with user intent, "
  ++ "(3) ask short, targeted follow-ups or next-step suggestions when they materially improve outcomes. "
  ++ "Be conversational, constructive, and natural; prioritize clarity over verbosity. "
  ++ "When citing data, include URLs. Never output ASCII graphs; use plain text or references only. "
  ++ "Remove odd escapes (\\#, \\*, \\- ) and keep clean Markdown. Insert spaces between units and numbers (e.g., 'EUR 19.22B'). "
  ++ "Handle different user types-confused, efficient, chatty, and edge cases-by adapting tone and structure. "
  ++ "If data is not publicly available, say exactly 'Not publicly available'.".

Definition newline : string := String (ascii_of_N 10) EmptyString.

Module PlannerAgent.
Section Defs.
Context {R : Type} (env : Env R).

Definition triggers : list string :=
  ["use kb"; "from cached"; "from pdf"; "from overview"].

Definition plan_prompt (company user_prompt : string) : string :=
  "Derive 2-4 focused web search queries from the user's request. "
  ++ "Queries MUST be specific to the company and the metrics/entities mentioned. "
  ++ "No bullets, no commentary-one query per line." ++ newline
  ++ "Company: " ++ company ++ newline
  ++ "User request: " ++ user_prompt ++ newline.

(** [[l.strip() for l in qtext.splitlines() if l.strip()]] *)
Definition nonblank_lines (qtext : string) : list string :=
  map Py.strip
      (List.filter (fun l => negb (Py.is_empty (Py.strip l))) (Py.splitlines qtext)).

Definition template_queries (company user_prompt : string) : list string :=
  let base := Py.strip company in
  let up := Py.strip user_prompt in
  [ base ++ " " ++ up ++ " latest figures";
    base ++ " segment revenue by product last year";
    base ++ " top products revenue " ++ up;
    base ++ " annual report product revenue breakdown" ].

Definition fixed_followups : list string :=
  [ "Should I compare the last 3 years or focus on the latest year?";
    "Do you want product-level revenue or segment-level revenue?";
    "Should I include competitor benchmarks for context?" ].

Definition plan (company user_prompt : string) (kb_ready : bool)
  : M (World R) Plan :=
  let need_fresh_search :=
    if kb_ready && existsb (fun k => Py.str_in k (Py.lower user_prompt)) triggers
    then false else true in
  let prompt := plan_prompt company user_prompt in
  lines <- try_except
             (qtext <- (v <- do_call_gemini env SYSTEM_BASE prompt ;;
                        ret (Py.or_empty v)) ;;
              ret (nonblank_lines qtext))
             (fun _ => ret []) ;;
  let lines :=
    match lines with
    | [] => template_queries company user_prompt
    | _ => lines
    end in
  ret (mkPlan need_fresh_search (take 4 lines) fixed_followups).

End Defs.
End PlannerAgent.

(* ================================================================== *)
(** ** services/index.py: VectorIndex *)
(* ================================================================== *)

Module VectorIndex.
Section Defs.
Context {R : Type} (env : Env R).

Definition update_index (f : VectorIndex R -> VectorIndex R) : M (World R) unit :=
  modify (fun w => mkWorld (http_calls w) (llm_calls w) (embed_calls w)
                           (f (index w)) (trace w)).

Definition set_dim (d : nat) : M (World R) unit :=
  update_index (fun ix => mkIndex (vectors ix) (metadatas ix) (texts ix) (Some d)).

(** [np.random.default_rng(seed).random((n, d))]: the array is filled
    row by row from the generator's stream. *)
Definition rng_random (seed : Z) (n d : nat) : ndarray R :=
  mkArray d (map (fun i => map (fun j => rng_stream env seed (i * d + j)) (seq 0 d))
                 (seq 0 n)).

(** The fallback of [_embed]: [rng = default_rng(42); self.dim = 512;
    return rng.random((len(texts), self.dim))]. *)
Definition random_embeddings (inputs : list string) : M (World R) (ndarray R) :=
  set_dim 512 ;;;
  ret (rng_random 42 (length inputs) 512).

(** [np.array(embs, dtype=np.float32)] for a non-empty list of lists:
    rows of different lengths raise. *)
Definition np_array_float32 (embs : list (list R)) : M (World R) (ndarray R) :=
  match embs with
  | [] => ret (mkArray 0 [])
  | e0 :: _ =>
      if forallb (fun e => Nat.eqb (length e) (length e0)) embs
      then ret (mkArray (length e0) (map (map (float32 env)) embs))
      else raise ValueError
  end.

Definition _embed (inputs : list string) : M (World R) (ndarray R) :=
  if negb (client env) then random_embeddings inputs
  else
    try_except
      (embs <- do_embeddings_create env inputs ;;
       e0 <- index_at embs 0 ;;
       set_dim (length e0) ;;;
       np_array_float32 embs)
      (fun _ => random_embeddings inputs).

(** [np.vstack([a, b])]: the column counts must agree. *)
Definition np_vstack (a b : ndarray R) : M (World R) (ndarray R) :=
  if Nat.eqb (nd_cols a) (nd_cols b)
  then ret (mkArray (nd_cols a) (nd_rows a ++ nd_rows b))
  else raise ValueError.

Definition add (new_texts : list string) (new_metadatas : list Dict)
  : M (World R) unit :=
  match new_texts with
  | [] => ret tt
  | _ =>
      embeds <- _embed new_texts ;;
      update_index (fun ix => mkIndex (vectors ix) (metadatas ix)
                                      (texts ix ++ new_texts) (dim ix)) ;;;
      update_index (fun ix => mkIndex (vectors ix) (metadatas ix ++ new_metadatas)
                                      (texts ix) (dim ix)) ;;;
      ix <- gets index ;;
      v <- match vectors ix with
           | None => ret embeds
           | Some old => np_vstack old embeds
           end ;;
      update_index (fun ix => mkIndex (Some v) (metadatas ix) (texts ix) (dim ix))
  end.

(** [self.vectors @ qv]: the vector must have as many entries as the
    array has columns. *)
Definition np_matvec (a : ndarray R) (qv : list R) : M (World R) (list R) :=
  if Nat.eqb (nd_cols a) (length qv)
  then ret (map (fun v => np_dot env v qv) (nd_rows a))
  else raise ValueError.

Definition search (query : string) (k : Z) : M (World R) (list (R * Dict)) :=
  ix <- gets index ;;
  match vectors ix with
  | None => ret []
  | Some vecs =>
      if Nat.eqb (length (texts ix)) 0 then ret []
      else
        q <- _embed [query] ;;
        qv <- index_at (nd_rows q) 0 ;;
        let denom := map (fun v => np_mul env (np_norm env v) (np_norm env qv))
                         (nd_rows vecs) in
        prods <- np_matvec vecs qv ;;
        let sims := zip_with (np_div env) prods
                             (map (fun d => np_add env d (eps env)) denom) in
        let idxs := slice_to k (np_argsort env (map (np_neg env) sims)) in
        ix <- gets index ;;
        for_each (fun i => s <- index_at sims i ;;
                           md <- index_at (metadatas ix) i ;;
                           ret (s, md))
                 idxs
  end.

End Defs.
End VectorIndex.

(* ================================================================== *)
(** ** SynthesizerAgent  (multi_agent.py, lines 81-131) *)
(* ================================================================== *)

Module SynthesizerAgent.
Section Defs.
Context {R : Type} (env : Env R).

Definition comma : ascii := ascii_of_N 44.
Definition space : ascii := ascii_of_N 32.

(** [re.sub(r",(?=\S)", ", ", text)] *)
Fixpoint sub_comma (s : string) : string :=
  match s with
  | EmptyString => EmptyString
  | String c rest =>
      if (Py.code c =? 44)%N
         && match rest with
            | String c' _ => negb (Py.isspace c')
            | EmptyString => false
            end
      then String comma (String space (sub_comma rest))
      else String c (sub_comma rest)
  end.

Definition is_currency (a b c : ascii) : bool :=
  String.eqb (String a (String b (String c EmptyString))) "USD"
  || String.eqb (String a (String b (String c EmptyString))) "EUR".

(** [re.sub(r"\b(USD|EUR)(?=\d)", r"\1 ", text)]; [prev] is the
    character before [s]. *)
Fixpoint sub_currency (prev : option ascii) (s : string) : string :=
  match s with
  | EmptyString => EmptyString
  | String a rest =>
      match rest with
      | String b (String c rest') =>
          if Py.word_boundary prev (Some a) && is_currency a b c
             && match rest' with
                | String d _ => Py.isdecimal d
                | EmptyString => false
                end
          then String a (String b (String c (String space (sub_currency (Some c) rest'))))
          else String a (sub_currency (Some a) rest)
      | _ => String a (sub_currency (Some a) rest)
      end
  end.

Definition _clean (text : option string) : string :=
  let text := Py.or_empty text in
  let text := Py.replace "\#" "#" (Py.replace "\-" "-" (Py.replace "\*" "*"
                (Py.replace "\)" ")" (Py.replace "\(" "(" text)))) in
  let text := sub_comma text in
  let text := sub_currency None text in
  Py.strip text.

Definition fresh_line (r : Item) : string :=
  "- " ++ Py.fmt (item_name r) ++ ": " ++ Py.fmt (item_snippet r)
  ++ " (" ++ Py.fmt (item_url r) ++ ")".

Definition answer_prompt (company question overview_snips : string)
  (pdf_sources : list (option string)) (fresh_snips : string) : string :=
  "Company: " ++ company ++ newline
  ++ "Question: " ++ question ++ newline ++ newline
  ++ "Use ALL available context (overview + KB evidence + fresh web snippets)." ++ newline
  ++ "Produce a direct, well-reasoned answer with:" ++ newline
  ++ "- 1 short paragraph summarizing the answer and key drivers/insights" ++ newline
  ++ "- 3-5 bullets of suggestions or inferred implications (NOT just restating data)" ++ newline
  ++ "Rules:" ++ newline
  ++ "- Plain Markdown only (no backslashes, no odd escapes)" ++ newline
  ++ "- Include numbers with spaces (e.g., 'USD 20.8B')" ++ newline
  ++ "- If confidence is low, explicitly say what's missing and propose follow-ups"
  ++ newline ++ newline
  ++ "Overview snippets:" ++ newline ++ overview_snips ++ newline ++ newline
  ++ "KB PDF sources:" ++ newline ++ repr_list env pdf_sources ++ newline ++ newline
  ++ "Fresh web snippets:" ++ newline ++ fresh_snips ++ newline.

(** [h[1]["source"]] *)
Definition source_of (h : R * Dict) : M (World R) (option string) :=
  match snd h !! "source" with
  | Some v => ret v
  | None => raise KeyError
  end.

Definition answer (company question : string) (overview_results : list Dict)
  (fresh_snippets : list Item) : M (World R) (Response R) :=
  log (EvSynthesize question fresh_snippets) ;;;
  let overview_snips :=
    Py.join newline
      (map (fun r => Py.or_empty (get_or_empty r "snippet"))
           (List.filter (fun r => Py.truthy (get r "snippet")) overview_results)) in
  let fresh_snips := Py.join newline (map fresh_line fresh_snippets) in
  ix <- gets index ;;
  hp <- (match vectors ix with
         | Some _ =>
             if Nat.ltb 0 (length (texts ix)) then
               hits <- VectorIndex.search env question 5 ;;
               pdf_sources <- for_each source_of hits ;;
               ret (pdf_sources, hits)
             else ret ([], [])
         | None => ret ([], [])
         end) ;;
  let pdf_sources := fst hp in
  let hits := snd hp in
  let prompt := answer_prompt company question overview_snips pdf_sources fresh_snips in
  ans <- do_call_gemini env SYSTEM_BASE prompt ;;
  ret (mkResponse
         (_clean ans)
         (take 6 (fromkeys
                    (pdf_sources
                     ++ map item_url
                          (List.filter (fun r => Py.truthy (item_url r)) fresh_snippets))))
         hits
         None).

End Defs.
End SynthesizerAgent.

(* ================================================================== *)
(** ** ResearchAgent.answer_multi  (research_agent.py, lines 169-186) *)
(* ================================================================== *)

(** [ResearchAgent.__init__]: the index and the four agents live in
    the [World]; these are the plain attributes. *)
Record ResearchAgent : Type := mkAgent {
  company : string;
  years : Z;
  dept : option string
}.

Module ResearchAgent.
Section Defs.
Context {R : Type} (env : Env R).

Definition refine_q (self : ResearchAgent) (user_prompt : string) : list string :=
  [ company self ++ " " ++ user_prompt ++ " latest report";
    company self ++ " product revenue table FY " ++ Py.str_of_int (years self);
    company self ++ " segment revenue by product" ].

Definition with_followups (resp : Response R) (f : list string) : Response R :=
  mkResponse (answer resp) (sources resp) (hits resp) (Some f).

Definition answer_multi (self : ResearchAgent) (user_prompt : string) (kb_ready : bool)
  : M (World R) (Response R) :=
  ov <- do_read_json env (company self) "basic_overview" ;;
  let overview_results := default [] (doc_results ov) in
  plan <- PlannerAgent.plan env (company self) user_prompt kb_ready ;;
  fresh_snippets <- (if need_fresh_search plan
                     then RetrieverAgent.gather_snippets env (search_queries plan) 6
                     else ret []) ;;
  resp <- SynthesizerAgent.answer env (company self) user_prompt
                                  overview_results fresh_snippets ;;
  resp <- (if CriticAgent.needs_retry (answer resp) then
             fresh_snippets2 <- RetrieverAgent.gather_snippets env
                                  (refine_q self user_prompt) 6 ;;
             SynthesizerAgent.answer env (company self) user_prompt
                                     overview_results fresh_snippets2
           else ret resp) ;;
  ret (with_followups resp (followups plan)).

End Defs.
End ResearchAgent.

(* ================================================================== *)
(** ** Test doubles *)
(* ================================================================== *)

(** Concrete environments for running the model: scalars are
    fixed-point numbers in units of [1e-8] (so [eps] is [1]), the
    argsort is a stable insertion sort, and the collaborators are
    stubs. *)
Module Fixture.

Definition scale : Z := 100000000.

Definition fx_mul (a b : Z) : Z := (a * b / scale)%Z.
Definition fx_div (a b : Z) : Z := (a * scale / b)%Z.
Definition fx_dot (u v : list Z) : Z :=
  fold_right Z.add 0%Z (zip_with fx_mul u v).
Definition fx_norm (u : list Z) : Z :=
  Z.sqrt (fold_right Z.add 0%Z (map (fun a => (a * a)%Z) u)).

(** Insert the index [i] (with key [x]) into a list of indices sorted
    by key; an equal key goes after the ones already there. *)
Fixpoint insert_sorted (keys : list Z) (i : nat) (sorted : list nat) : list nat :=
  match sorted with
  | [] => [i]
  | j :: rest =>
      if (nth i keys 0 <? nth j keys 0)%Z then i :: j :: rest
      else j :: insert_sorted keys i rest
  end.

Definition argsort (keys : list Z) : list nat :=
  fold_left (fun sorted i => insert_sorted keys i sorted) (seq 0 (length keys)) [].

Definition hit (name url snippet : string) : Dict :=
  {[ "title" := Some name; "link" := Some url; "snippet" := Some snippet ]}.

Definition ok_response (items : list Dict) : HttpResponse :=
  mkHttpResponse 200 (Returned {[ "organic_results" := items ]}).

(** Every search returns the same two hits. *)
Definition two_hits : list Dict :=
  [ hit "Annual report" "https://acme.example/ar" "Revenue 2023";
    hit "Newsroom" "https://acme.example/news" "Products" ].

Definition base_env : Env Z :=
  mkEnv "serpapi" (Some "key") None None
        (fun _ _ _ _ => Returned (ok_response two_hits))
        (fun _ _ _ => Returned (Some "Revenue was USD20B in 2023"))
        (fun _ _ => Returned (mkCacheDoc None None))
        false
        (fun _ _ => Raised APIError)
        (fun seed i => ((seed + Z.of_nat i) mod 7 * 10000000)%Z)
        (fun x => x)
        fx_norm fx_dot fx_mul Z.add fx_div Z.opp Z.leb 1%Z
        argsort
        (fun _ => "[]").

Definition with_requests_get (env : Env Z)
  (f : nat -> string -> string -> Z -> outcome HttpResponse) : Env Z :=
  mkEnv (SEARCH_PROVIDER env) (SERPAPI_API_KEY env) (GOOGLE_CSE_API_KEY env)
        (GOOGLE_CSE_CX env) f (call_gemini env) (read_json env) (client env)
        (embeddings_create env) (rng_stream env) (float32 env) (np_norm env)
        (np_dot env) (np_mul env) (np_add env) (np_div env) (np_neg env)
        (np_leb env) (eps env) (np_argsort env) (repr_list env).

Definition with_call_gemini (env : Env Z)
  (f : nat -> string -> string -> outcome (option string)) : Env Z :=
  mkEnv (SEARCH_PROVIDER env) (SERPAPI_API_KEY env) (GOOGLE_CSE_API_KEY env)
        (GOOGLE_CSE_CX env) (requests_get env) f (read_json env) (client env)
        (embeddings_create env) (rng_stream env) (float32 env) (np_norm env)
        (np_dot env) (np_mul env) (np_add env) (np_div env) (np_neg env)
        (np_leb env) (eps env) (np_argsort env) (repr_list env).

Definition with_embeddings (env : Env Z) (c : bool)
  (f : nat -> list string -> outcome (list (list Z))) : Env Z :=
  mkEnv (SEARCH_PROVIDER env) (SERPAPI_API_KEY env) (GOOGLE_CSE_API_KEY env)
        (GOOGLE_CSE_CX env) (requests_get env) (call_gemini env) (read_json env) c
        f (rng_stream env) (float32 env) (np_norm env)
        (np_dot env) (np_mul env) (np_add env) (np_div env) (np_neg env)
        (np_leb env) (eps env) (np_argsort env) (repr_list env).

(** Two queries whose results share one URL. *)
Definition overlap_env : Env Z :=
  with_requests_get base_env
    (fun _ _ q _ =>
       if String.eqb q "q1"
       then Returned (ok_response [ hit "A" "https://a.example" "a";
                                    hit "B" "https://b.example" "b" ])
       else Returned (ok_response [ hit "B again" "https://b.example" "b2";
                                    hit "C" "https://c.example" "c" ])).

Definition overlap_hits : list (list Dict) :=
  [ map Search.serpapi_result [ hit "A" "https://a.example" "a";
                                hit "B" "https://b.example" "b" ];
    map Search.serpapi_result [ hit "B again" "https://b.example" "b2";
                                hit "C" "https://c.example" "c" ] ].

Definition overlap_world : World Z :=
  mkWorld 2 0 0 VectorIndex_init
          [ EvGather ["q1"; "q2"] 6;
            EvHttp "https://serpapi.com/search.json" "q1" 6;
            EvHttp "https://serpapi.com/search.json" "q2" 6 ].

(** The first search answers HTTP 500; later ones succeed. *)
Definition failing_search_env : Env Z :=
  with_requests_get base_env
    (fun n _ _ _ =>
       match n with
       | O => Returned (mkHttpResponse 500 (Raised JSONDecodeError))
       | _ => Returned (ok_response two_hits)
       end).

(** The text generator: query lines for the planner, then
    ["(No answer)"], then an answer with numbers. *)
Definition retry_env : Env Z :=
  with_call_gemini base_env
    (fun n _ _ =>
       match n with
       | 0 => Returned (Some ("Acme revenue 2023" ++ newline ++ "Acme products"))
       | 1 => Returned (Some "(No answer)")
       | _ => Returned (Some "Revenue was USD20B in 2023")
       end).

(** The text generator always raises. *)
Definition failing_llm_env : Env Z :=
  with_call_gemini base_env (fun _ _ _ => Raised APIError).

(** The embedding endpoint answers the first call with vectors of
    dimension 3 and fails from then on. *)
Definition flaky_embed_env : Env Z :=
  with_embeddings base_env true
    (fun n inputs =>
       match n with
       | O => Returned (map (fun _ => [scale; 0; 0]%Z) inputs)
       | _ => Raised APIError
       end).

Definition acme : ResearchAgent := mkAgent "Acme" 3 None.

Definition meta (src : string) : Dict := {[ "source" := Some src ]}.

End Fixture.

(* ================================================================== *)
(** ** The vocabulary of the specification *)
(* ================================================================== *)

(** [s] contains [sub] as a substring. *)
Definition contains (sub s : string) : Prop :=
  exists pre post : string, s = pre ++ sub ++ post.

(** The characters of a string, and the ten digits. *)
Definition chars (s : string) : list ascii := list_ascii_of_string s.

Definition digit_chars : list ascii := chars "0123456789".

Definition has_digit (s : string) : Prop :=
  exists c : ascii, c ∈ chars s /\ c ∈ digit_chars.

(** The lines the planner reads off the collaborator's outcome. *)
Definition planner_lines (o : outcome (option string)) : list string :=
  match o with
  | Returned v => PlannerAgent.nonblank_lines (Py.or_empty v)
  | Raised _ => []
  end.

Definition after_generate {R : Type} (w : World R) (system_prompt user_prompt : string)
  : World R :=
  mkWorld (http_calls w) (S (llm_calls w)) (embed_calls w) (index w)
          (trace w ++ [EvGenerate system_prompt user_prompt]).

(** The items [gather_snippets] makes of the hits of all queries, in
    the order the searches returned them. *)
Definition items_of (per_query_hits : list (list Dict)) : list Item :=
  map RetrieverAgent.make_item (concat per_query_hits).

(** The first item of [items] that has the URL of [r]. *)
Definition first_with_url (r : Item) (items : list Item) : option Item :=
  List.find (fun x => bool_decide (item_url x = item_url r)) items.

(** A URL that is a non-empty string. *)
Definition nonempty_url (r : Item) : Prop :=
  exists u : string, item_url r = Some u /\ u <> "".

(** The entries of a trace that record an agent method being entered. *)
Definition is_agent_event (e : event) : bool :=
  match e with
  | EvGather _ _ | EvSynthesize _ _ => true
  | _ => false
  end.

Definition agent_events (t : list event) : list event :=
  List.filter is_agent_event t.

(** A computation adds exactly the agent events [evs] to the trace,
    whether it returns or raises. *)
Definition emits {R A : Type} (evs : list event) (m : M (World R) A) : Prop :=
  forall w : World R,
    agent_events (trace (snd (m w))) = (agent_events (trace w) ++ evs)%list.

(** The first retrieval of [answer_multi]: the planner's queries, and
    only when the plan asks for a fresh search. *)
Definition first_retrieval {R : Type} (env : Env R) (p : Plan)
  : M (World R) (list Item) :=
  if need_fresh_search p
  then RetrieverAgent.gather_snippets env (search_queries p) 6
  else ret [].

Definition first_retrieval_events (p : Plan) : list event :=
  if need_fresh_search p then [EvGather (search_queries p) 6] else [].

(** Runs of [answer_multi] on the test doubles, step by step. *)
Module Runs.

(** The prompt asks for a fresh search; the first answer is "(No answer)". *)
Definition retry_prompt : string := "revenue?".

Definition retry_w0 : World Z :=
  Eval vm_compute in
    snd (do_read_json Fixture.retry_env "Acme" "basic_overview" World_init).

Definition retry_plan : Plan :=
  Eval vm_compute in
    match PlannerAgent.plan Fixture.retry_env "Acme" retry_prompt true retry_w0 with
    | (Returned p, _) => p
    | (Raised _, _) => mkPlan true [] []
    end.

Definition retry_w1 : World Z :=
  Eval vm_compute in
    snd (PlannerAgent.plan Fixture.retry_env "Acme" retry_prompt true retry_w0).

Definition retry_fresh : list Item :=
  [ mkItem (Some "Annual report") (Some "https://acme.example/ar") (Some "Revenue 2023");
    mkItem (Some "Newsroom") (Some "https://acme.example/news") (Some "Products") ].

Definition retry_w2 : World Z :=
  Eval vm_compute in
    snd (RetrieverAgent.gather_snippets Fixture.retry_env (search_queries retry_plan) 6
           retry_w1).

Definition retry_sources : list (option string) :=
  [ Some "https://acme.example/ar"; Some "https://acme.example/news" ].

Definition retry_resp1 : Response Z :=
  mkResponse "(No answer)" retry_sources [] None.

Definition retry_w3 : World Z :=
  Eval vm_compute in
    snd (SynthesizerAgent.answer Fixture.retry_env "Acme" retry_prompt [] retry_fresh
           retry_w2).

Definition retry_w4 : World Z :=
  Eval vm_compute in
    snd (RetrieverAgent.gather_snippets Fixture.retry_env
           (ResearchAgent.refine_q Fixture.acme retry_prompt) 6 retry_w3).

Definition retry_resp2 : Response Z :=
  mkResponse "Revenue was USD 20B in 2023" retry_sources [] None.

Definition retry_w5 : World Z :=
  Eval vm_compute in
    snd (SynthesizerAgent.answer Fixture.retry_env "Acme" retry_prompt [] retry_fresh
           retry_w4).

(** The prompt asks for the cache only; the first answer is "(No answer)". *)
Definition cache_prompt : string := "use KB: revenue by product".

Definition cache_plan : Plan :=
  Eval vm_compute in
    match PlannerAgent.plan Fixture.retry_env "Acme" cache_prompt true retry_w0 with
    | (Returned p, _) => p
    | (Raised _, _) => mkPlan true [] []
    end.

Definition cache_w1 : World Z :=
  Eval vm_compute in
    snd (PlannerAgent.plan Fixture.retry_env "Acme" cache_prompt true retry_w0).

Definition cache_resp1 : Response Z := mkResponse "(No answer)" [] [] None.

Definition cache_w3 : World Z :=
  Eval vm_compute in
    snd (SynthesizerAgent.answer Fixture.retry_env "Acme" cache_prompt [] [] cache_w1).

End Runs.

(** The parallel-array invariant of the index: as many texts as
    metadata records as rows of the embedding matrix. *)
Definition parallel_arrays {R : Type} (ix : VectorIndex R) : Prop :=
  length (metadatas ix) = length (texts ix)
  /\ match vectors ix with
     | Some v => length (nd_rows v) = length (texts ix)
     | None => texts ix = []
     end.

(** The embedding collaborator is unavailable (no client) or fails on
    every call. *)
Definition forced_failure {R : Type} (env : Env R) : Prop :=
  client env = false
  \/ forall (n : nat) (inputs : list string),
       exists e : exn, embeddings_create env n inputs = Raised e.

(** Two environments run on the same NumPy. *)
Definition same_numerics {R : Type} (env1 env2 : Env R) : Prop :=
  rng_stream env1 = rng_stream env2
  /\ np_norm env1 = np_norm env2
  /\ np_dot env1 = np_dot env2
  /\ np_mul env1 = np_mul env2
  /\ np_add env1 = np_add env2
  /\ np_div env1 = np_div env2
  /\ np_neg env1 = np_neg env2
  /\ eps env1 = eps env2
  /\ np_argsort env1 = np_argsort env2.

(** Two computations that, started on worlds with the same index,
    have the same outcome and leave the same index. *)
Definition same_on_index {R A : Type} (m1 m2 : M (World R) A) : Prop :=
  forall w1 w2 : World R,
    index w1 = index w2 ->
    fst (m1 w1) = fst (m2 w2) /\ index (snd (m1 w1)) = index (snd (m2 w2)).

(** What the model assumes of NumPy: [argsort] returns the indices
    in an order that sorts the values (it need not be stable: the
    default kind is quicksort), negation reverses the order,
    multiplication and the dot product are symmetric. *)
Record numpy_laws {R : Type} (env : Env R) : Prop := mkLaws {
  argsort_perm : forall xs : list R,
    Permutation (np_argsort env xs) (seq 0 (length xs));
  argsort_sorted : forall (xs : list R) (i j a b : nat) (x y : R),
    i < j ->
    np_argsort env xs !! i = Some a -> np_argsort env xs !! j = Some b ->
    xs !! a = Some x -> xs !! b = Some y ->
    np_leb env x y = true;
  neg_antitone : forall x y : R,
    np_leb env (np_neg env x) (np_neg env y) = true -> np_leb env y x = true;
  mul_comm : forall x y : R, np_mul env x y = np_mul env y x;
  dot_comm : forall u v : list R, np_dot env u v = np_dot env v u
}.

(** The cosine score of the specification:
    dot(q, v) / (norm(q) * norm(v) + 1e-8). *)
Definition cosine {R : Type} (env : Env R) (q v : list R) : R :=
  np_div env (np_dot env q v)
         (np_add env (np_mul env (np_norm env q) (np_norm env v)) (eps env)).

(** The index after [_embed]: only [dim] may have changed. *)
Definition with_dim {R : Type} (d : option nat) (ix : VectorIndex R) : VectorIndex R :=
  mkIndex (vectors ix) (metadatas ix) (texts ix) d.

(** The embedding endpoint is configured and raises on every call. *)
Definition Fixture_failing_embed_env : Env Z :=
  Fixture.with_embeddings Fixture.base_env true (fun _ _ => Raised APIError).

(** Indices compared by their keys. *)
Definition key_le (keys : list Z) (a b : nat) : Prop :=
  (nth a keys 0 <= nth b keys 0)%Z.

(** Runs of the index with an endpoint that embeds every text as the
    same vector of dimension 2. *)
Module IndexRuns.

Definition env : Env Z :=
  Fixture.with_embeddings Fixture.base_env true
    (fun _ inputs => Returned (map (fun _ => [Fixture.scale; 0%Z]) inputs)).

Definition three_texts : World Z :=
  Eval vm_compute in
    snd (VectorIndex.add env ["a"; "b"; "c"]
           [Fixture.meta "a.pdf"; Fixture.meta "b.pdf"; Fixture.meta "c.pdf"]
           World_init).

(** [search("q", k=-1)] on the three texts: two results. *)
Definition minus_one_result : list (Z * Dict) :=
  Eval vm_compute in
    match VectorIndex.search env "q" (-1) three_texts with
    | (Returned res, _) => res
    | (Raised _, _) => []
    end.

Definition minus_one_world : World Z :=
  Eval vm_compute in snd (VectorIndex.search env "q" (-1) three_texts).

Definition stored : ndarray Z :=
  mkArray 2 [ [Fixture.scale; 0%Z]; [Fixture.scale; 0%Z]; [Fixture.scale; 0%Z] ].

Definition query_array : ndarray Z := mkArray 2 [ [Fixture.scale; 0%Z] ].

Definition after_query : World Z :=
  Eval vm_compute in snd (VectorIndex._embed env ["q"] three_texts).

End IndexRuns.

(** An argsort that is not stable, as NumPy's default kind (quicksort)
    is not.  It sorts by insertion, but more than 17 indices start
    with those between the first and the last two in reverse.  On 18
    equal keys this gives [0; 15; 14; ..; 1; 16; 17], which is how
    NumPy's quicksort leaves them: it partitions an array of more than
    17 elements around the middle one, and the partition swaps the
    others pairwise from both ends also when their keys are equal. *)
Definition quicksort_start (n : nat) : list nat :=
  if Nat.ltb 17 n then (0 :: rev (seq 1 (n - 3)) ++ [n - 2; n - 1])%list
  else seq 0 n.

Definition quicksort_argsort (keys : list Z) : list nat :=
  fold_left (fun sorted i => Fixture.insert_sorted keys i sorted)
            (quicksort_start (length keys)) [].

(** Runs of the index that show where [search] leaves the claim. *)
Module SearchRuns.

(** The endpoint embeds every text as the same vector; [argsort] is
    the quicksort above. *)
Definition tie_env : Env Z :=
  mkEnv (SEARCH_PROVIDER IndexRuns.env) (SERPAPI_API_KEY IndexRuns.env)
        (GOOGLE_CSE_API_KEY IndexRuns.env) (GOOGLE_CSE_CX IndexRuns.env)
        (requests_get IndexRuns.env) (call_gemini IndexRuns.env)
        (read_json IndexRuns.env) (client IndexRuns.env)
        (embeddings_create IndexRuns.env) (rng_stream IndexRuns.env)
        (float32 IndexRuns.env) (np_norm IndexRuns.env) (np_dot IndexRuns.env)
        (np_mul IndexRuns.env) (np_add IndexRuns.env) (np_div IndexRuns.env)
        (np_neg IndexRuns.env) (np_leb IndexRuns.env) (eps IndexRuns.env)
        quicksort_argsort (repr_list IndexRuns.env).

Definition page (i : nat) : Dict :=
  Fixture.meta ("p" ++ Py.str_of_int (Z.of_nat i) ++ ".pdf").

(** Eighteen copies of one text, each with a source of its own. *)
Definition eighteen_texts : World Z :=
  Eval vm_compute in
    snd (VectorIndex.add tie_env (repeat "Annual report 2023" 18)
           (map page (seq 0 18)) World_init).

(** [search("revenue", k=5)] on them: five equal scores, and after the
    first text come the sixteenth, the fifteenth, ... *)
Definition tie_result : list (Z * Dict) :=
  map (fun i => (99999999%Z, page i)) [0; 15; 14; 13; 12].

Definition tie_world : World Z :=
  Eval vm_compute in snd (VectorIndex.search tie_env "revenue" 5 eighteen_texts).

(** One text stored at width 3 by the endpoint, which then fails: the
    query is embedded by the 512-wide fallback. *)
Definition narrow_index : World Z :=
  Eval vm_compute in
    snd (VectorIndex.add Fixture.flaky_embed_env ["a"] [Fixture.meta "a.pdf"]
           World_init).

(** [add(["a", "b"], [{"source": "a.pdf"}])]: two texts, two rows, one
    metadata record. *)
Definition short_metadata : World Z :=
  Eval vm_compute in
    snd (VectorIndex.add IndexRuns.env ["a"; "b"] [Fixture.meta "a.pdf"] World_init).

Definition short_after_query : World Z :=
  Eval vm_compute in snd (VectorIndex._embed IndexRuns.env ["q"] short_metadata).

End SearchRuns.

(** The stored data of [new] extends that of [old]: nothing is
    removed, replaced or reordered. *)
Definition store_extends {R : Type} (old new : VectorIndex R) : Prop :=
  texts old `prefix_of` texts new
  /\ metadatas old `prefix_of` metadatas new
  /\ match vectors old with
     | None => True
     | Some v =>
         exists v', vectors new = Some v'
                    /\ nd_rows v `prefix_of` nd_rows v'
                    /\ nd_cols v' = nd_cols v
     end.

(** The embedding endpoint returns one vector per input. *)
Definition one_vector_per_input {R : Type} (env : Env R) : Prop :=
  forall (n : nat) (inputs : list string) (embs : list (list R)),
    embeddings_create env n inputs = Returned embs -> length embs = length inputs.

(** A sequence of [add] calls, one per batch of texts and metadata. *)
Fixpoint add_all {R : Type} (env : Env R) (batches : list (list string * list Dict))
  : M (World R) unit :=
  match batches with
  | [] => ret tt
  | (new_texts, new_metadatas) :: rest =>
      VectorIndex.add env new_texts new_metadatas ;;;
      add_all env rest
  end.

(** Every stored row has the array's width. *)
Definition well_shaped {R : Type} (ix : VectorIndex R) : Prop :=
  match vectors ix with
  | Some v => Forall (fun r => length r = nd_cols v) (nd_rows v)
  | None => True
  end.

(** The world [w] with its index replaced. *)
Definition with_index {R : Type} (ix : VectorIndex R) (w : World R) : World R :=
  mkWorld (http_calls w) (llm_calls w) (embed_calls w) ix (trace w).

(** The index after the first [add] of the flaky endpoint: one text,
    embedded with dimension 3; the endpoint fails from then on. *)
Definition Fixture_flaky_one_text : World Z :=
  Eval vm_compute in
    snd (VectorIndex.add Fixture.flaky_embed_env ["a"] [Fixture.meta "a.pdf"]
           World_init).

Definition Fixture_flaky_after_query : World Z :=
  Eval vm_compute in
    snd (VectorIndex._embed Fixture.flaky_embed_env ["q"] Fixture_flaky_one_text).

(** From [w] to [w'] at most [n] HTTP requests were made, and
    neither the text generator, the embedding endpoint nor the index
    was touched. *)
Definition requests_at_most {R : Type} (n : nat) (w w' : World R) : Prop :=
  http_calls w <= http_calls w' <= http_calls w + n
  /\ llm_calls w' = llm_calls w
  /\ embed_calls w' = embed_calls w
  /\ index w' = index w.

(** The provider [web_search] dispatches to has its key(s) set. *)
Definition search_configured {R : Type} (env : Env R) : bool :=
  let provider := Py.lower (SEARCH_PROVIDER env) in
  if String.eqb provider "serpapi" then Py.truthy (SERPAPI_API_KEY env)
  else if String.eqb provider "google_cse" || String.eqb provider "google"
       then Py.truthy (GOOGLE_CSE_API_KEY env) && Py.truthy (GOOGLE_CSE_CX env)
  else Py.truthy (SERPAPI_API_KEY env).

(** A string without leading or trailing whitespace. *)
Definition trimmed (s : string) : Prop := Py.strip s = s.

(** A hit as the two providers build it: its URL is absent, [None],
    empty, or trimmed. *)
Definition normalized_url (v : option string) : Prop :=
  match v with
  | Some u => u = "" \/ (u <> "" /\ trimmed u)
  | None => True
  end.

(** Every comma of [s] is its last character or is followed by
    whitespace. *)
Fixpoint commas_spaced (s : string) : bool :=
  match s with
  | EmptyString => true
  | String c rest =>
      (if (Py.code c =? 44)%N
       then match rest with
            | String c' _ => Py.isspace c'
            | EmptyString => true
            end
       else true)
      && commas_spaced rest
  end.

(* ================================================================== *)
(** ** services/llm.py: validate_question and call_gemini *)
(* ================================================================== *)

(** The text generator as the repository wraps it.  The agents above
    reach it through the collaborator [call_gemini] of [Env]; this is
    the function behind that collaborator, over the [genai] client. *)
Module Llm.

(** The exception classes [call_gemini] tells apart, each with its
    [str(e)]. *)
Inductive failure : Type :=
| ResourceExhausted (details : string)
| NotFound (details : string)
| OtherException (details : string).

Definition str_of (e : failure) : string :=
  match e with
  | ResourceExhausted d | NotFound d | OtherException d => d
  end.

Inductive reply (A : Type) : Type :=
| Ok (a : A)
| Fails (e : failure).
Arguments Ok {A} a.
Arguments Fails {A} e.

(** An entry of [genai.list_models()]; the attribute
    [supported_generation_methods] may be missing. *)
Record ModelInfo : Type := mkModelInfo {
  name : string;
  supported_generation_methods : option (list string)
}.

(** The [genai] client and the module-level configuration; [F] is the
    type of floats.  An answer may depend on how many calls came
    before. *)
Record GenAI (F : Type) : Type := mkGenAI {
  GEMINI_MODEL : string;
  _VALID_MODEL : string;
  list_models : nat -> reply (list ModelInfo);
  (* GenerativeModel(model_name, system_instruction)
       .generate_content(prompt, {"temperature": t}).text *)
  generate_content : nat -> string -> string -> string -> F -> reply (option string)
}.
Arguments mkGenAI {F} _ _ _ _.
Arguments GEMINI_MODEL {F} _.
Arguments _VALID_MODEL {F} _.
Arguments list_models {F} _ _.
Arguments generate_content {F} _ _ _ _ _ _.

(** The calls made so far: the number of model listings and the
    model names used, in order. *)
Record Calls : Type := mkCalls {
  listings : nat;
  uses : list string
}.

Definition FLASH_CANDIDATES : list string :=
  [ "gemini-1.5-flash-latest"; "gemini-2.0-flash"; "gemini-flash-latest" ].

Definition ALLOWED_TOPICS : list string :=
  [ "revenue"; "growth"; "financial"; "market"; "competitors";
    "products"; "swot"; "account plan"; "strategy"; "stakeholders";
    "profit"; "margin"; "ebitda"; "forecast"; "pricing"; "sales"; "customer" ].

Definition validate_question (text : option string) : bool :=
  let t := Py.lower (Py.or_empty text) in
  if Py.str_in "structured account plan sections" t
     || Py.str_in "create structured account plan" t
  then true
  else existsb (fun k => Py.str_in k t) ALLOWED_TOPICS.

(** What [call_gemini] answers to a prompt off the allowed topics. *)
Definition unrelated : string :=
  "(Your question seems unrelated to account planning. Please ask relevant questions.)".

(** The chain of [replace] calls that removes the escapes. *)
Definition unescape (text : string) : string :=
  Py.replace "\#" "#" (Py.replace "\-" "-" (Py.replace "\*" "*"
    (Py.replace "\)" ")" (Py.replace "\(" "(" text)))).

Section Defs.
Context {F : Type} (g : GenAI F).

Definition _available_generate_models : Calls -> list string * Calls :=
  fun s =>
    let s' := mkCalls (S (listings s)) (uses s) in
    match list_models g (listings s) with
    | Ok ms =>
        (map name
             (List.filter
                (fun m => bool_decide
                            ("generateContent"
                               ∈ default [] (supported_generation_methods m)))
                ms),
         s')
    | Fails _ => ([], s')
    end.

Definition _normalize_model_name (name : string) : string :=
  Py.replace "models/" "" name.

Definition _pick_valid_model (preferred : string) : Calls -> string * Calls :=
  fun s =>
    let '(available, s') := _available_generate_models s in
    let normalized := map _normalize_model_name available in
    (if bool_decide (preferred ∈ normalized) then "models/" ++ preferred
     else match List.find (fun fb => bool_decide (fb ∈ normalized)) FLASH_CANDIDATES with
          | Some fb => "models/" ++ fb
          | None =>
              match available with
              | first :: _ => first
              | [] => "models/" ++ preferred
              end
          end,
     s').

(** The local function [_invoke] of [call_gemini]. *)
Definition _invoke (system_prompt user_prompt : string) (temperature : F)
  (model_name : string) : Calls -> reply string * Calls :=
  fun s =>
    let s' := mkCalls (listings s) (uses s ++ [model_name]) in
    match generate_content g (length (uses s)) model_name system_prompt
                           user_prompt temperature with
    | Ok text => (Ok (unescape (Py.or_empty text)), s')
    | Fails e => (Fails e, s')
    end.

(** [for fb in FLASH_CANDIDATES: try: return _invoke(..) except
    Exception: continue]; [None] when the loop runs out. *)
Fixpoint try_candidates (system_prompt user_prompt : string) (temperature : F)
  (candidates : list string) : Calls -> option string * Calls :=
  fun s =>
    match candidates with
    | [] => (None, s)
    | fb :: rest =>
        match _invoke system_prompt user_prompt temperature ("models/" ++ fb) s with
        | (Ok text, s') => (Some text, s')
        | (Fails _, s') => try_candidates system_prompt user_prompt temperature rest s'
        end
    end.

Definition call_gemini (system_prompt user_prompt : string) (temperature : F)
  : Calls -> reply string * Calls :=
  fun s =>
    if negb (validate_question (Some user_prompt)) then (Ok unrelated, s)
    else
      match _invoke system_prompt user_prompt temperature (_VALID_MODEL g) s with
      | (Ok text, s1) => (Ok text, s1)
      | (Fails (ResourceExhausted e), s1) =>
          match try_candidates system_prompt user_prompt temperature
                               FLASH_CANDIDATES s1 with
          | (Some text, s2) => (Ok text, s2)
          | (None, s2) =>
              (Ok ("(LLM 429: quota exceeded. Details: " ++ e ++ ")"), s2)
          end
      | (Fails (NotFound _), s1) =>
          let '(alt, s2) := _pick_valid_model (GEMINI_MODEL g) s1 in
          match _invoke system_prompt user_prompt temperature alt s2 with
          | (Ok text, s3) => (Ok text, s3)
          | (Fails e2, s3) =>
              (Ok ("(LLM 404: " ++ _VALID_MODEL g ++ " not found; fallback "
                   ++ alt ++ " failed: " ++ str_of e2 ++ ")"), s3)
          end
      | (Fails (OtherException e), s1) =>
          (Ok ("(LLM error on " ++ _VALID_MODEL g ++ ": " ++ e ++ ")"), s1)
      end.

End Defs.
End Llm.

(** The collaborator [call_gemini] of an environment is
    [Llm.call_gemini] over the client [g]: each of its answers is what
    that function returns from some state of the client. *)
Definition of_reply (r : Llm.reply string) : outcome (option string) :=
  match r with
  | Llm.Ok text => Returned (Some text)
  | Llm.Fails _ => Raised APIError
  end.

Definition runs_llm {R F : Type} (env : Env R) (g : Llm.GenAI F) (temperature : F)
  : Prop :=
  forall (n : nat) (system_prompt user_prompt : string),
    exists s : Llm.Calls,
      call_gemini env n system_prompt user_prompt
      = of_reply (fst (Llm.call_gemini g system_prompt user_prompt temperature s)).

(** A client whose preferred model is out of quota and whose other
    models fail, and an environment over it. *)
Definition Fixture_genai : Llm.GenAI unit :=
  Llm.mkGenAI "gemini-1.5-flash-latest" "models/gemini-1.5-flash-latest"
    (fun _ => Llm.Fails (Llm.OtherException "offline"))
    (fun n _ _ _ _ =>
       match n with
       | O => Llm.Fails (Llm.ResourceExhausted "quota")
       | _ => Llm.Fails (Llm.OtherException "unavailable")
       end).

Definition Fixture_llm_env : Env Z :=
  Fixture.with_call_gemini Fixture.base_env
    (fun _ system_prompt user_prompt =>
       of_reply (fst (Llm.call_gemini Fixture_genai system_prompt user_prompt tt
                                      (Llm.mkCalls 0 [])))).

(* ================================================================== *)
(** ** The report sections: llm.py (lines 110-144), multi_agent.py
       (build_report_sections), research_agent.py (generate_report_multi) *)
(* ================================================================== *)

(** [s.find(c)] and [s.rfind(c)] for a character [c] ([None]: -1), and
    [s[start:stop]] for indices that are not negative. *)
Fixpoint str_find (c : ascii) (s : string) : option nat :=
  match s with
  | EmptyString => None
  | String a rest =>
      if Ascii.eqb a c then Some 0
      else match str_find c rest with
           | Some i => Some (S i)
           | None => None
           end
  end.

Fixpoint str_rfind (c : ascii) (s : string) : option nat :=
  match s with
  | EmptyString => None
  | String a rest =>
      match str_rfind c rest with
      | Some i => Some (S i)
      | None => if Ascii.eqb a c then Some 0 else None
      end
  end.

Definition str_slice (start stop : nat) (s : string) : string :=
  String.substring start (stop - start) s.

(** [d.setdefault(k, v)] as a statement. *)
Definition setdefault (d : gmap string string) (k v : string) : gmap string string :=
  match d !! k with
  | Some _ => d
  | None => <[ k := v ]> d
  end.

Module LlmJson.

(** What [json.loads] gives: an object, whose members are values of
    some type [V], or a value that is no object. *)
Inductive parsed (V : Type) : Type :=
| JsonObject (members : gmap string V)
| JsonOther.
Arguments JsonObject {V} members.
Arguments JsonOther {V}.

(** The collaborators of [call_gemini_json]: the model (used with
    temperature 0.2), [json.loads] ([None]: it raises) and [str] on
    the values of an object. *)
Record JsonEnv (V : Type) : Type := mkJsonEnv {
  _VALID_MODEL : string;
  (* calls so far, model_name, system_instruction, prompt *)
  generate_content : nat -> string -> string -> string -> Llm.reply (option string);
  json_loads : string -> option (parsed V);
  py_str : V -> string
}.
Arguments mkJsonEnv {V} _ _ _ _.
Arguments _VALID_MODEL {V} _.
Arguments generate_content {V} _ _ _ _ _.
Arguments json_loads {V} _ _.
Arguments py_str {V} _ _.

(** How [call_gemini_json] can fail. *)
Inductive json_error : Type :=
| GenerateError (e : Llm.failure)
| AttributeError.            (* [raw.get] on a value that is no object *)

Definition EXPECTED_KEYS : list string :=
  [ "Directive Response"; "Overview"; "Competitors"; "Market Position";
    "Financial Summary"; "SWOT"; "Strategy"; "TOP PRODUCTS TABLE";
    "Revenue Graph"; "Structured Insights" ].

(** [str(keys)] for keys without quotes or backslashes. *)
Definition repr_keys (keys : list string) : string :=
  "[" ++ Py.join ", " (map (fun k => "'" ++ k ++ "'") keys) ++ "]".

Definition structured_sections_prompt (company : string) (years : Z)
  (dept directive : string) : string :=
  "Return ONLY a JSON object with keys: " ++ repr_keys EXPECTED_KEYS ++ ". "
  ++ "Each value should be plain text (no markdown fences). "
  ++ "Directive Response MUST explicitly address the user's directive (comparisons, reasons, next steps). "
  ++ "Context: company=" ++ company ++ ", years=" ++ Py.str_of_int years
  ++ ", dept=" ++ (if Py.is_empty dept then "not specified" else dept) ++ ". "
  ++ "User directive: " ++ directive.

Section Defs.
Context {R V : Type} (js : JsonEnv V).

Definition open_brace : ascii := ascii_of_N 123.
Definition close_brace : ascii := ascii_of_N 125.

Definition _parse_json (text : string) : parsed V :=
  match json_loads js (Py.strip text) with
  | Some v => v
  | None =>
      match str_find open_brace text, str_rfind close_brace text with
      | Some start, Some stop =>
          match json_loads js (str_slice start (stop + 1) text) with
          | Some v => v
          | None => JsonObject ∅
          end
      | _, _ => JsonObject ∅
      end
  end.

(** [{k: str(raw.get(k, "")).strip() for k in EXPECTED_KEYS}]: on an
    object, and on a value without [get]. *)
Definition coerce_object (members : gmap string V) : gmap string string :=
  list_to_map
    (map (fun k => (k, Py.strip (match members !! k with
                                 | Some v => py_str js v
                                 | None => ""
                                 end)))
         EXPECTED_KEYS).

Definition coerce_sections (raw : parsed V) : gmap string string + json_error :=
  match raw with
  | JsonObject members => inl (coerce_object members)
  | JsonOther => inr AttributeError
  end.

Definition call_gemini_json (company : string) (years : Z) (dept directive : string)
  : World R -> (gmap string string + json_error) * World R :=
  fun w =>
    let prompt := structured_sections_prompt company years dept directive in
    let w' := after_generate w SYSTEM_BASE prompt in
    match generate_content js (llm_calls w) (_VALID_MODEL js) SYSTEM_BASE prompt with
    | Llm.Ok text => (coerce_sections (_parse_json (Py.or_empty text)), w')
    | Llm.Fails e => (inr (GenerateError e), w')
    end.

End Defs.
End LlmJson.

Module Report.
Section Defs.
Context {R V : Type} (env : Env R) (js : LlmJson.JsonEnv V).

(** [SynthesizerAgent.build_report_sections] *)
Definition report_prompt (company directive overview_text fresh_snips : string)
  : string :=
  "Create a structured account plan for " ++ company ++ "." ++ newline
  ++ "Directive from user: " ++ directive ++ newline
  ++ "Sections required:" ++ newline
  ++ "- Company Overview (3-5 bullets)" ++ newline
  ++ "- Main Products (5-8 items)" ++ newline
  ++ "- Competitors (6-10 names + 1-line descriptors)" ++ newline
  ++ "- Market Position (2-4 bullets)" ++ newline
  ++ "- Financial Summary (revenue, growth % if present)" ++ newline
  ++ "- SWOT Analysis (4-6 bullets each)" ++ newline
  ++ "- If the directive requests a TOP PRODUCTS TABLE with revenue, produce a Markdown table:"
  ++ newline
  ++ "  | Product | FY (year) | Revenue (USD) | Source |" ++ newline
  ++ "Use both the overview and the fresh web snippets below." ++ newline
  ++ "Rules:" ++ newline
  ++ "- Plain Markdown only; bullets or tables; no pseudo formatting" ++ newline
  ++ "- If data for a requested table is incomplete, include rows with 'N/A' and provide sources"
  ++ newline ++ newline
  ++ "Overview:" ++ newline ++ overview_text ++ newline ++ newline
  ++ "Fresh snippets:" ++ newline ++ fresh_snips ++ newline.

Definition build_report_sections (company directive overview_text : string)
  (fresh_snippets : list Item) : M (World R) (gmap string string) :=
  let fresh_snips :=
    Py.join newline (map SynthesizerAgent.fresh_line fresh_snippets) in
  content <- do_call_gemini env SYSTEM_BASE
               (report_prompt company directive overview_text fresh_snips) ;;
  ret {[ "Structured Insights" := SynthesizerAgent._clean content ]}.

Definition directive_placeholder (directive : string) : string :=
  "(Directive was: " ++ directive
  ++ ". This build used the older 'Structured Insights' bucket. "
  ++ "Edit this section in the UI if you want to add directive-specific notes.)".

Definition original_keys : list string :=
  [ "Overview"; "Competitors"; "Market Position"; "Financial Summary"; "SWOT";
    "Strategy"; "TOP PRODUCTS TABLE"; "Revenue Graph"; "Structured Insights" ].

(** [sections and any((v or "").strip() for v in sections.values())] *)
Definition any_nonblank (sections : gmap string string) : bool :=
  negb (bool_decide (sections = ∅))
  && existsb (fun kv => negb (Py.is_empty (Py.strip (snd kv)))) (map_to_list sections).

(** The part of [generate_report_multi] after the [try] statement. *)
Definition fallback_sections (self : ResearchAgent) (directive : string)
  : M (World R) (gmap string string) :=
  doc <- do_read_json env (company self) "basic_overview" ;;
  let ov := default "" (doc_summary doc) in
  plan <- PlannerAgent.plan env (company self) directive true ;;
  fresh_snippets <- (if need_fresh_search plan
                     then RetrieverAgent.gather_snippets env (search_queries plan) 6
                     else ret []) ;;
  sections <- build_report_sections (company self) directive ov fresh_snippets ;;
  let sections :=
    match sections !! "Directive Response" with
    | Some _ => sections
    | None => <[ "Directive Response" := directive_placeholder directive ]> sections
    end in
  ret (fold_left (fun d k => setdefault d k "") original_keys sections).

Definition generate_report_multi (self : ResearchAgent) (directive : string)
  : M (World R) (gmap string string) :=
  fun w =>
    match LlmJson.call_gemini_json js (company self) (years self)
                                   (Py.or_empty (dept self)) directive w with
    | (inl sections, w1) =>
        if any_nonblank sections then (Returned sections, w1)
        else fallback_sections self directive w1
    | (inr _, w1) => fallback_sections self directive w1
    end.

End Defs.
End Report.

(** A client that gives no JSON, and one that gives an object. *)
Definition Fixture_no_json : LlmJson.JsonEnv string :=
  LlmJson.mkJsonEnv "models/gemini-1.5-flash-latest"
    (fun _ _ _ _ => Llm.Ok (Some "Sorry, no JSON today"))
    (fun _ => None)
    (fun v => v).

Definition Fixture_report_world : World Z :=
  Eval vm_compute in
    snd (Report.generate_report_multi Fixture.base_env Fixture_no_json
           Fixture.acme "compare revenue" World_init).

Definition Fixture_report_sections : gmap string string :=
  Eval vm_compute in
    match fst (Report.generate_report_multi Fixture.base_env Fixture_no_json
                 Fixture.acme "compare revenue" World_init) with
    | Returned sections => sections
    | Raised _ => ∅
    end.

(* ================================================================== *)
(** ** ResearchAgent.ensure_index_loaded  (research_agent.py, lines 48-61) *)
(* ================================================================== *)

(** The cached document [deep_collect.json]; a key may be absent. *)
Record DeepDoc : Type := mkDeepDoc {
  doc_pdf_links : option (list (option string));
  doc_downloaded : option (list Dict)
}.

(** The collaborators that read the PDF cache: [read_json] on
    ["deep_collect"] and [pdf_extract.extract_pdf_text]. *)
Record PdfEnv : Type := mkPdfEnv {
  read_deep_collect : string -> outcome DeepDoc;
  extract_pdf_text : option string -> Z -> outcome string
}.

Module ResearchIndex.
Section Defs.
Context {R : Type} (env : Env R) (pdf : PdfEnv).

(** [for d in downloaded: ... if txt: texts.append(txt);
    metas.append({"source": src, "path": p})] *)
Fixpoint load_pdfs (downloaded : list Dict) (texts : list string) (metas : list Dict)
  : list string * list Dict :=
  match downloaded with
  | [] => (texts, metas)
  | d :: rest =>
      let p := get d "path" in
      let src := get d "url" in
      let txt := match extract_pdf_text pdf p 40 with
                 | Returned t => t
                 | Raised _ => ""
                 end in
      if Py.is_empty txt then load_pdfs rest texts metas
      else load_pdfs rest (texts ++ [txt])
                     (metas ++ [ {[ "source" := src; "path" := p ]} ])
  end.

Definition ensure_index_loaded (self : ResearchAgent) : M (World R) unit :=
  ix <- gets index ;;
  if match vectors ix with Some _ => true | None => false end
     && Nat.ltb 0 (length (texts ix))
  then ret tt
  else
    log (EvReadJson (company self) "deep_collect") ;;;
    deep <- lift_outcome (read_deep_collect pdf (company self)) ;;
    match default [] (doc_downloaded deep) with
    | [] => ret tt
    | downloaded =>
        let '(texts, metas) := load_pdfs downloaded [] [] in
        match texts with
        | [] => ret tt
        | _ => VectorIndex.add env texts metas
        end
    end.

End Defs.
End ResearchIndex.

(** Every metadata record of the index names its source. *)
Definition sourced {R : Type} (ix : VectorIndex R) : Prop :=
  Forall (fun m : Dict => is_Some (m !! "source")) (metadatas ix).

(** A cache with two downloaded reports, one of them unreadable. *)
Definition Fixture_pdf_env : PdfEnv :=
  mkPdfEnv
    (fun _ => Returned (mkDeepDoc None
       (Some [ {[ "path" := Some "doc_1.pdf"; "url" := Some "https://acme.example/ar.pdf" ]};
               {[ "path" := Some "doc_2.pdf"; "url" := Some "https://acme.example/q4.pdf" ]} ])))
    (fun p _ => if bool_decide (p = Some "doc_1.pdf")
                then Returned "Revenue 2023: USD 20B" else Raised RequestException).

Definition Fixture_loaded_world : World Z :=
  Eval vm_compute in
    snd (ResearchIndex.ensure_index_loaded IndexRuns.env Fixture_pdf_env Fixture.acme
           World_init).

(* ================================================================== *)
(** ** ResearchAgent.extract_swot  (research_agent.py, lines 283-296) *)
(* ================================================================== *)

Module Swot.

(** The four keys of the result. *)
Inductive heading : Type := Strengths | Weaknesses | Opportunities | Threats.

(** The dict [{"Strengths": [..], "Weaknesses": [..], "Opportunities":
    [..], "Threats": [..]}]. *)
Record swot : Type := mkSwot {
  strengths : list string;
  weaknesses : list string;
  opportunities : list string;
  threats : list string
}.

Definition is_newline (c : ascii) : bool := (Py.code c =? 10)%N.

(** What [.+] takes: the characters before the first newline. *)
Fixpoint up_to_newline (s : string) : string :=
  match s with
  | EmptyString => EmptyString
  | String c rest => if is_newline c then EmptyString else String c (up_to_newline rest)
  end.

Fixpoint last_non_newline (s : string) : option ascii :=
  match s with
  | EmptyString => None
  | String c rest =>
      match last_non_newline rest with
      | Some d => Some d
      | None => if is_newline c then None else Some c
      end
  end.

(** Group 1 of [re.match(r"[-*]\s*(.+)", s)].  [\s*] takes all the
    whitespace after the bullet; when nothing follows it, it gives
    characters back until [.+] can match one. *)
Definition bullet_text (s : string) : option string :=
  match s with
  | EmptyString => None
  | String c rest =>
      if (Py.code c =? 45)%N || (Py.code c =? 42)%N then
        match Py.lstrip rest with
        | EmptyString =>
            match last_non_newline rest with
            | Some d => Some (String d EmptyString)
            | None => None
            end
        | body => Some (up_to_newline body)
        end
      else None
  end.

(** [swot[current].append(item)] *)
Definition append_to (current : heading) (item : string) (sw : swot) : swot :=
  match current with
  | Strengths =>
      mkSwot (strengths sw ++ [item]) (weaknesses sw) (opportunities sw) (threats sw)
  | Weaknesses =>
      mkSwot (strengths sw) (weaknesses sw ++ [item]) (opportunities sw) (threats sw)
  | Opportunities =>
      mkSwot (strengths sw) (weaknesses sw) (opportunities sw ++ [item]) (threats sw)
  | Threats =>
      mkSwot (strengths sw) (weaknesses sw) (opportunities sw) (threats sw ++ [item])
  end.

(** The loop over the lines. *)
Fixpoint scan (lines : list string) (current : option heading) (sw : swot) : swot :=
  match lines with
  | [] => sw
  | line :: rest =>
      let h := Py.lower (Py.strip line) in
      if Py.str_in "strength" h then scan rest (Some Strengths) sw
      else if Py.str_in "weakness" h then scan rest (Some Weaknesses) sw
      else if Py.str_in "opportunit" h then scan rest (Some Opportunities) sw
      else if Py.str_in "threat" h then scan rest (Some Threats) sw
      else
        match current with
        | Some cur =>
            match bullet_text (Py.strip line) with
            | Some g => scan rest current (append_to cur (Py.strip g) sw)
            | None => scan rest current sw
            end
        | None => scan rest current sw
        end
  end.

Definition extract_swot (text : option string) : swot :=
  let sw := scan (Py.splitlines (Py.or_empty text)) None (mkSwot [] [] [] []) in
  mkSwot (take 6 (strengths sw)) (take 6 (weaknesses sw))
         (take 6 (opportunities sw)) (take 6 (threats sw)).

End Swot.

(** All entries of a SWOT result, and the words that make a line a
    heading. *)
Definition swot_entries (sw : Swot.swot) : list string :=
  Swot.strengths sw ++ Swot.weaknesses sw ++ Swot.opportunities sw ++ Swot.threats sw.

Definition heading_words : list string :=
  [ "strength"; "weakness"; "opportunit"; "threat" ].

(** An entry as [extract_swot] stores them: not empty, trimmed, and
    without a heading word in any letter case. *)
Definition swot_entry (e : string) : Prop :=
  e <> "" /\ trimmed e
  /\ forall hw : string, hw ∈ heading_words -> ~ contains hw (Py.lower e).

(* ================================================================== *)
(** ** services/cache.py: the directory name of a company *)
(* ================================================================== *)

Module Cache.

(** [c.isalnum() or c in ('-', '_')] *)
Definition keep (c : ascii) : bool :=
  Py.isalnum c || (Py.code c =? 45)%N || (Py.code c =? 95)%N.

Fixpoint filter_chars (f : ascii -> bool) (s : string) : string :=
  match s with
  | EmptyString => EmptyString
  | String c rest => if f c then String c (filter_chars f rest) else filter_chars f rest
  end.

(** The local [safe] of [company_dir]: the name of the directory
    under [data/cache].  [str.lower] is taken character by character,
    which is what Python does on Latin-1; for some characters beyond
    ([U+0130]) it gives two characters for one, so such names are not
    covered. *)
Definition safe (company : string) : string :=
  Py.lower (filter_chars keep company).

End Cache.

(** A name of ASCII characters only.  On these [str.isalnum] and
    [str.lower] are what [Py.isalnum] and [Py.lower] compute; outside
    Latin-1 [str.lower] can give more than one character for one, and
    one that is not alphanumeric. *)
Definition ascii_only (s : string) : Prop :=
  Forall (fun c => (Py.code c < 128)%N) (chars s).

(** The characters of a directory name. *)
Definition dir_chars : list ascii :=
  chars "abcdefghijklmnopqrstuvwxyz0123456789-_".

(** An index that holds one text with a 512-wide vector, as the
    fallback embedding leaves it. *)
Definition Fixture_fallback_world : World Z :=
  mkWorld 0 0 0
    (mkIndex (Some (mkArray 512 [ repeat 0%Z 512 ]))
             [ Fixture.meta "a.pdf" ] [ "Revenue 2023: USD 20B" ] (Some 512))
    [].

(** No search key, no OpenAI client, [llm.call_gemini] over a client
    that fails: every request would raise. *)
Definition Fixture_offline_env : Env Z :=
  Fixture.with_requests_get
    (mkEnv "serpapi" None None None
       (requests_get Fixture_llm_env) (call_gemini Fixture_llm_env)
       (read_json Fixture_llm_env) false (embeddings_create Fixture_llm_env)
       (rng_stream Fixture_llm_env) (float32 Fixture_llm_env)
       (np_norm Fixture_llm_env) (np_dot Fixture_llm_env) (np_mul Fixture_llm_env)
       (np_add Fixture_llm_env) (np_div Fixture_llm_env) (np_neg Fixture_llm_env)
       (np_leb Fixture_llm_env) (eps Fixture_llm_env) (np_argsort Fixture_llm_env)
       (repr_list Fixture_llm_env))
    (fun _ _ _ _ => Raised RequestException).

(* ================================================================== *)
(** ** report_builder._fetch_sources  (report_builder.py, lines 71-96) *)
(* ================================================================== *)

Module ReportBuilder.

(** What can be raised after the searches. *)
Inductive error : Type :=
| AttributeError      (* [None.lower()] *)
| KeyError.           (* [r["url"]] on a result without that key *)

Inductive fetched (A : Type) : Type :=
| Fetched (a : A)
| Failed (e : error).
Arguments Fetched {A} a.
Arguments Failed {A} e.

(** An entry [{"label": .., "url": ..}] of the result. *)
Record Source : Type := mkSource {
  label : string;
  url : option string
}.

(** [next((r for r in results if kw in (r.get("url","").lower())), None)] *)
Inductive scanned : Type :=
| Found (r : Dict)
| NotFound
| Raises.

Fixpoint first_match (kw : string) (results : list Dict) : scanned :=
  match results with
  | [] => NotFound
  | r :: rest =>
      match get_or_empty r "url" with
      | None => Raises
      | Some u => if Py.str_in kw (Py.lower u) then Found r else first_match kw rest
      end
  end.

(** [x = next(..); if x: sources.append({"label": label, "url": x["url"]})] *)
Definition add_source (kw label : string) (results : list Dict)
  (sources : list Source) : fetched (list Source) :=
  match first_match kw results with
  | Raises => Failed AttributeError
  | NotFound => Fetched sources
  | Found r =>
      if bool_decide (r = ∅) then Fetched sources
      else match r !! "url" with
           | Some v => Fetched (sources ++ [mkSource label v])%list
           | None => Failed KeyError
           end
  end.

Definition keywords : list string := [ "nokia.com"; "stockanalysis"; "macrotrends" ].

(** The labels; their dash is outside Latin-1 and written [-]. *)
Definition pick_sources (results : list Dict) : fetched (list Source) :=
  match add_source "nokia.com" "[S2] Nokia newsroom - FY2024 Financial Report"
                   results [] with
  | Failed e => Failed e
  | Fetched sources =>
      match add_source "stockanalysis" "[S1] StockAnalysis - Annual EUR series"
                       results sources with
      | Failed e => Failed e
      | Fetched sources =>
          add_source "macrotrends" "[S3] Macrotrends - Annual USD cross-check"
                     results sources
      end
  end.

Section Defs.
Context {R : Type} (env : Env R).

Definition queries (company : string) : list string :=
  [ company ++ " Corporation Financial Report for Q4 and full year 2024 net sales EUR";
    company ++ " newsroom FY2024 net sales EUR";
    company ++ " revenue 2024 2023 2022 EUR StockAnalysis";
    company ++ " revenue Macrotrends 2024" ].

(** [for q in queries: try: out = web_search(q, count=5) or [];
    results.extend(out) except Exception: continue] *)
Fixpoint fetch_results (queries : list string) (results : list Dict)
  : M (World R) (list Dict) :=
  match queries with
  | [] => ret results
  | q :: rest =>
      results <- try_except
                   (out <- Search.web_search env q 5 ;; ret (results ++ out)%list)
                   (fun _ => ret results) ;;
      fetch_results rest results
  end.

Definition _fetch_sources (company : string)
  : World R -> outcome (fetched (list Source)) * World R :=
  results <- fetch_results (queries company) [] ;;
  ret (pick_sources results).

End Defs.
End ReportBuilder.

(** The outcomes of [web_search(q, count=5)] for the queries in turn,
    and the hits of an outcome (none when the search raised). *)
Fixpoint searches {R : Type} (env : Env R) (queries : list string) (w : World R)
  : list (outcome (list Dict)) :=
  match queries with
  | [] => []
  | q :: rest =>
      fst (Search.web_search env q 5 w)
      :: searches env rest (snd (Search.web_search env q 5 w))
  end.

Definition hits_of (o : outcome (list Dict)) : list Dict :=
  match o with
  | Returned out => out
  | Raised _ => []
  end.

(** A source as [_fetch_sources] picks them from [results]. *)
Definition picked (results : list Dict) (s : ReportBuilder.Source) : Prop :=
  exists (r : Dict) (u kw : string),
    r ∈ results /\ r !! "url" = Some (Some u)
    /\ ReportBuilder.url s = Some u
    /\ kw ∈ ReportBuilder.keywords /\ contains kw (Py.lower u).

(* ================================================================== *)
(** ** research_agent._clean  (research_agent.py, lines 21-28) *)
(* ================================================================== *)

Module ResearchClean.

Definition is_tab (c : ascii) : bool := (Py.code c =? 9)%N.

(** [re.sub(r"[\t]+", " ", text)]: a run of tabs becomes one space. *)
Fixpoint sub_tabs (s : string) : string :=
  match s with
  | EmptyString => EmptyString
  | String c rest =>
      if is_tab c then
        match rest with
        | String c' _ =>
            if is_tab c' then sub_tabs rest
            else String SynthesizerAgent.space (sub_tabs rest)
        | EmptyString => String SynthesizerAgent.space EmptyString
        end
      else String c (sub_tabs rest)
  end.

(** [re.sub(r"\s*\n\s*", "\n", text)]: a maximal run of whitespace
    that holds a newline becomes one newline, any other run stays.
    [pending] is the run read so far, [nl] whether it holds a
    newline. *)
Fixpoint sub_newlines (pending : string) (nl : bool) (s : string) : string :=
  match s with
  | EmptyString => if nl then newline else pending
  | String c rest =>
      if Py.isspace c
      then sub_newlines (pending ++ String c EmptyString) (nl || Swot.is_newline c) rest
      else (if nl then newline else pending)
           ++ String c (sub_newlines EmptyString false rest)
  end.

(** The zero-width characters that the first substitution removes lie
    outside Latin-1, so it changes nothing here. *)
Definition _clean (text : option string) : string :=
  let text := Py.or_empty text in
  let text := sub_tabs text in
  let text := sub_newlines EmptyString false text in
  let text := Llm.unescape text in
  let text := SynthesizerAgent.sub_comma text in
  let text := SynthesizerAgent.sub_currency None text in
  Py.strip text.

End ResearchClean.

Definition isspace_opt (c : option ascii) : bool :=
  match c with Some c => Py.isspace c | None => false end.

(** No newline of [s] has whitespace next to it; [prev] is the
    character before [s]. *)
Fixpoint newlines_tight (prev : option ascii) (s : string) : bool :=
  match s with
  | EmptyString => true
  | String c rest =>
      (if Swot.is_newline c
       then negb (isspace_opt prev) && negb (isspace_opt (Py.head rest))
       else true)
      && newlines_tight (Some c) rest
  end.

Fixpoint no_tabs (s : string) : bool :=
  match s with
  | EmptyString => true
  | String c rest => negb (ResearchClean.is_tab c) && no_tabs rest
  end.

Fixpoint no_newline (s : string) : bool :=
  match s with
  | EmptyString => true
  | String c rest => negb (Swot.is_newline c) && no_newline rest
  end.

(* ================================================================== *)
(** * Properties *)
(* ================================================================== *)

(** ** Strings *)

Lemma append_nil_l (s : string) : "" ++ s = s.
Proof. reflexivity. Qed.

Lemma append_cons (c : ascii) (s t : string) :
  String c s ++ t = String c (s ++ t).
Proof. reflexivity. Qed.

Lemma startswith_spec (sub s : string) :
  Py.startswith sub s = true <-> exists post : string, s = sub ++ post.
Proof.
  revert s. induction sub as [|a sub IH]; intros s.
  - split; [intros _; by exists s | by destruct s].
  - destruct s as [|b s]; simpl.
    + split; [done | intros [post H]; discriminate].
    + rewrite andb_true_iff, IH, Ascii.eqb_eq. split.
      * intros [-> [post ->]]. by exists post.
      * intros [post H]. rewrite append_cons in H. injection H as -> ->. eauto.
Qed.

Lemma str_in_spec (sub s : string) :
  Py.str_in sub s = true <-> contains sub s.
Proof.
  unfold contains. split.
  - induction s as [|c s IH]; simpl; rewrite orb_true_iff.
    + intros [H|H]; [|done]. apply startswith_spec in H as [post H].
      by exists EmptyString, post.
    + intros [H|H].
      * apply startswith_spec in H as [post H]. by exists EmptyString, post.
      * destruct (IH H) as (pre & post & ->). by exists (String c pre), post.
  - intros (pre & post & ->). induction pre as [|c pre IH].
    + rewrite append_nil_l.
      assert (Py.startswith sub (sub ++ post) = true) as H
        by (apply startswith_spec; eauto).
      destruct (sub ++ post); simpl; by rewrite H.
    + rewrite append_cons. simpl. rewrite IH. apply orb_true_r.
Qed.

Lemma str_in_false (sub s : string) :
  Py.str_in sub s = false <-> ~ contains sub s.
Proof.
  rewrite <- str_in_spec. destruct (Py.str_in sub s); split; congruence.
Qed.

Lemma isdecimal_spec (c : ascii) :
  Py.isdecimal c = true <-> c ∈ digit_chars.
Proof.
  unfold digit_chars, chars; simpl. rewrite !elem_of_cons, elem_of_nil.
  destruct c as [[] [] [] [] [] [] [] []]; vm_compute;
    split; intros H; try discriminate; try reflexivity;
    try (repeat (destruct H as [H|H]; [discriminate|]); contradiction);
    repeat (first [left; reflexivity | right]).
Qed.

(** ** CriticAgent *)

Lemma year_here_digit (prev : option ascii) (c : ascii) (s : string) :
  CriticAgent.year_here prev (String c s) = true -> Py.isdecimal c = true.
Proof.
  unfold CriticAgent.year_here.
  destruct s as [|b [|c' [|d rest]]]; try discriminate.
  rewrite !andb_true_iff, orb_true_iff, !andb_true_iff.
  intros [[[[_ [[Ha _]|[Ha _]]] _] _] _];
    apply N.eqb_eq in Ha; unfold Py.isdecimal, Py.between; rewrite Ha; reflexivity.
Qed.

(** The pattern of [needs_retry] finds a match exactly in the strings
    with a digit: its first alternative never matters. *)
Lemma re_search_from_spec (prev : option ascii) (s : string) :
  CriticAgent.re_search_from prev s = true <-> has_digit s.
Proof.
  unfold has_digit, chars. revert prev.
  induction s as [|c s IH]; intros prev; simpl.
  - split; [done | intros (c & H & _); by apply elem_of_nil in H].
  - rewrite !orb_true_iff, IH. split.
    + intros [[H|H]|(d & Hd & Hd')].
      * apply year_here_digit in H. exists c. rewrite <- isdecimal_spec.
        split; [left | done].
      * exists c. rewrite <- isdecimal_spec. split; [left | done].
      * exists d. split; [by right | done].
    + intros (d & Hd & Hd'). apply elem_of_cons in Hd as [->|Hd].
      * left; right. by apply isdecimal_spec.
      * right. by exists d.
Qed.

Lemma existsb_bad_spec (s : string) :
  existsb (fun b => Py.str_in b s) CriticAgent.bad = true
  <-> exists b, b ∈ CriticAgent.bad /\ contains b s.
Proof.
  rewrite existsb_exists. split; intros (b & Hb & H); exists b.
  - split; [by apply list_elem_of_In | by apply str_in_spec].
  - split; [by apply list_elem_of_In | by apply str_in_spec].
Qed.

(** C7. [CriticAgent.needs_retry] is a function of its argument alone.
    It is true on the empty string, on every text that contains
    "(No answer)", on every text that contains one of "[Insert",
    "Cite Source]", "Not available", "(Overview)", and on every text
    without a digit; it is false on every text that has a digit and
    none of these markers.  In particular it is false on
    "Revenue grew in 2023 to 20B" and true on "Growth was strong". *)
Theorem needs_retry_spec :
  CriticAgent.needs_retry "" = true
  /\ (forall s, contains "(No answer)" s -> CriticAgent.needs_retry s = true)
  /\ (forall s b,
        b ∈ ["[Insert"; "Cite Source]"; "Not available"; "(Overview)"] ->
        contains b s -> CriticAgent.needs_retry s = true)
  /\ (forall s, ~ has_digit s -> CriticAgent.needs_retry s = true)
  /\ (forall s,
        has_digit s ->
        ~ contains "(No answer)" s ->
        (forall b, b ∈ ["[Insert"; "Cite Source]"; "Not available"; "(Overview)"] ->
                   ~ contains b s) ->
        CriticAgent.needs_retry s = false)
  /\ CriticAgent.needs_retry "Revenue grew in 2023 to 20B" = false
  /\ CriticAgent.needs_retry "Growth was strong" = true.
Proof.
  repeat split; try reflexivity.
  - intros s H. unfold CriticAgent.needs_retry.
    apply str_in_spec in H. rewrite H, orb_true_r. reflexivity.
  - intros s b Hb H. unfold CriticAgent.needs_retry.
    destruct (Py.is_empty s || Py.str_in "(No answer)" s); [reflexivity|].
    assert (existsb (fun b => Py.str_in b s) CriticAgent.bad = true) as ->; [|reflexivity].
    apply existsb_bad_spec. by exists b.
  - intros s H. unfold CriticAgent.needs_retry.
    destruct (Py.is_empty s || Py.str_in "(No answer)" s); [reflexivity|].
    destruct (existsb _ CriticAgent.bad); [reflexivity|].
    unfold CriticAgent.re_search.
    destruct (CriticAgent.re_search_from None s) eqn:E; [|reflexivity].
    apply re_search_from_spec in E. contradiction.
  - intros s Hd Hna Hbad. unfold CriticAgent.needs_retry.
    assert (Py.is_empty s = false) as ->.
    { destruct s; [|reflexivity]. destruct Hd as (c & Hc & _).
      by apply elem_of_nil in Hc. }
    apply str_in_false in Hna. rewrite Hna. simpl orb. cbv iota.
    destruct (existsb (fun b => Py.str_in b s) CriticAgent.bad) eqn:E.
    + apply existsb_bad_spec in E as (b & Hb & Hc). by destruct (Hbad b Hb).
    + unfold CriticAgent.re_search.
      apply (re_search_from_spec None) in Hd. rewrite Hd. reflexivity.
Qed.

(** ** PlannerAgent *)

(** [plan] makes one call to the text generator and always returns. *)
Lemma plan_eq {R : Type} (env : Env R) (company user_prompt : string) (kb_ready : bool)
  (w : World R) :
  PlannerAgent.plan env company user_prompt kb_ready w =
  (Returned
     (mkPlan
        (negb (kb_ready
               && existsb (fun k => Py.str_in k (Py.lower user_prompt))
                          PlannerAgent.triggers))
        (take 4
           (match planner_lines
                    (call_gemini env (llm_calls w) SYSTEM_BASE
                       (PlannerAgent.plan_prompt company user_prompt)) with
            | [] => PlannerAgent.template_queries company user_prompt
            | l => l
            end))
        PlannerAgent.fixed_followups),
   after_generate w SYSTEM_BASE (PlannerAgent.plan_prompt company user_prompt)).
Proof.
  unfold PlannerAgent.plan, bind, try_except, do_call_gemini, ret, planner_lines,
    after_generate.
  destruct (call_gemini env (llm_calls w) SYSTEM_BASE _) as [v|e];
    destruct (kb_ready && _);
    try destruct (PlannerAgent.nonblank_lines (Py.or_empty v)); reflexivity.
Qed.

Lemma existsb_triggers_spec (s : string) :
  existsb (fun k => Py.str_in k s) PlannerAgent.triggers = true
  <-> exists k, k ∈ ["use kb"; "from cached"; "from pdf"; "from overview"]
                /\ contains k s.
Proof.
  rewrite existsb_exists. split; intros (k & Hk & H); exists k.
  - split; [by apply list_elem_of_In | by apply str_in_spec].
  - split; [by apply list_elem_of_In | by apply str_in_spec].
Qed.

(** C8. The plan has [need_fresh_search = false] exactly when
    [kb_ready] is true and the lowercased prompt contains one of
    "use kb", "from cached", "from pdf", "from overview"; otherwise it
    is true. *)
Theorem plan_need_fresh_search {R : Type} (env : Env R) (company user_prompt : string)
  (kb_ready : bool) (w : World R) :
  exists (p : Plan) (w' : World R),
    PlannerAgent.plan env company user_prompt kb_ready w = (Returned p, w')
    /\ (need_fresh_search p = false
        <-> kb_ready = true
            /\ exists k, k ∈ ["use kb"; "from cached"; "from pdf"; "from overview"]
                         /\ contains k (Py.lower user_prompt))
    /\ (need_fresh_search p = true
        <-> ~ (kb_ready = true
               /\ exists k, k ∈ ["use kb"; "from cached"; "from pdf"; "from overview"]
                            /\ contains k (Py.lower user_prompt))).
Proof.
  eexists _, _. split; [apply plan_eq|]. simpl.
  rewrite <- existsb_triggers_spec, <- andb_true_iff.
  destruct (kb_ready && _); simpl; split; split; done.
Qed.

Lemma append_not_empty_r (s t : string) : t <> "" -> s ++ t <> "".
Proof.
  intros Ht. destruct s; [by rewrite append_nil_l | by rewrite append_cons].
Qed.

Lemma append_not_empty_l (s t : string) : s <> "" -> s ++ t <> "".
Proof. intros Hs. destruct s; [done | by rewrite append_cons]. Qed.

Lemma contains_prefix (s t : string) : contains s (s ++ t).
Proof. exists "", t. by rewrite append_nil_l. Qed.

Lemma template_queries_spec (company user_prompt : string) :
  length (PlannerAgent.template_queries company user_prompt) = 4
  /\ Forall (fun q => q <> "" /\ contains (Py.strip company) q)
            (PlannerAgent.template_queries company user_prompt).
Proof.
  split; [reflexivity|]. unfold PlannerAgent.template_queries.
  apply Forall_forall. intros q Hq.
  rewrite !elem_of_cons, elem_of_nil in Hq.
  destruct Hq as [->|[->|[->|[->|[]]]]];
    (split; [| apply contains_prefix]);
    apply append_not_empty_r; first [done | by apply append_not_empty_l].
Qed.

Lemma is_empty_false (s : string) : Py.is_empty s = false <-> s <> "".
Proof. destruct s; simpl; split; congruence. Qed.

Lemma is_empty_true (s : string) : Py.is_empty s = true <-> s = "".
Proof. destruct s; simpl; split; congruence. Qed.

Lemma nonblank_lines_nonempty (qtext : string) :
  Forall (fun q => q <> "") (PlannerAgent.nonblank_lines qtext).
Proof.
  unfold PlannerAgent.nonblank_lines. apply Forall_forall. intros q Hq.
  apply list_elem_of_In, in_map_iff in Hq as (l & <- & Hl).
  apply filter_In in Hl as [_ Hl]. apply negb_true_iff in Hl.
  by apply is_empty_false.
Qed.

Lemma nonblank_lines_blank (qtext : string) :
  Forall (fun l => Py.strip l = "") (Py.splitlines qtext) ->
  PlannerAgent.nonblank_lines qtext = [].
Proof.
  unfold PlannerAgent.nonblank_lines. intros H.
  induction H as [|l ls Hl _ IH]; [reflexivity|].
  simpl. rewrite Hl. simpl. exact IH.
Qed.

Lemma take_nonempty {A : Type} (n : nat) (l : list A) :
  0 < n -> l <> [] -> take n l <> [].
Proof. destruct n, l; simpl; intros; [lia|lia|done|done]. Qed.

(** C4. [plan] never raises, and its query list is non-empty and has
    at most 4 entries (none of them empty).  When the text generator
    raises, or returns only blank lines, the queries are exactly the 4
    template queries built from the stripped company name and prompt:
    each is non-empty and contains the stripped company name. *)
Theorem plan_fallback {R : Type} (env : Env R) (company user_prompt : string)
  (kb_ready : bool) (w : World R) :
  exists (p : Plan) (w' : World R),
    PlannerAgent.plan env company user_prompt kb_ready w = (Returned p, w')
    /\ search_queries p <> []
    /\ length (search_queries p) <= 4
    /\ Forall (fun q => q <> "") (search_queries p)
    /\ (((exists e, call_gemini env (llm_calls w) SYSTEM_BASE
                      (PlannerAgent.plan_prompt company user_prompt) = Raised e)
         \/ (exists v, call_gemini env (llm_calls w) SYSTEM_BASE
                         (PlannerAgent.plan_prompt company user_prompt) = Returned v
                       /\ Forall (fun l => Py.strip l = "")
                                 (Py.splitlines (Py.or_empty v)))) ->
        search_queries p =
          [ Py.strip company ++ " " ++ Py.strip user_prompt ++ " latest figures";
            Py.strip company ++ " segment revenue by product last year";
            Py.strip company ++ " top products revenue " ++ Py.strip user_prompt;
            Py.strip company ++ " annual report product revenue breakdown" ]
        /\ length (search_queries p) = 4
        /\ Forall (fun q => q <> "" /\ contains (Py.strip company) q)
                  (search_queries p)).
Proof.
  eexists _, _. split; [apply plan_eq|]. simpl.
  set (o := call_gemini env (llm_calls w) SYSTEM_BASE _).
  pose proof (template_queries_spec company user_prompt) as [Hlen Hall].
  assert (Forall (fun q => q <> "") (planner_lines o)) as Hne.
  { destruct o; simpl; [apply nonblank_lines_nonempty | constructor]. }
  repeat split.
  - apply take_nonempty; [lia|]. destruct (planner_lines o); [|done].
    intros E. by rewrite E in Hlen.
  - rewrite length_take. lia.
  - destruct (planner_lines o) eqn:E.
    + apply Forall_take. eapply Forall_impl; [exact Hall|]. by intros q [? _].
    + by apply Forall_take.
  - destruct H as [[e He]|(v & Hv & Hblank)]; rewrite ?He, ?Hv; simpl;
      rewrite ?nonblank_lines_blank by done; reflexivity.
  - destruct H as [[e He]|(v & Hv & Hblank)]; rewrite ?He, ?Hv; simpl;
      rewrite ?nonblank_lines_blank by done; reflexivity.
  - destruct H as [[e He]|(v & Hv & Hblank)]; rewrite ?He, ?Hv; simpl;
      rewrite ?nonblank_lines_blank by done; exact Hall.
Qed.

(** ** RetrieverAgent *)

Lemma truthy_spec (v : option string) :
  Py.truthy v = true <-> exists u : string, v = Some u /\ u <> "".
Proof.
  destruct v as [[|c u]|]; simpl; split; try done.
  - intros (u & [= <-] & H). done.
  - intros _. eexists. split; [reflexivity | done].
  - intros (u & H & _). done.
Qed.

Lemma sublist_List_filter {A : Type} (f : A -> bool) (l : list A) :
  List.filter f l `sublist_of` l.
Proof.
  induction l as [|x l IH]; simpl; [constructor|].
  destruct (f x); by constructor.
Qed.

Lemma find_List_filter {A : Type} (p f : A -> bool) (l : list A) :
  (forall x, p x = true -> f x = true) ->
  List.find p (List.filter f l) = List.find p l.
Proof.
  intros H. induction l as [|x l IH]; simpl; [reflexivity|].
  destruct (f x) eqn:Ef; simpl.
  - by rewrite IH.
  - destruct (p x) eqn:Ep; [|exact IH]. apply H in Ep. congruence.
Qed.

Section Retriever.
Context {R : Type} (env : Env R).

Lemma append_hits_eq (hits : list Dict) (acc : list Item) :
  RetrieverAgent.append_hits hits acc
  = (acc ++ List.filter (fun r => Py.truthy (item_url r))
                        (map RetrieverAgent.make_item hits))%list.
Proof.
  revert acc. induction hits as [|h hits IH]; intros acc; simpl.
  - by rewrite app_nil_r.
  - rewrite IH. destruct (Py.truthy (get_or_empty h "url"));
      [by rewrite <- app_assoc | done].
Qed.

(** When every search returns, the loop collects the items with a
    non-empty URL, query after query. *)
Lemma search_loop_eq (queries : list string) (count : Z) (acc : list Item)
  (w w' : World R) (per_query_hits : list (list Dict)) :
  for_each (fun q => Search.web_search env q count) queries w
    = (Returned per_query_hits, w') ->
  RetrieverAgent.search_loop env queries count acc w
    = (Returned (acc ++ List.filter (fun r => Py.truthy (item_url r))
                                    (items_of per_query_hits))%list, w').
Proof.
  unfold items_of.
  revert acc w per_query_hits.
  induction queries as [|q qs IH]; intros acc w hs; simpl.
  - unfold ret. intros [= <- <-]. simpl. by rewrite app_nil_r.
  - unfold bind at 1 3.
    destruct (Search.web_search env q count w) as [[h|e] w1]; [|done].
    unfold bind at 1.
    destruct (for_each _ qs w1) as [[hs'|e] w2] eqn:E; [|done].
    unfold ret. intros [= <- <-].
    rewrite (IH _ _ _ E), append_hits_eq. simpl.
    by rewrite map_app, List.filter_app, app_assoc.
Qed.

(** A search that raises ends the loop with that exception. *)
Lemma search_loop_raises (q : string) (rest : list string) (count : Z)
  (acc : list Item) (w w' : World R) (e : exn) :
  Search.web_search env q count w = (Raised e, w') ->
  RetrieverAgent.search_loop env (q :: rest) count acc w = (Raised e, w').
Proof. intros H. simpl. unfold bind. by rewrite H. Qed.

Lemma dedup_loop_app (rs : list Item) (seen : gset (option string)) (uniq : list Item) :
  RetrieverAgent.dedup_loop rs seen uniq
  = (uniq ++ RetrieverAgent.dedup_loop rs seen [])%list.
Proof.
  revert seen uniq. induction rs as [|r rs IH]; intros seen uniq; simpl.
  - by rewrite app_nil_r.
  - case_decide; [apply IH|].
    rewrite IH, (IH _ [r]). by rewrite <- app_assoc.
Qed.

Lemma dedup_loop_cons (r : Item) (rs : list Item) (seen : gset (option string)) :
  RetrieverAgent.dedup_loop (r :: rs) seen []
  = if decide (item_url r ∈ seen) then RetrieverAgent.dedup_loop rs seen []
    else r :: RetrieverAgent.dedup_loop rs ({[ item_url r ]} ∪ seen) [].
Proof. simpl. case_decide; [done|]. by rewrite dedup_loop_app. Qed.

Lemma dedup_loop_sublist (rs : list Item) (seen : gset (option string)) :
  RetrieverAgent.dedup_loop rs seen [] `sublist_of` rs.
Proof.
  revert seen. induction rs as [|r rs IH]; intros seen.
  - constructor.
  - rewrite dedup_loop_cons. case_decide; constructor; apply IH.
Qed.

Lemma dedup_loop_unseen (rs : list Item) (seen : gset (option string)) (r : Item) :
  r ∈ RetrieverAgent.dedup_loop rs seen [] -> item_url r ∉ seen.
Proof.
  revert seen. induction rs as [|r0 rs IH]; intros seen.
  - simpl. by intros ?%elem_of_nil.
  - rewrite dedup_loop_cons. case_decide as Hin.
    + apply IH.
    + intros [->|H]%elem_of_cons; [done|]. apply IH in H. set_solver.
Qed.

Lemma dedup_loop_NoDup (rs : list Item) (seen : gset (option string)) :
  NoDup (map item_url (RetrieverAgent.dedup_loop rs seen [])).
Proof.
  revert seen. induction rs as [|r0 rs IH]; intros seen.
  - constructor.
  - rewrite dedup_loop_cons. case_decide as Hin; [apply IH|].
    simpl. constructor; [|apply IH].
    intros (r & Hr & Hin')%list_elem_of_In%in_map_iff.
    apply list_elem_of_In, dedup_loop_unseen in Hin'. set_solver.
Qed.

Lemma dedup_loop_first (rs : list Item) (seen : gset (option string)) (r : Item) :
  r ∈ RetrieverAgent.dedup_loop rs seen [] -> first_with_url r rs = Some r.
Proof.
  unfold first_with_url.
  revert seen. induction rs as [|r0 rs IH]; intros seen.
  - simpl. by intros ?%elem_of_nil.
  - rewrite dedup_loop_cons. simpl. case_decide as Hin.
    + intros H. pose proof (dedup_loop_unseen _ _ _ H) as Hr.
      rewrite bool_decide_eq_false_2 by congruence. by apply (IH seen).
    + intros [->|H]%elem_of_cons.
      * by rewrite bool_decide_eq_true_2.
      * pose proof (dedup_loop_unseen _ _ _ H) as Hr.
        rewrite bool_decide_eq_false_2 by set_solver.
        by apply (IH ({[ item_url r0 ]} ∪ seen)).
Qed.

Lemma dedup_loop_complete (rs : list Item) (seen : gset (option string)) (x : Item) :
  x ∈ rs -> item_url x ∉ seen ->
  item_url x ∈ map item_url (RetrieverAgent.dedup_loop rs seen []).
Proof.
  revert seen. induction rs as [|r0 rs IH]; intros seen.
  - by intros ?%elem_of_nil.
  - rewrite dedup_loop_cons. intros [->|Hx]%elem_of_cons Hseen.
    + rewrite decide_False by done. simpl. by left.
    + case_decide as Hin; [by apply IH|].
      simpl. destruct (decide (item_url x = item_url r0)) as [->|Hne];
        [apply list_elem_of_here|].
      apply list_elem_of_further, IH; [done|].
      apply not_elem_of_union. split; [by apply not_elem_of_singleton | done].
Qed.

(** C2. When the searches of [gather_snippets] return, it returns a
    list in which every entry has a non-empty URL, no two entries
    share a URL, and there are at most 20 entries; the entries come
    in the order of the concatenated per-query results, each being
    the first hit with its URL.  (When fewer than 20 entries come
    back, no non-empty URL of the hits is missing.) *)
Theorem gather_snippets_dedup_cap (queries : list string) (count : Z)
  (w w' : World R) (per_query_hits : list (list Dict)) :
  (log (EvGather queries count) ;;;
   for_each (fun q => Search.web_search env q count) queries) w
    = (Returned per_query_hits, w') ->
  exists res : list Item,
    RetrieverAgent.gather_snippets env queries count w = (Returned res, w')
    /\ (forall r, r ∈ res -> nonempty_url r)
    /\ NoDup (map item_url res)
    /\ length res <= 20
    /\ res `sublist_of` items_of per_query_hits
    /\ (forall r, r ∈ res -> first_with_url r (items_of per_query_hits) = Some r)
    /\ (length res < 20 ->
        forall x, x ∈ items_of per_query_hits -> nonempty_url x ->
                  item_url x ∈ map item_url res).
Proof.
  intros Hrun. unfold RetrieverAgent.gather_snippets.
  unfold bind at 1 in Hrun. unfold bind at 1.
  destruct (log (EvGather queries count) w) as [[[]|e] w1] eqn:Elog; [|done].
  unfold bind at 1. rewrite (search_loop_eq _ _ [] _ _ _ Hrun). simpl app.
  set (items := items_of per_query_hits).
  set (results := List.filter (fun r => Py.truthy (item_url r)) items).
  set (uniq := RetrieverAgent.dedup_loop results ∅ []).
  assert (uniq `sublist_of` results) as Hsub by apply dedup_loop_sublist.
  assert (take 20 uniq `sublist_of` uniq) as Htake by apply sublist_take.
  exists (take 20 uniq). repeat split.
  - intros r Hr. apply truthy_spec.
    assert (r ∈ results) as Hin by eauto using elem_of_sublist.
    by apply list_elem_of_In, filter_In in Hin as [_ ?].
  - rewrite <- firstn_map. eapply sublist_NoDup; [|apply sublist_take].
    apply dedup_loop_NoDup.
  - rewrite length_take. lia.
  - etrans; [exact Htake|]. etrans; [exact Hsub|]. apply sublist_List_filter.
  - intros r Hr.
    assert (r ∈ uniq) as Hin by eauto using elem_of_sublist.
    apply dedup_loop_first in Hin. unfold first_with_url in *.
    rewrite <- Hin. symmetry. apply find_List_filter.
    intros x Hx%bool_decide_eq_true. rewrite Hx.
    assert (r ∈ results) as Hin' by eauto using elem_of_sublist.
    by apply list_elem_of_In, filter_In in Hin' as [_ ?].
  - intros Hlen x Hx Hurl.
    assert (take 20 uniq = uniq) as ->.
    { apply take_ge. rewrite length_take in Hlen. lia. }
    apply dedup_loop_complete; [|set_solver].
    apply list_elem_of_In, filter_In. split; [by apply list_elem_of_In|].
    by apply truthy_spec.
Qed.

End Retriever.

(** C2, on two queries whose results share one URL. *)
Lemma gather_snippets_dedup_cap_witness :
  exists res : list Item,
    RetrieverAgent.gather_snippets Fixture.overlap_env ["q1"; "q2"] 6 World_init
      = (Returned res, Fixture.overlap_world)
    /\ (forall r, r ∈ res -> nonempty_url r)
    /\ NoDup (map item_url res)
    /\ length res <= 20.
Proof.
  destruct (gather_snippets_dedup_cap Fixture.overlap_env ["q1"; "q2"] 6
              World_init Fixture.overlap_world Fixture.overlap_hits)
    as (res & Hrun & Hurl & Hdup & Hlen & _).
  - vm_cast_no_check
      (eq_refl (Returned Fixture.overlap_hits, Fixture.overlap_world)).
  - exists res. auto.
Defined.

(** C3 (what the code does). With a provider that answers the first
    request with HTTP 500, [gather_snippets] on two queries raises: the
    exception of [raise_for_status] leaves the loop, the second query
    is never searched, and its two hits (which a call for it alone
    returns) are lost. *)
Lemma gather_snippets_propagates_search_failure :
  fst (RetrieverAgent.gather_snippets Fixture.failing_search_env ["q1"; "q2"] 6
         (World_init : World Z))
    = Raised HTTPError
  /\ http_calls (snd (RetrieverAgent.gather_snippets Fixture.failing_search_env
                        ["q1"; "q2"] 6 (World_init : World Z))) = 1
  /\ (exists res,
        fst (RetrieverAgent.gather_snippets Fixture.failing_search_env ["q2"] 6
               (mkWorld 1 0 0 VectorIndex_init []))
          = Returned res
        /\ length res = 2).
Proof.
  split; [|split]; [vm_compute; reflexivity ..|].
  eexists. split; vm_compute; reflexivity.
Qed.

(** ** What the agent methods add to the trace *)

Section Emits.
Context {R : Type} (env : Env R).

Lemma emits_ret {A : Type} (a : A) : emits (R:=R) [] (ret a).
Proof. intros w. simpl. by rewrite app_nil_r. Qed.

Lemma emits_raise {A : Type} (e : exn) : emits (R:=R) (A:=A) [] (raise e).
Proof. intros w. simpl. by rewrite app_nil_r. Qed.

Lemma emits_gets {A : Type} (f : World R -> A) : emits [] (gets f).
Proof. intros w. simpl. by rewrite app_nil_r. Qed.

Lemma emits_lift_outcome {A : Type} (o : outcome A) : emits (R:=R) [] (lift_outcome o).
Proof. intros w. simpl. by rewrite app_nil_r. Qed.

Lemma emits_index_at {A : Type} (xs : list A) (i : nat) :
  emits (R:=R) [] (index_at xs i).
Proof. unfold index_at. destruct (xs !! i); [apply emits_ret | apply emits_raise]. Qed.

Lemma emits_update_index (f : VectorIndex R -> VectorIndex R) :
  emits [] (VectorIndex.update_index f).
Proof. intros w. simpl. by rewrite app_nil_r. Qed.

Lemma emits_log (e : event) :
  emits (R:=R) (if is_agent_event e then [e] else []) (log e).
Proof.
  intros w. simpl. unfold agent_events. rewrite List.filter_app. simpl.
  by destruct (is_agent_event e).
Qed.

Lemma emits_do_requests_get (endpoint query : string) (num : Z) :
  emits [] (do_requests_get env endpoint query num).
Proof. intros w. simpl. unfold agent_events. by rewrite List.filter_app. Qed.

Lemma emits_do_call_gemini (system_prompt user_prompt : string) :
  emits [] (do_call_gemini env system_prompt user_prompt).
Proof. intros w. simpl. unfold agent_events. by rewrite List.filter_app. Qed.

Lemma emits_do_embeddings_create (inputs : list string) :
  emits [] (do_embeddings_create env inputs).
Proof. intros w. simpl. unfold agent_events. by rewrite List.filter_app. Qed.

Lemma emits_do_read_json (company name : string) :
  emits [] (do_read_json env company name).
Proof. intros w. simpl. unfold agent_events. by rewrite List.filter_app. Qed.

(** Sequencing with a continuation that adds nothing. *)
Lemma emits_bind {A B : Type} (evs : list event) (m : M (World R) A)
  (k : A -> M (World R) B) :
  emits evs m -> (forall a, emits [] (k a)) -> emits evs (bind m k).
Proof.
  intros Hm Hk w. unfold bind. specialize (Hm w).
  destruct (m w) as [[a|e] w1]; simpl in *; [|exact Hm].
  by rewrite Hk, Hm, app_nil_r.
Qed.

Lemma emits_try_except {A : Type} (m : M (World R) A) (h : exn -> M (World R) A) :
  emits [] m -> (forall e, emits [] (h e)) -> emits [] (try_except m h).
Proof.
  intros Hm Hh w. unfold try_except. specialize (Hm w).
  destruct (m w) as [[a|e] w1]; simpl in *; [exact Hm|].
  by rewrite Hh, Hm, !app_nil_r.
Qed.

Lemma emits_for_each {A B : Type} (f : A -> M (World R) B) (xs : list A) :
  (forall x, emits [] (f x)) -> emits [] (for_each f xs).
Proof.
  intros Hf. induction xs as [|x xs IH]; simpl; [apply emits_ret|].
  apply emits_bind; [apply Hf|]. intros y.
  apply emits_bind; [apply IH|]. intros ys. apply emits_ret.
Qed.

Create HintDb quiet.
Hint Resolve emits_ret emits_raise emits_gets emits_lift_outcome emits_index_at
  emits_update_index emits_do_requests_get emits_do_call_gemini
  emits_do_embeddings_create emits_do_read_json : quiet.

Ltac quiet :=
  repeat first
    [ apply emits_bind; [|intros ?]
    | apply emits_try_except; [|intros ?]
    | apply emits_for_each; intros ?
    | solve [auto with quiet] ].

Lemma emits_raise_for_status (r : HttpResponse) :
  emits (R:=R) [] (Search.raise_for_status r).
Proof. unfold Search.raise_for_status. destruct (_ && _); auto with quiet. Qed.

Lemma emits_web_search (query : string) (count : Z) :
  emits [] (Search.web_search env query count).
Proof.
  assert (emits [] (Search.serpapi_google_search env query count)) as Hs.
  { unfold Search.serpapi_google_search. destruct (negb _); [auto with quiet|].
    quiet. apply emits_raise_for_status. }
  assert (emits [] (Search.google_cse_search env query count)) as Hg.
  { unfold Search.google_cse_search. destruct (negb _); [auto with quiet|].
    quiet. apply emits_raise_for_status. }
  unfold Search.web_search. destruct (String.eqb _ _); [exact Hs|].
  destruct (_ || _); [exact Hg | exact Hs].
Qed.

Lemma emits_search_loop (queries : list string) (count : Z) (acc : list Item) :
  emits [] (RetrieverAgent.search_loop env queries count acc).
Proof.
  revert acc. induction queries as [|q qs IH]; intros acc; simpl.
  - apply emits_ret.
  - apply emits_bind; [apply emits_web_search | intros hits; apply IH].
Qed.

(** [gather_snippets] adds its entry event and nothing else. *)
Lemma emits_gather_snippets (queries : list string) (count : Z) :
  emits [EvGather queries count] (RetrieverAgent.gather_snippets env queries count).
Proof.
  unfold RetrieverAgent.gather_snippets.
  apply emits_bind; [apply (emits_log (EvGather queries count))|]. intros _.
  apply emits_bind; [apply emits_search_loop | intros; apply emits_ret].
Qed.

Lemma emits_random_embeddings (inputs : list string) :
  emits [] (VectorIndex.random_embeddings env inputs).
Proof. unfold VectorIndex.random_embeddings, VectorIndex.set_dim. quiet. Qed.

Lemma emits__embed (inputs : list string) : emits [] (VectorIndex._embed env inputs).
Proof.
  unfold VectorIndex._embed. destruct (negb _); [apply emits_random_embeddings|].
  apply emits_try_except; [|intros; apply emits_random_embeddings].
  unfold VectorIndex.set_dim. quiet.
  unfold VectorIndex.np_array_float32.
  destruct a as [|e0 ?]; [auto with quiet|]. destruct (forallb _ _); auto with quiet.
Qed.

Lemma emits_search (query : string) (k : Z) : emits [] (VectorIndex.search env query k).
Proof.
  unfold VectorIndex.search. apply emits_bind; [auto with quiet|]. intros ix.
  destruct (vectors ix) as [vecs|]; [|auto with quiet].
  destruct (Nat.eqb _ _); [auto with quiet|].
  apply emits_bind; [apply emits__embed|]. intros q.
  apply emits_bind; [auto with quiet|]. intros qv.
  apply emits_bind.
  { unfold VectorIndex.np_matvec. destruct (Nat.eqb _ _); auto with quiet. }
  intros prods. quiet.
Qed.

(** [SynthesizerAgent.answer] adds its entry event and nothing else. *)
Lemma emits_answer (company question : string) (overview_results : list Dict)
  (fresh_snippets : list Item) :
  emits [EvSynthesize question fresh_snippets]
        (SynthesizerAgent.answer env company question overview_results fresh_snippets).
Proof.
  unfold SynthesizerAgent.answer.
  apply emits_bind; [apply (emits_log (EvSynthesize question fresh_snippets))|].
  intros _. apply emits_bind; [auto with quiet|]. intros ix.
  apply emits_bind.
  { destruct (vectors ix); [|auto with quiet].
    destruct (Nat.ltb _ _); [|auto with quiet].
    apply emits_bind; [apply emits_search|]. intros hits.
    apply emits_bind; [|auto with quiet].
    apply emits_for_each. intros h. unfold SynthesizerAgent.source_of.
    destruct (_ !! _); auto with quiet. }
  intros hp. quiet.
Qed.

Lemma emits_plan (company user_prompt : string) (kb_ready : bool) :
  emits [] (PlannerAgent.plan env company user_prompt kb_ready).
Proof.
  intros w. rewrite plan_eq. simpl. unfold agent_events.
  by rewrite List.filter_app.
Qed.

Lemma emits_first_retrieval (p : Plan) :
  emits (first_retrieval_events p) (first_retrieval env p).
Proof.
  unfold first_retrieval, first_retrieval_events.
  destruct (need_fresh_search p); [apply emits_gather_snippets | apply emits_ret].
Qed.

End Emits.

(** ** ResearchAgent.answer_multi *)

Section AnswerMulti.
Context {R : Type} (env : Env R).

Lemma agent_events_app (t u : list event) :
  agent_events (t ++ u) = (agent_events t ++ agent_events u)%list.
Proof. apply List.filter_app. Qed.

(** [answer_multi], with its first retrieval named. *)
Lemma answer_multi_unfold (self : ResearchAgent) (user_prompt : string)
  (kb_ready : bool) :
  ResearchAgent.answer_multi env self user_prompt kb_ready
  = (ov <- do_read_json env (company self) "basic_overview" ;;
     p <- PlannerAgent.plan env (company self) user_prompt kb_ready ;;
     fresh1 <- first_retrieval env p ;;
     resp1 <- SynthesizerAgent.answer env (company self) user_prompt
                (default [] (doc_results ov)) fresh1 ;;
     resp <- (if CriticAgent.needs_retry (answer resp1) then
                fresh2 <- RetrieverAgent.gather_snippets env
                            (ResearchAgent.refine_q self user_prompt) 6 ;;
                SynthesizerAgent.answer env (company self) user_prompt
                  (default [] (doc_results ov)) fresh2
              else ret resp1) ;;
     ret (ResearchAgent.with_followups resp (followups p))).
Proof. reflexivity. Qed.

(** C1. [answer_multi] retries at most once.  Whatever a collaborator
    does (raising included), the agent methods it enters form a prefix
    of: the first retrieval (if the plan asks for one), a synthesis, a
    retrieval on the three broadened queries, a second synthesis.
    When the collaborators return: if the critic does not flag the
    first answer, that answer is returned after exactly one synthesis
    and no retry; if it does, the retry retrieves with the three
    broadened queries built from company, prompt and years, the
    synthesis runs exactly twice, and the second result is returned,
    whatever the critic would say about it.  The response returned
    has the answer, the sources and the hits of that synthesis, and
    under [followups] the follow-ups of the planner's plan. *)
Theorem answer_multi_retry_once (self : ResearchAgent) (user_prompt : string)
  (kb_ready : bool) (w : World R) :
  let broadened :=
    [ company self ++ " " ++ user_prompt ++ " latest report";
      company self ++ " product revenue table FY " ++ Py.str_of_int (years self);
      company self ++ " segment revenue by product" ] in
  let run := ResearchAgent.answer_multi env self user_prompt kb_ready w in
  (exists (p : Plan) (fresh1 fresh2 : list Item) (evs : list event),
      agent_events (trace (snd run)) = (agent_events (trace w) ++ evs)%list
      /\ evs `prefix_of`
           (first_retrieval_events p
            ++ [ EvSynthesize user_prompt fresh1;
                 EvGather broadened 6;
                 EvSynthesize user_prompt fresh2 ])%list)
  /\ (forall (ov : CacheDoc) (w0 : World R) (p : Plan) (w1 : World R)
             (fresh1 : list Item) (w2 : World R) (resp1 : Response R) (w3 : World R),
        do_read_json env (company self) "basic_overview" w = (Returned ov, w0) ->
        PlannerAgent.plan env (company self) user_prompt kb_ready w0 = (Returned p, w1) ->
        first_retrieval env p w1 = (Returned fresh1, w2) ->
        SynthesizerAgent.answer env (company self) user_prompt
          (default [] (doc_results ov)) fresh1 w2 = (Returned resp1, w3) ->
        (CriticAgent.needs_retry (answer resp1) = false ->
         run = (Returned (mkResponse (answer resp1) (sources resp1) (hits resp1)
                                     (Some (followups p))), w3)
         /\ agent_events (trace w3)
            = (agent_events (trace w) ++ first_retrieval_events p
               ++ [EvSynthesize user_prompt fresh1])%list)
        /\ (CriticAgent.needs_retry (answer resp1) = true ->
            forall (fresh2 : list Item) (w4 : World R) (resp2 : Response R)
                   (w5 : World R),
              RetrieverAgent.gather_snippets env broadened 6 w3
                = (Returned fresh2, w4) ->
              SynthesizerAgent.answer env (company self) user_prompt
                (default [] (doc_results ov)) fresh2 w4 = (Returned resp2, w5) ->
              run = (Returned (mkResponse (answer resp2) (sources resp2) (hits resp2)
                                          (Some (followups p))), w5)
              /\ agent_events (trace w5)
                 = (agent_events (trace w) ++ first_retrieval_events p
                    ++ [ EvSynthesize user_prompt fresh1;
                         EvGather broadened 6;
                         EvSynthesize user_prompt fresh2 ])%list)).
Proof.
  intros broadened run.
  assert (broadened = ResearchAgent.refine_q self user_prompt) as Hq by reflexivity.
  (* the steps of the run, and what each adds to the trace *)
  pose proof (emits_do_read_json env (company self) "basic_overview" w) as E0.
  destruct (do_read_json env (company self) "basic_overview" w)
    as [o0 w0] eqn:H0.
  assert (forall ov, o0 = Returned ov ->
            exists p w1, PlannerAgent.plan env (company self) user_prompt kb_ready w0
                         = (Returned p, w1)
                         /\ agent_events (trace w1) = agent_events (trace w0)) as Hplan.
  { intros ov _. eexists _, _. split; [apply plan_eq|].
    pose proof (emits_plan env (company self) user_prompt kb_ready w0) as E.
    rewrite plan_eq in E. simpl in E. by rewrite app_nil_r in E. }
  simpl in E0. rewrite app_nil_r in E0.
  split.
  - (* the prefix, for every outcome *)
    subst run. rewrite answer_multi_unfold. unfold bind at 1. rewrite H0.
    destruct o0 as [ov|e]; simpl.
    2:{ exists (mkPlan false [] []), [], [], []. rewrite app_nil_r.
        split; [done | apply prefix_nil]. }
    destruct (Hplan ov eq_refl) as (p & w1 & Hp & E1).
    unfold bind at 1. rewrite Hp.
    pose proof (emits_first_retrieval env p w1) as E2.
    unfold bind at 1.
    destruct (first_retrieval env p w1) as [[fresh1|e] w2].
    2:{ simpl in *. exists p, [], [], (first_retrieval_events p).
        split; [congruence | by apply prefix_app_r]. }
    pose proof (emits_answer env (company self) user_prompt
                  (default [] (doc_results ov)) fresh1 w2) as E3.
    unfold bind at 1.
    destruct (SynthesizerAgent.answer env _ _ _ fresh1 w2) as [[resp1|e] w3].
    2:{ simpl in *. exists p, fresh1, [],
          (first_retrieval_events p ++ [EvSynthesize user_prompt fresh1])%list.
        split; [rewrite E3, E2, E1, E0; by rewrite <- app_assoc|].
        apply prefix_app, prefix_cons, prefix_nil. }
    simpl in E2, E3.
    destruct (CriticAgent.needs_retry (answer resp1)).
    2:{ simpl. exists p, fresh1, [],
          (first_retrieval_events p ++ [EvSynthesize user_prompt fresh1])%list.
        split; [rewrite E3, E2, E1, E0; by rewrite <- app_assoc|].
        apply prefix_app, prefix_cons, prefix_nil. }
    pose proof (emits_gather_snippets env broadened 6 w3) as E4.
    unfold bind at 1. unfold bind at 1. rewrite <- Hq.
    destruct (RetrieverAgent.gather_snippets env broadened 6 w3) as [[fresh2|e] w4].
    2:{ simpl in *. exists p, fresh1, [],
          (first_retrieval_events p
           ++ [EvSynthesize user_prompt fresh1; EvGather broadened 6])%list.
        split; [rewrite E4, E3, E2, E1, E0; by rewrite <- !app_assoc|].
        apply prefix_app, prefix_cons, prefix_cons, prefix_nil. }
    pose proof (emits_answer env (company self) user_prompt
                  (default [] (doc_results ov)) fresh2 w4) as E5.
    simpl in E4, E5.
    exists p, fresh1, fresh2,
      (first_retrieval_events p
       ++ [ EvSynthesize user_prompt fresh1; EvGather broadened 6;
            EvSynthesize user_prompt fresh2 ])%list.
    split; [|done].
    destruct (SynthesizerAgent.answer env _ _ _ fresh2 w4) as [[resp2|e] w5];
      simpl in *; rewrite E5, E4, E3, E2, E1, E0; by rewrite <- !app_assoc.
  - (* the runs in which the collaborators return *)
    intros ov w0' p w1 fresh1 w2 resp1 w3 [= -> <-] Hp H2 H3.
    destruct (Hplan ov eq_refl) as (p' & w1' & Hp' & E1).
    rewrite Hp in Hp'. injection Hp' as <- <-.
    pose proof (emits_first_retrieval env p w1) as E2. rewrite H2 in E2.
    pose proof (emits_answer env (company self) user_prompt
                  (default [] (doc_results ov)) fresh1 w2) as E3.
    rewrite H3 in E3. simpl in E2, E3.
    subst run. rewrite answer_multi_unfold. split.
    + intros Hc. unfold bind at 1. rewrite H0.
      unfold bind at 1. rewrite Hp. unfold bind at 1. rewrite H2.
      unfold bind at 1. rewrite H3, Hc.
      split; [reflexivity|].
      rewrite E3, E2, E1, E0. by rewrite <- app_assoc.
    + intros Hc fresh2 w4 resp2 w5 H4 H5.
      unfold bind at 1. rewrite H0.
      unfold bind at 1. rewrite Hp. unfold bind at 1. rewrite H2.
      unfold bind at 1. rewrite H3, Hc, <- Hq.
      pose proof (emits_gather_snippets env broadened 6 w3) as E4. rewrite H4 in E4.
      pose proof (emits_answer env (company self) user_prompt
                    (default [] (doc_results ov)) fresh2 w4) as E5.
      rewrite H5 in E5. simpl in E4, E5.
      unfold bind. rewrite H4, H5. split; [reflexivity|].
      rewrite E5, E4, E3, E2, E1, E0. by rewrite <- !app_assoc.
Qed.

End AnswerMulti.

(** C1, on the text generator that answers "(No answer)" first and
    with numbers second: two syntheses, the second result returned
    with the planner's three follow-ups. *)
Lemma answer_multi_retry_once_witness :
  ResearchAgent.answer_multi Fixture.retry_env Fixture.acme Runs.retry_prompt true
    World_init
  = (Returned (mkResponse "Revenue was USD 20B in 2023" Runs.retry_sources []
                 (Some [ "Should I compare the last 3 years or focus on the latest year?";
                         "Do you want product-level revenue or segment-level revenue?";
                         "Should I include competitor benchmarks for context?" ])),
     Runs.retry_w5)
  /\ agent_events (trace Runs.retry_w5)
     = [ EvGather ["Acme revenue 2023"; "Acme products"] 6;
         EvSynthesize Runs.retry_prompt Runs.retry_fresh;
         EvGather [ "Acme revenue? latest report";
                    "Acme product revenue table FY 3";
                    "Acme segment revenue by product" ] 6;
         EvSynthesize Runs.retry_prompt Runs.retry_fresh ].
Proof.
  destruct (answer_multi_retry_once Fixture.retry_env Fixture.acme Runs.retry_prompt
              true World_init) as [_ H].
  destruct (H (mkCacheDoc None None) Runs.retry_w0 Runs.retry_plan Runs.retry_w1
              Runs.retry_fresh Runs.retry_w2 Runs.retry_resp1 Runs.retry_w3)
    as [_ H'].
  - vm_compute. reflexivity.
  - vm_compute. reflexivity.
  - vm_compute. reflexivity.
  - vm_compute. reflexivity.
  - apply (H' eq_refl Runs.retry_fresh Runs.retry_w4 Runs.retry_resp2 Runs.retry_w5).
    + vm_compute. reflexivity.
    + vm_compute. reflexivity.
Defined.

Section CacheOnlyRetry.
Context {R : Type} (env : Env R).

(** C10. When [kb_ready] is true and the prompt carries a cache-only
    trigger, the plan sets [need_fresh_search = false] and the first
    synthesis gets no fresh snippets; if the critic flags that answer,
    the retry still enters [gather_snippets] on the three broadened
    queries, whatever happens after that. *)
Theorem retry_searches_despite_cache_only (self : ResearchAgent) (user_prompt : string)
  (w w0 w1 w3 : World R) (ov : CacheDoc) (p : Plan) (resp1 : Response R) :
  (exists k, k ∈ ["use kb"; "from cached"; "from pdf"; "from overview"]
             /\ contains k (Py.lower user_prompt)) ->
  do_read_json env (company self) "basic_overview" w = (Returned ov, w0) ->
  PlannerAgent.plan env (company self) user_prompt true w0 = (Returned p, w1) ->
  SynthesizerAgent.answer env (company self) user_prompt
    (default [] (doc_results ov)) [] w1 = (Returned resp1, w3) ->
  CriticAgent.needs_retry (answer resp1) = true ->
  let broadened :=
    [ company self ++ " " ++ user_prompt ++ " latest report";
      company self ++ " product revenue table FY " ++ Py.str_of_int (years self);
      company self ++ " segment revenue by product" ] in
  need_fresh_search p = false
  /\ exists evs : list event,
       agent_events
         (trace (snd (ResearchAgent.answer_multi env self user_prompt true w)))
       = (agent_events (trace w)
          ++ [ EvSynthesize user_prompt []; EvGather broadened 6 ]
          ++ evs)%list.
Proof.
  intros Htrig H0 Hp H3 Hc broadened.
  assert (need_fresh_search p = false) as Hfresh.
  { rewrite plan_eq in Hp. injection Hp as <- _.
    apply existsb_triggers_spec in Htrig.
    exact (f_equal negb Htrig). }
  split; [exact Hfresh|].
  pose proof (emits_do_read_json env (company self) "basic_overview" w) as E0.
  pose proof (emits_plan env (company self) user_prompt true w0) as E1.
  pose proof (emits_answer env (company self) user_prompt
                (default [] (doc_results ov)) [] w1) as E3.
  rewrite H0 in E0. rewrite Hp in E1. rewrite H3 in E3. simpl in E0, E1, E3.
  rewrite app_nil_r in E0, E1.
  rewrite answer_multi_unfold. unfold bind at 1. rewrite H0.
  unfold bind at 1. rewrite Hp. unfold bind at 1.
  unfold first_retrieval. rewrite Hfresh. unfold ret at 1.
  unfold bind at 1. rewrite H3, Hc.
  change (ResearchAgent.refine_q self user_prompt) with broadened.
  pose proof (emits_gather_snippets env broadened 6 w3) as E4.
  unfold bind at 1. unfold bind at 1.
  destruct (RetrieverAgent.gather_snippets env broadened 6 w3) as [[fresh2|e] w4].
  - pose proof (emits_answer env (company self) user_prompt
                  (default [] (doc_results ov)) fresh2 w4) as E5.
    exists [EvSynthesize user_prompt fresh2].
    destruct (SynthesizerAgent.answer env _ _ _ fresh2 w4) as [[resp2|e] w5];
      simpl in *; rewrite E5, E4, E3, E1, E0; by rewrite <- !app_assoc.
  - exists []. simpl in *. rewrite E4, E3, E1, E0. by rewrite <- !app_assoc.
Qed.

End CacheOnlyRetry.

(** C10, on a cache-only prompt whose first answer is "(No answer)". *)
Lemma retry_searches_despite_cache_only_witness :
  need_fresh_search Runs.cache_plan = false
  /\ exists evs : list event,
       agent_events
         (trace (snd (ResearchAgent.answer_multi Fixture.retry_env Fixture.acme
                        Runs.cache_prompt true World_init)))
       = (agent_events (trace (World_init : World Z))
          ++ [ EvSynthesize Runs.cache_prompt [];
               EvGather (ResearchAgent.refine_q Fixture.acme Runs.cache_prompt) 6 ]
          ++ evs)%list.
Proof.
  apply (retry_searches_despite_cache_only Fixture.retry_env Fixture.acme
           Runs.cache_prompt World_init Runs.retry_w0 Runs.cache_w1 Runs.cache_w3
           (mkCacheDoc None None) Runs.cache_plan Runs.cache_resp1).
  - exists "use kb". split; [apply list_elem_of_here|].
    apply str_in_spec. vm_compute. reflexivity.
  - vm_compute. reflexivity.
  - vm_compute. reflexivity.
  - vm_compute. reflexivity.
  - vm_compute. reflexivity.
Defined.

(** ** VectorIndex *)

(** C9 (what the code does). The embedding endpoint answers the first
    [add] with vectors of dimension 3 and fails on the second, so the
    second [add] falls back to dimension 512: [np.vstack] raises after
    [texts] and [metadatas] were extended, and the index is left with
    two texts, two metadata records and one row. *)
Lemma add_breaks_parallel_arrays :
  let run :=
    (VectorIndex.add Fixture.flaky_embed_env ["a"] [Fixture.meta "a"] ;;;
     VectorIndex.add Fixture.flaky_embed_env ["b"] [Fixture.meta "b"])
      (World_init : World Z) in
  fst run = Raised ValueError
  /\ length (texts (index (snd run))) = 2
  /\ length (metadatas (index (snd run))) = 2
  /\ option_map (fun v => length (nd_rows v)) (vectors (index (snd run))) = Some 1
  /\ ~ parallel_arrays (index (snd run)).
Proof.
  repeat split; try (vm_compute; reflexivity).
  intros [_ H]. vm_compute in H. discriminate.
Qed.

Section IndexFacts.
Context {R : Type} (env : Env R).

Lemma rng_random_rows (seed : Z) (n d : nat) :
  length (nd_rows (VectorIndex.rng_random env seed n d)) = n.
Proof. unfold VectorIndex.rng_random. simpl. by rewrite length_map, length_seq. Qed.

Lemma rng_random_shape (seed : Z) (n d : nat) :
  Forall (fun r => length r = nd_cols (VectorIndex.rng_random env seed n d))
         (nd_rows (VectorIndex.rng_random env seed n d)).
Proof.
  unfold VectorIndex.rng_random. simpl. apply Forall_forall. intros r Hr.
  apply list_elem_of_In, in_map_iff in Hr as (i & <- & _).
  by rewrite length_map, length_seq.
Qed.

Lemma with_dim_id (ix : VectorIndex R) : ix = with_dim (dim ix) ix.
Proof. by destruct ix. Qed.

Lemma random_embeddings_eq (inputs : list string) (w : World R) :
  VectorIndex.random_embeddings env inputs w
  = (Returned (VectorIndex.rng_random env 42 (length inputs) 512),
     mkWorld (http_calls w) (llm_calls w) (embed_calls w)
             (with_dim (Some 512) (index w)) (trace w)).
Proof. reflexivity. Qed.

(** [_embed] always returns; its array has one row per embedding, all
    of the array's width, and at least one row for a non-empty input;
    the stored texts, metadata and vectors are untouched. *)
Lemma _embed_returns (inputs : list string) (w : World R) :
  exists (a : ndarray R) (w' : World R),
    VectorIndex._embed env inputs w = (Returned a, w')
    /\ Forall (fun r => length r = nd_cols a) (nd_rows a)
    /\ (inputs <> [] -> nd_rows a <> [])
    /\ (exists d, index w' = with_dim d (index w)).
Proof.
  assert (exists (a : ndarray R) (w' : World R),
             VectorIndex.random_embeddings env inputs w = (Returned a, w')
             /\ Forall (fun r => length r = nd_cols a) (nd_rows a)
             /\ (inputs <> [] -> nd_rows a <> [])
             /\ (exists d, index w' = with_dim d (index w))) as Hfb.
  { eexists _, _. split; [apply random_embeddings_eq|].
    split; [apply rng_random_shape|]. split; [|by eexists].
    intros Hne E. apply (f_equal length) in E.
    rewrite rng_random_rows in E. by destruct inputs. }
  assert (forall w1 : World R,
             (exists d, index w1 = with_dim d (index w)) ->
             exists (a : ndarray R) (w' : World R),
               VectorIndex.random_embeddings env inputs w1 = (Returned a, w')
               /\ Forall (fun r => length r = nd_cols a) (nd_rows a)
               /\ (inputs <> [] -> nd_rows a <> [])
               /\ (exists d, index w' = with_dim d (index w))) as Hfb'.
  { intros w1 [d Hd]. eexists _, _. split; [apply random_embeddings_eq|].
    split; [apply rng_random_shape|]. split.
    - intros Hne E. apply (f_equal length) in E.
      rewrite rng_random_rows in E. by destruct inputs.
    - exists (Some 512). simpl. rewrite Hd. reflexivity. }
  unfold VectorIndex._embed. destruct (client env); simpl; [|exact Hfb].
  unfold try_except, bind at 1, do_embeddings_create.
  destruct (embeddings_create env (embed_calls w) inputs) as [embs|e].
  2:{ apply Hfb'. exists (dim (index w)). simpl. apply with_dim_id. }
  unfold bind at 1, index_at. destruct embs as [|e0 embs]; simpl.
  { apply Hfb'. exists (dim (index w)). simpl. apply with_dim_id. }
  unfold bind, VectorIndex.set_dim, VectorIndex.update_index, modify; simpl.
  rewrite Nat.eqb_refl. simpl.
  destruct (forallb (fun e => Nat.eqb (length e) (length e0)) embs) eqn:Hall;
    simpl.
  - eexists _, _. split; [reflexivity|]. simpl. split; [|split; [done|by eexists]].
    constructor; [by rewrite length_map|].
    apply Forall_forall. intros r Hr.
    apply list_elem_of_In, in_map_iff in Hr as (e & <- & He).
    rewrite forallb_forall in Hall. rewrite length_map. by apply Nat.eqb_eq, Hall.
  - apply Hfb'. by eexists.
Qed.

(** In the forced-failure mode [_embed] is the seeded fallback. *)
Lemma _embed_forced_failure (inputs : list string) (w : World R) :
  forced_failure env ->
  fst (VectorIndex._embed env inputs w)
    = Returned (VectorIndex.rng_random env 42 (length inputs) 512)
  /\ index (snd (VectorIndex._embed env inputs w)) = with_dim (Some 512) (index w).
Proof.
  intros [Hc|Hf]; unfold VectorIndex._embed.
  - rewrite Hc. simpl. done.
  - destruct (client env); simpl; [|done].
    destruct (Hf (embed_calls w) inputs) as [e He].
    unfold try_except, bind, do_embeddings_create. cbv beta. rewrite He.
    split; reflexivity.
Qed.

End IndexFacts.

(** ** The fallback embedding is deterministic *)

Section SameOnIndex.
Context {R : Type}.

Lemma same_on_index_ret {A : Type} (a : A) :
  same_on_index (R:=R) (ret a) (ret a).
Proof. intros w1 w2 Hw. done. Qed.

Lemma same_on_index_raise {A : Type} (e : exn) :
  same_on_index (R:=R) (A:=A) (raise e) (raise e).
Proof. intros w1 w2 Hw. done. Qed.

Lemma same_on_index_bind {A B : Type} (m1 m2 : M (World R) A)
  (k1 k2 : A -> M (World R) B) :
  same_on_index m1 m2 -> (forall a, same_on_index (k1 a) (k2 a)) ->
  same_on_index (bind m1 k1) (bind m2 k2).
Proof.
  intros Hm Hk w1 w2 Hw. unfold bind.
  destruct (Hm w1 w2 Hw) as [Ho Hi].
  destruct (m1 w1) as [[a|e] s1], (m2 w2) as [[a'|e'] s2]; simpl in *;
    try discriminate.
  - injection Ho as <-. by apply Hk.
  - injection Ho as <-. split; [reflexivity | exact Hi].
Qed.

Lemma same_on_index_gets {A : Type} (f : VectorIndex R -> A) :
  same_on_index (gets (fun w => f (index w))) (gets (fun w => f (index w))).
Proof. intros w1 w2 Hw. simpl. by rewrite Hw. Qed.

Lemma same_on_index_update (f : VectorIndex R -> VectorIndex R) :
  same_on_index (VectorIndex.update_index f) (VectorIndex.update_index f).
Proof. intros w1 w2 Hw. simpl. by rewrite Hw. Qed.

Lemma same_on_index_index_at {A : Type} (xs : list A) (i : nat) :
  same_on_index (R:=R) (index_at xs i) (index_at xs i).
Proof.
  unfold index_at. destruct (xs !! i);
    [apply same_on_index_ret | apply same_on_index_raise].
Qed.

Lemma same_on_index_for_each {A B : Type} (f1 f2 : A -> M (World R) B)
  (xs : list A) :
  (forall x, same_on_index (f1 x) (f2 x)) ->
  same_on_index (for_each f1 xs) (for_each f2 xs).
Proof.
  intros Hf. induction xs as [|x xs IH]; simpl; [apply same_on_index_ret|].
  apply same_on_index_bind; [apply Hf|]. intros y.
  apply same_on_index_bind; [apply IH|]. intros ys. apply same_on_index_ret.
Qed.

Variables env1 env2 : Env R.
Hypothesis Hfail1 : forced_failure env1.
Hypothesis Hfail2 : forced_failure env2.
Hypothesis Hsame : same_numerics env1 env2.

Lemma same_on_index__embed (inputs : list string) :
  same_on_index (VectorIndex._embed env1 inputs) (VectorIndex._embed env2 inputs).
Proof.
  intros w1 w2 Hw.
  destruct (_embed_forced_failure env1 inputs w1 Hfail1) as [-> ->].
  destruct (_embed_forced_failure env2 inputs w2 Hfail2) as [-> ->].
  destruct Hsame as (Hrng & _). unfold VectorIndex.rng_random.
  by rewrite Hrng, Hw.
Qed.

Lemma same_on_index_add (new_texts : list string) (new_metadatas : list Dict) :
  same_on_index (VectorIndex.add env1 new_texts new_metadatas)
                (VectorIndex.add env2 new_texts new_metadatas).
Proof.
  unfold VectorIndex.add. destruct new_texts as [|t ts]; [apply same_on_index_ret|].
  apply same_on_index_bind; [apply same_on_index__embed|]. intros embeds.
  apply same_on_index_bind; [apply same_on_index_update|]. intros _.
  apply same_on_index_bind; [apply same_on_index_update|]. intros _.
  apply same_on_index_bind; [apply (same_on_index_gets (fun ix => ix))|]. intros ix.
  apply same_on_index_bind; [|intros v; apply same_on_index_update].
  destruct (vectors ix) as [old|]; [|apply same_on_index_ret].
  unfold VectorIndex.np_vstack.
  destruct (Nat.eqb _ _); [apply same_on_index_ret | apply same_on_index_raise].
Qed.

Lemma same_on_index_search (query : string) (k : Z) :
  same_on_index (VectorIndex.search env1 query k) (VectorIndex.search env2 query k).
Proof.
  destruct Hsame as (_ & Hnorm & Hdot & Hmul & Hadd & Hdiv & Hneg & Heps & Hsort).
  unfold VectorIndex.search.
  apply same_on_index_bind; [apply (same_on_index_gets (fun ix => ix))|]. intros ix.
  destruct (vectors ix) as [vecs|]; [|apply same_on_index_ret].
  destruct (Nat.eqb _ _); [apply same_on_index_ret|].
  apply same_on_index_bind; [apply same_on_index__embed|]. intros q.
  apply same_on_index_bind; [apply same_on_index_index_at|]. intros qv.
  rewrite <- Hnorm, <- Hmul, <- Hadd, <- Hdiv, <- Hneg, <- Heps, <- Hsort.
  apply same_on_index_bind.
  { unfold VectorIndex.np_matvec. rewrite <- Hdot.
    destruct (Nat.eqb _ _); [apply same_on_index_ret | apply same_on_index_raise]. }
  intros prods.
  apply same_on_index_bind; [apply (same_on_index_gets (fun ix => ix))|]. intros ix'.
  apply same_on_index_for_each. intros i.
  apply same_on_index_bind; [apply same_on_index_index_at|]. intros s.
  apply same_on_index_bind; [apply same_on_index_index_at|]. intros md.
  apply same_on_index_ret.
Qed.

End SameOnIndex.

(** C6. In the forced-failure mode (no client, or an endpoint that
    raises on every call) the embedding is the seeded fallback
    ([default_rng(42)], 512 columns): two runs of [add] followed by
    [search] on the same texts, metadata, query and [k], started on
    equal indexes, give the same outcome -- the same scores with the
    same metadata in the same order -- and leave equal indexes,
    whatever else differs between the two runs. *)
Theorem fallback_embedding_deterministic {R : Type} (env1 env2 : Env R)
  (w1 w2 : World R) (new_texts : list string) (new_metadatas : list Dict)
  (query : string) (k : Z) :
  forced_failure env1 -> forced_failure env2 -> same_numerics env1 env2 ->
  index w1 = index w2 ->
  let run1 := (VectorIndex.add env1 new_texts new_metadatas ;;;
               VectorIndex.search env1 query k) w1 in
  let run2 := (VectorIndex.add env2 new_texts new_metadatas ;;;
               VectorIndex.search env2 query k) w2 in
  fst run1 = fst run2 /\ index (snd run1) = index (snd run2).
Proof.
  intros H1 H2 Hs Hw. apply same_on_index_bind; [|intros _|done].
  - by apply same_on_index_add.
  - by apply same_on_index_search.
Qed.

(** C6, on a run without a client and a run whose endpoint raises,
    with different call counters and traces. *)
Lemma fallback_embedding_deterministic_witness :
  let texts := ["revenue 2023"; "products"] in
  let metas := [Fixture.meta "a.pdf"; Fixture.meta "b.pdf"] in
  let run1 := (VectorIndex.add Fixture.base_env texts metas ;;;
               VectorIndex.search Fixture.base_env "revenue" 5) World_init in
  let run2 := (VectorIndex.add Fixture_failing_embed_env texts metas ;;;
               VectorIndex.search Fixture_failing_embed_env "revenue" 5)
                (mkWorld 3 4 5 VectorIndex_init [EvReadJson "Acme" "basic_overview"]) in
  fst run1 = fst run2 /\ index (snd run1) = index (snd run2).
Proof.
  apply (fallback_embedding_deterministic Fixture.base_env Fixture_failing_embed_env).
  - left. reflexivity.
  - right. intros n inputs. exists APIError. reflexivity.
  - repeat split; reflexivity.
  - reflexivity.
Defined.

(** ** The test double's NumPy obeys the laws *)

Section FixtureArgsort.
Variable keys : list Z.

Lemma insert_sorted_perm (i : nat) (l : list nat) :
  Permutation (Fixture.insert_sorted keys i l) (i :: l).
Proof.
  induction l as [|j l IH]; simpl; [done|].
  destruct (nth i keys 0 <? nth j keys 0)%Z; [done|].
  rewrite IH. apply perm_swap.
Qed.

Lemma insert_sorted_sorted (i : nat) (l : list nat) :
  StronglySorted (key_le keys) l -> StronglySorted (key_le keys) (Fixture.insert_sorted keys i l).
Proof.
  induction 1 as [|j l Hs IH Hj]; simpl.
  - repeat constructor.
  - destruct (nth i keys 0 <? nth j keys 0)%Z eqn:E.
    + apply Z.ltb_lt in E. constructor; [by constructor|].
      constructor; [unfold key_le; lia|].
      eapply Forall_impl; [exact Hj|]. unfold key_le. intros x Hx. simpl in Hx. lia.
    + apply Z.ltb_ge in E. constructor; [exact IH|].
      rewrite insert_sorted_perm. constructor; [exact E | exact Hj].
Qed.

Lemma fold_insert_perm (l acc : list nat) :
  Permutation (fold_left (fun s i => Fixture.insert_sorted keys i s) l acc) (acc ++ l).
Proof.
  revert acc. induction l as [|x l IH]; intros acc; simpl.
  - by rewrite app_nil_r.
  - rewrite IH, insert_sorted_perm. simpl. apply Permutation_middle.
Qed.

Lemma fold_insert_sorted (l acc : list nat) :
  StronglySorted (key_le keys) acc ->
  StronglySorted (key_le keys) (fold_left (fun s i => Fixture.insert_sorted keys i s) l acc).
Proof.
  revert acc. induction l as [|x l IH]; intros acc Hacc; simpl; [done|].
  apply IH, insert_sorted_sorted, Hacc.
Qed.

End FixtureArgsort.

Lemma StronglySorted_lookup {A : Type} (P : A -> A -> Prop) (l : list A)
  (i j : nat) (a b : A) :
  StronglySorted P l -> i < j -> l !! i = Some a -> l !! j = Some b -> P a b.
Proof.
  intros Hs. revert i j. induction Hs as [|x l Hs IH Hx]; intros i j Hij Hi Hj.
  - done.
  - destruct j as [|j]; [lia|]. simpl in Hj. destruct i as [|i]; simpl in Hi.
    + injection Hi as <-. rewrite Forall_forall in Hx.
      apply Hx. by eapply list_elem_of_lookup_2.
    + apply (IH i j); [lia | done | done].
Qed.

Lemma fx_dot_comm (u v : list Z) : Fixture.fx_dot u v = Fixture.fx_dot v u.
Proof.
  unfold Fixture.fx_dot. revert v. induction u as [|a u IH]; intros [|b v]; simpl;
    try reflexivity.
  rewrite IH. unfold Fixture.fx_mul. by rewrite (Z.mul_comm a b).
Qed.

Lemma base_env_laws : numpy_laws Fixture.base_env.
Proof.
  split; simpl.
  - intros xs. unfold Fixture.argsort. by rewrite fold_insert_perm.
  - intros xs i j a b x y Hij Hi Hj Ha Hb. apply Z.leb_le.
    assert (key_le xs a b) as H.
    { eapply (StronglySorted_lookup (key_le xs)); [|exact Hij|exact Hi|exact Hj].
      apply fold_insert_sorted. constructor. }
    unfold key_le in H. by rewrite !nth_lookup, Ha, Hb in H.
  - intros x y H. apply Z.leb_le in H. apply Z.leb_le. lia.
  - intros x y. unfold Fixture.fx_mul. by rewrite Z.mul_comm.
  - apply fx_dot_comm.
Qed.

Lemma with_embeddings_laws (env : Env Z) (c : bool)
  (f : nat -> list string -> outcome (list (list Z))) :
  numpy_laws env -> numpy_laws (Fixture.with_embeddings env c f).
Proof. intros [H1 H2 H3 H4 H5]. by constructor. Qed.

(** ** The quicksort test double obeys the laws *)

Lemma quicksort_start_perm (n : nat) : Permutation (quicksort_start n) (seq 0 n).
Proof.
  unfold quicksort_start. destruct (Nat.ltb 17 n) eqn:E; [|done].
  apply Nat.ltb_lt in E.
  assert (seq 0 n = 0 :: seq 1 (n - 3) ++ [n - 2; n - 1])%list as ->.
  { replace n with (S ((n - 3) + 2)) at 1 by lia.
    cbn [seq]. f_equal. rewrite seq_app. f_equal. cbn [seq]. f_equal; [lia|].
    f_equal. lia. }
  constructor. apply Permutation_app; [|done].
  symmetry. apply Permutation_rev.
Qed.

Lemma tie_env_laws : numpy_laws SearchRuns.tie_env.
Proof.
  destruct (with_embeddings_laws Fixture.base_env true
              (embeddings_create IndexRuns.env) base_env_laws)
    as [_ _ H3 H4 H5].
  split; [| |exact H3|exact H4|exact H5]; simpl.
  - intros xs. unfold quicksort_argsort.
    rewrite fold_insert_perm. simpl. apply quicksort_start_perm.
  - intros xs i j a b x y Hij Hi Hj Ha Hb. apply Z.leb_le.
    assert (key_le xs a b) as H.
    { eapply (StronglySorted_lookup (key_le xs)); [|exact Hij|exact Hi|exact Hj].
      apply fold_insert_sorted. constructor. }
    unfold key_le in H. by rewrite !nth_lookup, Ha, Hb in H.
Qed.


(** ** VectorIndex.search *)

(** ** Where [search] leaves the claim *)

(** A negative [k]: on three items [k = -1] gives two results. *)
Lemma search_negative_k :
  VectorIndex.search IndexRuns.env "q" (-1) IndexRuns.three_texts
  = (Returned IndexRuns.minus_one_result, IndexRuns.minus_one_world)
  /\ length IndexRuns.minus_one_result = 2
  /\ length (texts (index IndexRuns.three_texts)) = 3.
Proof. split; [vm_compute; reflexivity | split; reflexivity]. Qed.

(** Equal scores: eighteen items with one embedding, [k = 5]. *)
Lemma search_ties :
  VectorIndex.search SearchRuns.tie_env "revenue" 5 SearchRuns.eighteen_texts
  = (Returned SearchRuns.tie_result, SearchRuns.tie_world).
Proof.
  vm_cast_no_check (eq_refl (Returned SearchRuns.tie_result, SearchRuns.tie_world)).
Qed.

(** The query embedded at another width than the stored vectors. *)
Lemma search_other_width :
  VectorIndex.search Fixture.flaky_embed_env "q" 5 SearchRuns.narrow_index
  = (Raised ValueError,
     snd (VectorIndex._embed Fixture.flaky_embed_env ["q"] SearchRuns.narrow_index)).
Proof. vm_compute. reflexivity. Qed.

(** Fewer metadata records than rows. *)
Lemma search_short_metadata :
  VectorIndex.search IndexRuns.env "q" 5 SearchRuns.short_metadata
  = (Raised IndexError, SearchRuns.short_after_query).
Proof. vm_compute. reflexivity. Qed.

(** C5 (as stated, refuted).  The claim fails in four ways.
    (1) "At most min(k, number_of_items) results for every integer k":
    for a negative [k] the slice [idxs[:k]] drops the last [-k]
    indices, so on three items [k = -1] gives two results.
    (2) "Equal scores in insertion order": [np.argsort] is called with
    its default kind, which is not stable; on eighteen items with one
    and the same embedding, [k = 5] gives the first item and then the
    sixteenth, the fifteenth, the fourteenth and the thirteenth.
    (3) "Otherwise search returns ..." for every state: when the
    stored vectors have width 3 and the endpoint fails at query time,
    the query gets the 512-wide fallback embedding and the product
    raises [ValueError].
    (4) The same, for an index whose metadata list is shorter than its
    matrix (after [add] with two texts and one metadata record):
    [self.metadatas[i]] raises [IndexError]. *)
Lemma search_claim_counterexample :
  ~ (forall (env : Env Z) (w : World Z) (query : string) (k : Z)
            (res : list (Z * Dict)) (w' : World Z),
        numpy_laws env ->
        parallel_arrays (index w) ->
        VectorIndex.search env query k w = (Returned res, w') ->
        (Z.of_nat (length res)
         <= Z.min k (Z.of_nat (length (texts (index w)))))%Z)
  /\ ~ (forall (env : Env Z) (w : World Z) (query : string) (k : Z)
               (res : list (Z * Dict)) (w' : World Z) (i j a b : nat)
               (ri rj : Z * Dict),
           numpy_laws env ->
           parallel_arrays (index w) ->
           (0 <= k)%Z ->
           VectorIndex.search env query k w = (Returned res, w') ->
           i < j -> res !! i = Some ri -> res !! j = Some rj ->
           fst ri = fst rj ->
           metadatas (index w) !! a = Some (snd ri) ->
           metadatas (index w) !! b = Some (snd rj) ->
           a < b)
  /\ ~ (forall (env : Env Z) (w : World Z) (query : string) (k : Z),
           numpy_laws env ->
           parallel_arrays (index w) ->
           texts (index w) <> [] ->
           (0 <= k)%Z ->
           exists (res : list (Z * Dict)) (w' : World Z),
             VectorIndex.search env query k w = (Returned res, w'))
  /\ ~ (forall (env : Env Z) (w : World Z) (query : string) (k : Z)
               (vecs q : ndarray Z) (w1 : World Z),
           numpy_laws env ->
           vectors (index w) = Some vecs ->
           texts (index w) <> [] ->
           VectorIndex._embed env [query] w = (Returned q, w1) ->
           nd_cols q = nd_cols vecs ->
           (0 <= k)%Z ->
           exists (res : list (Z * Dict)) (w' : World Z),
             VectorIndex.search env query k w = (Returned res, w')).
Proof.
  split; [|split; [|split]].
  - intros H. destruct search_negative_k as (Hrun & Hres & Htexts).
    specialize (H IndexRuns.env IndexRuns.three_texts "q" (-1)%Z
                  IndexRuns.minus_one_result IndexRuns.minus_one_world
                  (with_embeddings_laws _ _ _ base_env_laws)
                  (conj eq_refl eq_refl) Hrun).
    rewrite Hres, Htexts in H. lia.
  - intros H.
    specialize (H SearchRuns.tie_env SearchRuns.eighteen_texts "revenue" 5%Z
                  SearchRuns.tie_result SearchRuns.tie_world 1 2 15 14
                  (99999999%Z, SearchRuns.page 15) (99999999%Z, SearchRuns.page 14)
                  tie_env_laws (conj eq_refl eq_refl) ltac:(lia) search_ties
                  ltac:(lia) eq_refl eq_refl eq_refl eq_refl eq_refl).
    lia.
  - intros H.
    destruct (H Fixture.flaky_embed_env SearchRuns.narrow_index "q" 5%Z
                (with_embeddings_laws _ _ _ base_env_laws)
                (conj eq_refl eq_refl) ltac:(discriminate) ltac:(lia))
      as (res & w' & Hrun).
    rewrite search_other_width in Hrun. discriminate Hrun.
  - intros H.
    destruct (H IndexRuns.env SearchRuns.short_metadata "q" 5%Z
                (mkArray 2 [ [Fixture.scale; 0%Z]; [Fixture.scale; 0%Z] ])
                IndexRuns.query_array SearchRuns.short_after_query
                (with_embeddings_laws _ _ _ base_env_laws)
                eq_refl ltac:(discriminate) ltac:(vm_compute; reflexivity)
                eq_refl ltac:(lia))
      as (res & w' & Hrun).
    rewrite search_short_metadata in Hrun. discriminate Hrun.
Qed.

Lemma zip_with_map_same {A B C D : Type} (f : B -> C -> D) (g : A -> B) (h : A -> C)
  (l : list A) :
  zip_with f (map g l) (map h l) = map (fun x => f (g x) (h x)) l.
Proof. induction l as [|x l IH]; simpl; [done | by rewrite IH]. Qed.

(** A loop whose body returns without touching the state. *)
Lemma for_each_pure {S A B : Type} (f : A -> M S B) (xs : list A) (ys : list B) (s : S) :
  Forall2 (fun x y => forall s, f x s = (Returned y, s)) xs ys ->
  for_each f xs s = (Returned ys, s).
Proof.
  induction 1 as [|x y xs ys Hxy _ IH]; simpl; [done|].
  unfold bind. by rewrite Hxy, IH.
Qed.

Lemma Forall_exists_Forall2 {A B : Type} (P : A -> B -> Prop) (xs : list A) :
  Forall (fun x => exists y, P x y) xs -> exists ys, Forall2 P xs ys.
Proof.
  induction 1 as [|x xs [y Hy] _ [ys IH]]; [by exists [] | exists (y :: ys)].
  by constructor.
Qed.

Lemma slice_to_nonneg {A : Type} (k : Z) (xs : list A) :
  (0 <= k)%Z -> slice_to k xs = take (Z.to_nat k) xs.
Proof. intros Hk. unfold slice_to. by rewrite (proj2 (Z.leb_le 0 k) Hk). Qed.

Section SearchTopK.
Context {R : Type} (env : Env R) (laws : numpy_laws env).

(** The scores [search] sorts: one cosine per stored row. *)
Lemma cosine_code_order (qv v : list R) :
  np_div env (np_dot env v qv)
    (np_add env (np_mul env (np_norm env v) (np_norm env qv)) (eps env))
  = cosine env qv v.
Proof.
  unfold cosine. by rewrite (dot_comm env laws v qv), (mul_comm env laws).
Qed.

Lemma argsort_length (xs : list R) : length (np_argsort env xs) = length xs.
Proof.
  rewrite (Permutation_length (argsort_perm env laws xs)). apply length_seq.
Qed.

Lemma argsort_bound (xs : list R) (i : nat) :
  i ∈ np_argsort env xs -> i < length xs.
Proof.
  intros Hi. rewrite (argsort_perm env laws xs) in Hi.
  apply elem_of_seq in Hi. lia.
Qed.

Lemma argsort_NoDup (xs : list R) : NoDup (np_argsort env xs).
Proof. rewrite (argsort_perm env laws xs). apply NoDup_seq. Qed.

(** What [argsort] puts among the first [n] indices is not above what
    it leaves out. *)
Lemma argsort_take_top (xs : list R) (n a j : nat) (x y : R) :
  a ∈ take n (np_argsort env xs) -> j ∉ take n (np_argsort env xs) ->
  xs !! a = Some x -> xs !! j = Some y -> np_leb env x y = true.
Proof.
  intros Ha Hj Hx Hy.
  apply elem_of_take in Ha as (i & Hi & Hin).
  assert (j ∈ np_argsort env xs) as Hj'.
  { rewrite (argsort_perm env laws xs). apply elem_of_seq.
    apply lookup_lt_Some in Hy. lia. }
  apply list_elem_of_lookup_1 in Hj' as [p Hp].
  assert (n <= p) as Hnp.
  { destruct (decide (n <= p)) as [|Hlt]; [done|]. exfalso. apply Hj.
    apply elem_of_take. exists p. split; [done|lia]. }
  apply (argsort_sorted env laws xs i p a j); [lia|done..].
Qed.

(** C5 (amended). On an empty index [search] returns the empty list
    and does not raise.  On a non-empty index that keeps the
    parallel-array invariant, for a query whose embedding has the
    width of the stored vectors and for [k >= 0], [search] returns
    [min(k, number_of_items)] pairs: each pairs the metadata of a
    distinct stored item with its score
    dot(q, v) / (norm(q) * norm(v) + 1e-8), the scores descend, and
    no stored item that is left out has a score above that of a
    returned one (the pairs are the top [k]).  The order among equal
    scores is [np.argsort]'s and is not stated. *)
Theorem search_top_k (w : World R) (query : string) (k : Z) :
  ((vectors (index w) = None \/ texts (index w) = []) ->
   VectorIndex.search env query k w = (Returned [], w))
  /\ (forall (vecs q : ndarray R) (w1 : World R),
        vectors (index w) = Some vecs ->
        texts (index w) <> [] ->
        parallel_arrays (index w) ->
        VectorIndex._embed env [query] w = (Returned q, w1) ->
        nd_cols q = nd_cols vecs ->
        (0 <= k)%Z ->
        exists (qv : list R) (idxs : list nat) (res : list (R * Dict)),
          nd_rows q !! 0 = Some qv
          /\ VectorIndex.search env query k w = (Returned res, w1)
          /\ length res = Nat.min (Z.to_nat k) (length (texts (index w)))
          /\ NoDup idxs
          /\ Forall2 (fun i r =>
                        exists v, nd_rows vecs !! i = Some v
                                  /\ metadatas (index w) !! i = Some (snd r)
                                  /\ fst r = cosine env qv v)
                     idxs res
          /\ (forall (i j : nat) (r1 r2 : R * Dict),
                i < j -> res !! i = Some r1 -> res !! j = Some r2 ->
                np_leb env (fst r2) (fst r1) = true)
          /\ (forall (j : nat) (v : list R) (r : R * Dict),
                nd_rows vecs !! j = Some v -> j ∉ idxs -> r ∈ res ->
                np_leb env (cosine env qv v) (fst r) = true)).
Proof.
  split.
  - intros Hempty. unfold VectorIndex.search, bind, gets.
    destruct (vectors (index w)) as [vecs|]; [|done].
    destruct Hempty as [? | ->]; done.
  - intros vecs q w1 Hvecs Htexts [Hmeta Hrows] Hembed Hcols Hk.
    rewrite Hvecs in Hrows.
    destruct (_embed_returns env [query] w) as (q' & w1' & Hembed' & Hshape & Hne & d & Hix).
    rewrite Hembed in Hembed'. injection Hembed' as <- <-.
    destruct (nd_rows q) as [|qv rest] eqn:Hq; [by destruct Hne|].
    assert (length qv = nd_cols q) as Hqv by (by inversion Hshape).
    set (sims := map (cosine env qv) (nd_rows vecs)).
    set (idxs := take (Z.to_nat k) (np_argsort env (map (np_neg env) sims))).
    assert (length sims = length (nd_rows vecs)) as Hsims
      by (unfold sims; by rewrite length_map).
    assert (forall i, i ∈ idxs -> i < length (nd_rows vecs)) as Hbound.
    { intros i Hi. apply elem_of_take in Hi as (j & Hj & _).
      apply list_elem_of_lookup_2, argsort_bound in Hj.
      by rewrite length_map, Hsims in Hj. }
    (* every index of [idxs] has a score and a metadata record *)
    assert (exists res,
               Forall2 (fun i r =>
                          exists v, nd_rows vecs !! i = Some v
                                    /\ metadatas (index w) !! i = Some (snd r)
                                    /\ fst r = cosine env qv v) idxs res) as [res Hres].
    { apply Forall_exists_Forall2, Forall_forall. intros i Hi.
      apply Hbound in Hi.
      destruct (lookup_lt_is_Some_2 (nd_rows vecs) i Hi) as [v Hv].
      destruct (lookup_lt_is_Some_2 (metadatas (index w)) i) as [md Hmd]; [lia|].
      exists (cosine env qv v, md), v. done. }
    exists qv, idxs, res. split; [done|].
    assert (length res = length idxs) as Hlen by (symmetry; by eapply Forall2_length).
    split; [|split; [|split; [|split; [exact Hres|split]]]].
    + (* the run *)
      unfold VectorIndex.search. unfold bind at 1, gets. rewrite Hvecs.
      destruct (length (texts (index w))) eqn:Hn; [by destruct (texts (index w))|].
      cbn [Nat.eqb]. unfold bind at 1. rewrite Hembed.
      unfold bind at 1, index_at. rewrite Hq. cbn [lookup list_lookup ret].
      unfold bind at 1, VectorIndex.np_matvec.
      rewrite <- Hcols, <- Hqv, Nat.eqb_refl. cbn [ret].
      unfold bind at 1. cbn [gets]. rewrite Hix. cbn [metadatas with_dim].
      rewrite map_map, zip_with_map_same.
      rewrite (map_ext _ (cosine env qv)) by (intros v; apply cosine_code_order).
      fold sims. rewrite slice_to_nonneg by done. fold idxs.
      apply for_each_pure.
      eapply Forall2_impl; [exact Hres|]. intros i [s md] (v & Hv & Hmd & Hs) s0.
      simpl in Hmd, Hs. unfold bind, index_at.
      assert (sims !! i = Some s) as ->.
      { unfold sims.
        change (map (cosine env qv) (nd_rows vecs)) with (cosine env qv <$> nd_rows vecs).
        rewrite list_lookup_fmap, Hv. simpl. by rewrite Hs. }
      simpl. by rewrite Hmd.
    + rewrite Hlen. unfold idxs. rewrite length_take, argsort_length, length_map, Hsims.
      by rewrite Hrows, Hn || lia.
    + unfold idxs. eapply sublist_NoDup; [apply argsort_NoDup | apply sublist_take].
    + (* descending scores *)
      intros i j r1 r2 Hij H1 H2.
      destruct (Forall2_lookup_r _ _ _ _ _ Hres H1) as (a & Ha & v1 & Hv1 & _ & Hs1).
      destruct (Forall2_lookup_r _ _ _ _ _ Hres H2) as (b & Hb & v2 & Hv2 & _ & Hs2).
      apply lookup_take_Some in Ha as [Ha _]. apply lookup_take_Some in Hb as [Hb _].
      apply (neg_antitone env laws).
      apply (argsort_sorted env laws (map (np_neg env) sims) i j a b); try done.
      * change (map (np_neg env) sims) with (np_neg env <$> sims).
        unfold sims. change (map (cosine env qv) (nd_rows vecs))
          with (cosine env qv <$> nd_rows vecs).
        by rewrite !list_lookup_fmap, Hv1, Hs1.
      * change (map (np_neg env) sims) with (np_neg env <$> sims).
        unfold sims. change (map (cosine env qv) (nd_rows vecs))
          with (cosine env qv <$> nd_rows vecs).
        by rewrite !list_lookup_fmap, Hv2, Hs2.
    + (* the items left out *)
      intros j v r Hv Hj Hr.
      apply list_elem_of_lookup_1 in Hr as [i Hi].
      destruct (Forall2_lookup_r _ _ _ _ _ Hres Hi) as (a & Ha & va & Hva & _ & Hsa).
      apply (neg_antitone env laws).
      apply (argsort_take_top (map (np_neg env) sims) (Z.to_nat k) a j).
      * by eapply list_elem_of_lookup_2.
      * exact Hj.
      * change (map (np_neg env) sims) with (np_neg env <$> sims).
        unfold sims. change (map (cosine env qv) (nd_rows vecs))
          with (cosine env qv <$> nd_rows vecs).
        by rewrite !list_lookup_fmap, Hva, Hsa.
      * change (map (np_neg env) sims) with (np_neg env <$> sims).
        unfold sims. change (map (cosine env qv) (nd_rows vecs))
          with (cosine env qv <$> nd_rows vecs).
        by rewrite !list_lookup_fmap, Hv.
Qed.

End SearchTopK.

(** C5 (amended), on three stored texts with [k = 2]. *)
Lemma search_top_k_witness :
  exists (qv : list Z) (idxs : list nat) (res : list (Z * Dict)),
    nd_rows IndexRuns.query_array !! 0 = Some qv
    /\ VectorIndex.search IndexRuns.env "q" 2 IndexRuns.three_texts
       = (Returned res, IndexRuns.after_query)
    /\ length res = Nat.min (Z.to_nat 2) (length (texts (index IndexRuns.three_texts)))
    /\ NoDup idxs
    /\ Forall2 (fun i r =>
                  exists v, nd_rows IndexRuns.stored !! i = Some v
                            /\ metadatas (index IndexRuns.three_texts) !! i
                               = Some (snd r)
                            /\ fst r = cosine IndexRuns.env qv v)
               idxs res
    /\ (forall (i j : nat) (r1 r2 : Z * Dict),
          i < j -> res !! i = Some r1 -> res !! j = Some r2 ->
          np_leb IndexRuns.env (fst r2) (fst r1) = true)
    /\ (forall (j : nat) (v : list Z) (r : Z * Dict),
          nd_rows IndexRuns.stored !! j = Some v -> j ∉ idxs -> r ∈ res ->
          np_leb IndexRuns.env (cosine IndexRuns.env qv v) (fst r) = true).
Proof.
  apply (proj2 (search_top_k IndexRuns.env
                  (with_embeddings_laws _ _ _ base_env_laws)
                  IndexRuns.three_texts "q" 2)
               IndexRuns.stored IndexRuns.query_array IndexRuns.after_query).
  - reflexivity.
  - discriminate.
  - split; reflexivity.
  - vm_compute. reflexivity.
  - reflexivity.
  - lia.
Defined.

(** ** More on VectorIndex: what [add] and [search] keep *)

Section IndexStore.
Context {R : Type} (env : Env R).

(** [add] on a non-empty list of texts, step by step. *)
Lemma add_eq (t : string) (ts : list string) (new_metadatas : list Dict) (w : World R) :
  exists (embeds : ndarray R) (w1 : World R) (d : option nat),
    VectorIndex._embed env (t :: ts) w = (Returned embeds, w1)
    /\ index w1 = with_dim d (index w)
    /\ Forall (fun r => length r = nd_cols embeds) (nd_rows embeds)
    /\ VectorIndex.add env (t :: ts) new_metadatas w
       = let extended (v : option (ndarray R)) :=
           with_index
             (mkIndex v (metadatas (index w) ++ new_metadatas)
                      (texts (index w) ++ t :: ts) d) w1 in
         match vectors (index w) with
         | None => (Returned tt, extended (Some embeds))
         | Some old =>
             if Nat.eqb (nd_cols old) (nd_cols embeds)
             then (Returned tt,
                   extended (Some (mkArray (nd_cols old)
                                           (nd_rows old ++ nd_rows embeds))))
             else (Raised ValueError, extended (Some old))
         end.
Proof.
  destruct (_embed_returns env (t :: ts) w) as (embeds & w1 & He & Hshape & _ & d & Hd).
  exists embeds, w1, d. split; [exact He|]. split; [exact Hd|]. split; [exact Hshape|].
  unfold VectorIndex.add, bind at 1. rewrite He.
  unfold bind, VectorIndex.update_index, modify, gets, VectorIndex.np_vstack,
    with_index; simpl.
  rewrite Hd. simpl.
  destruct (vectors (index w)) as [old|]; simpl; [|done].
  destruct (Nat.eqb (nd_cols old) (nd_cols embeds)); simpl; done.
Qed.

(** X1. The index is append-only: whatever [add] does -- return or
    raise -- the texts, metadata and embedding rows stored before are
    still there, in place, as a prefix of what is stored after. *)
Theorem add_append_only (new_texts : list string) (new_metadatas : list Dict)
  (w : World R) :
  store_extends (index w)
                (index (snd (VectorIndex.add env new_texts new_metadatas w))).
Proof.
  destruct new_texts as [|t ts].
  - simpl. unfold store_extends. repeat split; try done.
    destruct (vectors (index w)) as [v|]; [|done]. by exists v.
  - destruct (add_eq t ts new_metadatas w) as (embeds & w1 & d & _ & _ & _ & ->).
    unfold store_extends.
    destruct (vectors (index w)) as [old|] eqn:Hv.
    + destruct (Nat.eqb (nd_cols old) (nd_cols embeds)); simpl.
      * repeat split; try apply prefix_app_r; try done.
        eexists. split; [reflexivity|]. split; [by apply prefix_app_r|done].
      * repeat split; try apply prefix_app_r; try done.
        by exists old.
    + simpl. repeat split; apply prefix_app_r; done.
Qed.

(** A computation that leaves the state as it is. *)
Lemma for_each_index_at_state {A B : Type} (xs : list A) (ys : list B) (idxs : list nat)
  (w : World R) :
  snd (for_each (fun i => s <- index_at xs i ;; md <- index_at ys i ;; ret (s, md))
         idxs w) = w.
Proof.
  induction idxs as [|i idxs IH]; simpl; [done|].
  unfold bind at 1. unfold bind at 1, index_at at 1.
  destruct (xs !! i); simpl; [|done].
  unfold bind at 1, index_at at 1. destruct (ys !! i); simpl; [|done].
  unfold bind at 1. destruct (for_each _ idxs w) as [[r|e] w'] eqn:E; simpl in *;
    by subst.
Qed.

(** X2. [search] never changes what is stored: after it -- returned
    or raised -- texts, metadata and vectors are the same; only [dim]
    may differ. *)
Theorem search_keeps_store (query : string) (k : Z) (w : World R) :
  exists d : option nat,
    index (snd (VectorIndex.search env query k w)) = with_dim d (index w).
Proof.
  unfold VectorIndex.search, bind at 1, gets. simpl.
  destruct (vectors (index w)) as [vecs|];
    [|exists (dim (index w)); apply with_dim_id].
  destruct (Nat.eqb _ _); [exists (dim (index w)); apply with_dim_id|].
  destruct (_embed_returns env [query] w) as (q & w1 & He & _ & _ & d & Hd).
  exists d. unfold bind at 1. rewrite He.
  unfold bind at 1, index_at at 1. destruct (nd_rows q !! 0) as [qv|]; [|done].
  cbn [ret]. unfold bind at 1, VectorIndex.np_matvec.
  destruct (Nat.eqb _ _); [|done].
  cbn [ret]. unfold bind at 1. cbn [gets]. by rewrite for_each_index_at_state.
Qed.

(** Under the endpoint's contract [_embed] gives one row per input. *)
Lemma _embed_rows (inputs : list string) (w w' : World R) (a : ndarray R) :
  one_vector_per_input env ->
  VectorIndex._embed env inputs w = (Returned a, w') ->
  length (nd_rows a) = length inputs.
Proof.
  intros Hone. unfold VectorIndex._embed.
  assert (forall w0, VectorIndex.random_embeddings env inputs w0 = (Returned a, w') ->
                     length (nd_rows a) = length inputs) as Hfb.
  { intros w0. rewrite random_embeddings_eq. intros [= <- _]. apply rng_random_rows. }
  destruct (client env); simpl; [|apply Hfb].
  unfold try_except, bind at 1, do_embeddings_create.
  destruct (embeddings_create env (embed_calls w) inputs) as [embs|e] eqn:E;
    [|apply Hfb].
  apply Hone in E. unfold bind at 1, index_at.
  destruct embs as [|e0 embs]; simpl; [apply Hfb|].
  unfold bind, VectorIndex.set_dim, VectorIndex.update_index, modify; simpl.
  rewrite Nat.eqb_refl. simpl.
  destruct (forallb _ embs); simpl; [|apply Hfb].
  intros [= <- _]. simpl. rewrite length_map. exact E.
Qed.

(** X3. [add] keeps the parallel-array invariant whenever it returns:
    for texts and metadata of equal length and an endpoint that
    returns one vector per input, an index with as many texts as
    metadata records as rows has that again after [add].  (An empty
    [texts] changes nothing at all.) *)
Theorem add_keeps_parallel_arrays (new_texts : list string) (new_metadatas : list Dict)
  (w w' : World R) :
  one_vector_per_input env ->
  length new_texts = length new_metadatas ->
  parallel_arrays (index w) ->
  VectorIndex.add env new_texts new_metadatas w = (Returned tt, w') ->
  parallel_arrays (index w')
  /\ (new_texts = [] -> w' = w).
Proof.
  intros Hone Hlen [Hmeta Hrows] Hadd.
  destruct new_texts as [|t ts].
  - injection Hadd as <-. done.
  - split; [|done].
    destruct (add_eq t ts new_metadatas w) as (embeds & w1 & d & He & _ & _ & H).
    apply (_embed_rows _ _ _ _ Hone) in He.
    rewrite Hadd in H. unfold parallel_arrays.
    destruct (vectors (index w)) as [old|].
    + destruct (Nat.eqb (nd_cols old) (nd_cols embeds)); [|discriminate].
      injection H as ->. simpl. rewrite !length_app, He. simpl in *. lia.
    + injection H as ->. simpl. rewrite Hrows in *. simpl in *.
      rewrite !length_app, He. simpl in *.
      destruct (metadatas (index w)); simpl in *; [lia | discriminate].
Qed.

End IndexStore.

(** X3, on the first [add] to a fresh index without a client. *)
Lemma add_keeps_parallel_arrays_witness :
  parallel_arrays
    (index (snd (VectorIndex.add Fixture.base_env ["a"; "b"]
                   [Fixture.meta "a.pdf"; Fixture.meta "b.pdf"]
                   (World_init : World Z))))
  /\ (["a"; "b"] = [] ->
      snd (VectorIndex.add Fixture.base_env ["a"; "b"]
             [Fixture.meta "a.pdf"; Fixture.meta "b.pdf"] (World_init : World Z))
      = World_init).
Proof.
  apply (add_keeps_parallel_arrays Fixture.base_env ["a"; "b"]
           [Fixture.meta "a.pdf"; Fixture.meta "b.pdf"] World_init).
  - intros n inputs embs H. discriminate H.
  - reflexivity.
  - split; reflexivity.
  - reflexivity.
Defined.

Section IndexFallback.
Context {R : Type} (env : Env R).

(** X4. In the forced-failure mode every sequence of [add] calls with
    texts and metadata of equal length returns: started on an index
    that keeps the parallel-array invariant and whose vectors (if
    any) are 512 wide -- a fresh index is one --, it stores all texts
    and metadata in call order and keeps the invariant and the width. *)
Theorem add_all_fallback (batches : list (list string * list Dict)) (w : World R) :
  forced_failure env ->
  Forall (fun b => length (fst b) = length (snd b)) batches ->
  parallel_arrays (index w) ->
  (forall v, vectors (index w) = Some v -> nd_cols v = 512) ->
  exists w' : World R,
    add_all env batches w = (Returned tt, w')
    /\ parallel_arrays (index w')
    /\ texts (index w') = (texts (index w) ++ concat (map fst batches))%list
    /\ metadatas (index w') = (metadatas (index w) ++ concat (map snd batches))%list
    /\ (forall v, vectors (index w') = Some v -> nd_cols v = 512).
Proof.
  intros Hfail Hall. revert w.
  induction Hall as [|[ts ms] batches Hlen _ IH]; intros w Hpar Hwidth.
  - exists w. simpl. by rewrite !app_nil_r.
  - simpl in Hlen.
    assert (exists w1 : World R,
               VectorIndex.add env ts ms w = (Returned tt, w1)
               /\ parallel_arrays (index w1)
               /\ texts (index w1) = (texts (index w) ++ ts)%list
               /\ metadatas (index w1) = (metadatas (index w) ++ ms)%list
               /\ (forall v, vectors (index w1) = Some v -> nd_cols v = 512))
      as (w1 & Hadd & Hpar1 & Ht1 & Hm1 & Hwidth1).
    { destruct ts as [|t ts].
      - destruct ms; [|discriminate]. exists w. by rewrite !app_nil_r.
      - destruct (add_eq env t ts ms w) as (embeds & w0 & d & He & _ & _ & Hadd).
        destruct (_embed_forced_failure env (t :: ts) w Hfail) as [Hf _].
        rewrite He in Hf. injection Hf as ->.
        destruct Hpar as [Hmeta Hrows]. cbv zeta in Hadd.
        destruct (vectors (index w)) as [old|] eqn:Hv.
        + rewrite (Hwidth old eq_refl) in Hadd.
          change (nd_cols (VectorIndex.rng_random env 42 (length (t :: ts)) 512))
            with 512 in Hadd.
          rewrite Nat.eqb_refl in Hadd.
          eexists. split; [exact Hadd|].
          unfold with_index, parallel_arrays.
          cbn [index vectors metadatas texts nd_rows nd_cols].
          split; [|split; [done|split; [done|by intros v [= <-]]]].
          rewrite !length_app, rng_random_rows. split; simpl in *; lia.
        + eexists. split; [exact Hadd|].
          unfold with_index, parallel_arrays.
          cbn [index vectors metadatas texts nd_rows nd_cols].
          split; [|split; [done|split; [done|by intros v [= <-]]]].
          rewrite !length_app, rng_random_rows, Hrows in *. split; simpl in *; lia. }
    destruct (IH w1 Hpar1 Hwidth1) as (w' & Hrest & Hpar' & Ht' & Hm' & Hwidth').
    exists w'. simpl. unfold bind. rewrite Hadd.
    split; [exact Hrest|]. split; [exact Hpar'|].
    rewrite Ht', Hm', Ht1, Hm1, <- !app_assoc. done.
Qed.

(** X5. When the embedding of the query is not as wide as the stored
    vectors, [search] on a non-empty index raises [ValueError] (the
    matrix-vector product fails); the stored data is untouched. *)
Theorem search_width_mismatch (w w1 : World R) (query : string) (k : Z)
  (vecs q : ndarray R) :
  vectors (index w) = Some vecs ->
  texts (index w) <> [] ->
  VectorIndex._embed env [query] w = (Returned q, w1) ->
  nd_cols q <> nd_cols vecs ->
  VectorIndex.search env query k w = (Raised ValueError, w1).
Proof.
  intros Hvecs Htexts Hembed Hcols.
  destruct (_embed_returns env [query] w) as (q' & w1' & He & Hshape & Hne & _).
  rewrite Hembed in He. injection He as <- <-.
  destruct (nd_rows q) as [|qv rest] eqn:Hq; [by destruct Hne|].
  assert (length qv = nd_cols q) as Hqv by (by inversion Hshape).
  unfold VectorIndex.search. unfold bind at 1, gets. rewrite Hvecs.
  destruct (length (texts (index w))) eqn:Hn; [by destruct (texts (index w))|].
  cbn [Nat.eqb]. unfold bind at 1. rewrite Hembed.
  unfold bind at 1, index_at at 1. rewrite Hq. cbn [lookup list_lookup ret].
  unfold bind at 1, VectorIndex.np_matvec. rewrite Hqv.
  destruct (Nat.eqb (nd_cols vecs) (nd_cols q)) eqn:E; [|done].
  apply Nat.eqb_eq in E. congruence.
Qed.

End IndexFallback.

(** X4, on two batches added to a fresh index without a client. *)
Lemma add_all_fallback_witness :
  exists w' : World Z,
    add_all Fixture.base_env
      [ (["a"; "b"], [Fixture.meta "a.pdf"; Fixture.meta "b.pdf"]);
        (["c"], [Fixture.meta "c.pdf"]) ] World_init
    = (Returned tt, w')
    /\ parallel_arrays (index w')
    /\ texts (index w') = ["a"; "b"; "c"].
Proof.
  destruct (add_all_fallback Fixture.base_env
              [ (["a"; "b"], [Fixture.meta "a.pdf"; Fixture.meta "b.pdf"]);
                (["c"], [Fixture.meta "c.pdf"]) ] World_init)
    as (w' & Hrun & Hpar & Ht & _).
  - left. reflexivity.
  - repeat constructor.
  - split; reflexivity.
  - intros v H. discriminate H.
  - exists w'. split; [exact Hrun|]. split; [exact Hpar | exact Ht].
Defined.

(** X5, on an index embedded by the endpoint with dimension 3 and a
    query embedded by the 512-wide fallback. *)
Lemma search_width_mismatch_witness :
  VectorIndex.search Fixture.flaky_embed_env "q" 5 Fixture_flaky_one_text
  = (Raised ValueError, Fixture_flaky_after_query).
Proof.
  apply (search_width_mismatch Fixture.flaky_embed_env Fixture_flaky_one_text
           Fixture_flaky_after_query "q" 5
           (mkArray 3 [[Fixture.scale; 0; 0]%Z])
           (VectorIndex.rng_random Fixture.flaky_embed_env 42 1 512)).
  - reflexivity.
  - discriminate.
  - vm_compute. reflexivity.
  - discriminate.
Defined.

(** ** More on search and retrieval *)

Section RequestBound.
Context {R : Type} (env : Env R).

Lemma requests_at_most_refl (w : World R) : requests_at_most 0 w w.
Proof. unfold requests_at_most. repeat split; lia. Qed.

Lemma requests_at_most_trans (n m : nat) (w1 w2 w3 : World R) :
  requests_at_most n w1 w2 -> requests_at_most m w2 w3 ->
  requests_at_most (n + m) w1 w3.
Proof.
  unfold requests_at_most. intros (H1 & H2 & H3 & H4) (K1 & K2 & K3 & K4).
  repeat split; try lia; congruence.
Qed.

Lemma requests_at_most_mono (n m : nat) (w w' : World R) :
  n <= m -> requests_at_most n w w' -> requests_at_most m w w'.
Proof. unfold requests_at_most. intros Hnm (H1 & H2 & H3 & H4). repeat split; try lia; done. Qed.

(** One provider call: one request, made before anything can raise. *)
Lemma provider_call_requests (endpoint key query : string) (count : Z)
  (result : Dict -> Dict) (w : World R) :
  requests_at_most 1 w
    (snd ((r <- do_requests_get env endpoint query (Z.min 10 count) ;;
           Search.raise_for_status r ;;;
           data <- lift_outcome (json r) ;;
           ret (map result (default [] (data !! key)))) w)).
Proof.
  unfold bind at 1, do_requests_get.
  destruct (requests_get env (http_calls w) endpoint query (Z.min 10 count))
    as [r|e]; simpl.
  2:{ unfold requests_at_most. simpl. repeat split; lia. }
  unfold bind at 1, Search.raise_for_status.
  destruct (_ && _); simpl; [unfold requests_at_most; simpl; repeat split; lia|].
  unfold bind, lift_outcome. destruct (json r); simpl;
    unfold requests_at_most; simpl; repeat split; lia.
Qed.

Lemma web_search_requests (query : string) (count : Z) (w : World R) :
  requests_at_most (if search_configured env then 1 else 0) w
                   (snd (Search.web_search env query count w))
  /\ (search_configured env = false ->
      Search.web_search env query count w = (Returned [], w)).
Proof.
  unfold Search.web_search, search_configured,
    Search.serpapi_google_search, Search.google_cse_search.
  destruct (String.eqb (Py.lower (SEARCH_PROVIDER env)) "serpapi").
  - destruct (Py.truthy (SERPAPI_API_KEY env)); simpl.
    + split; [apply provider_call_requests | done].
    + split; [apply requests_at_most_refl | done].
  - destruct (_ || _).
    + destruct (Py.truthy (GOOGLE_CSE_API_KEY env) && Py.truthy (GOOGLE_CSE_CX env));
        simpl.
      * split; [apply provider_call_requests | done].
      * split; [apply requests_at_most_refl | done].
    + destruct (Py.truthy (SERPAPI_API_KEY env)); simpl.
      * split; [apply provider_call_requests | done].
      * split; [apply requests_at_most_refl | done].
Qed.

Lemma search_loop_requests (queries : list string) (count : Z) (acc : list Item)
  (w : World R) :
  requests_at_most (if search_configured env then length queries else 0) w
    (snd (RetrieverAgent.search_loop env queries count acc w))
  /\ (search_configured env = false ->
      RetrieverAgent.search_loop env queries count acc w = (Returned acc, w)).
Proof.
  revert acc w. induction queries as [|q qs IH]; intros acc w.
  - simpl. split; [|done]. destruct (search_configured env); apply requests_at_most_refl.
  - simpl. unfold bind.
    destruct (web_search_requests q count w) as [H1 H1'].
    destruct (Search.web_search env q count w) as [[hits|e] w1] eqn:E; simpl in *.
    + destruct (IH (RetrieverAgent.append_hits hits acc) w1) as [H2 H2']. split.
      * destruct (search_configured env);
          [apply (requests_at_most_trans 1 (length qs) w w1); done
          |apply (requests_at_most_trans 0 0 w w1); done].
      * intros Hc. specialize (H1' Hc). injection H1' as -> ->.
        by rewrite (H2' Hc).
    + split.
      * eapply requests_at_most_mono; [|exact H1].
        destruct (search_configured env); lia.
      * intros Hc. by specialize (H1' Hc).
Qed.

(** X6. [gather_snippets] makes at most one HTTP request per query
    -- also when a search raises -- and touches neither the text
    generator, the embedding endpoint nor the index.  Without an API
    key for the selected provider it makes no request at all and
    returns the empty list. *)
Theorem gather_snippets_requests (queries : list string) (count : Z) (w : World R) :
  requests_at_most (length queries) w
    (snd (RetrieverAgent.gather_snippets env queries count w))
  /\ (search_configured env = false ->
      fst (RetrieverAgent.gather_snippets env queries count w) = Returned []
      /\ http_calls (snd (RetrieverAgent.gather_snippets env queries count w))
         = http_calls w).
Proof.
  set (w0 := mkWorld (http_calls w) (llm_calls w) (embed_calls w) (index w)
                     (trace w ++ [EvGather queries count])).
  assert (RetrieverAgent.gather_snippets env queries count w
          = (results <- RetrieverAgent.search_loop env queries count [] ;;
             ret (take 20 (RetrieverAgent.dedup_loop results ∅ []))) w0) as ->
    by reflexivity.
  destruct (search_loop_requests queries count [] w0) as [H H'].
  assert (requests_at_most 0 w w0) as H0
    by (unfold requests_at_most; simpl; repeat split; lia).
  unfold bind. split.
  - destruct (RetrieverAgent.search_loop env queries count [] w0) as [[r|e] w1];
      simpl in *;
      (eapply requests_at_most_mono;
       [|apply (requests_at_most_trans 0 _ w w0 w1 H0 H)]);
      destruct (search_configured env); lia.
  - intros Hc. rewrite (H' Hc). done.
Qed.

End RequestBound.

(** ** Stripping *)

Lemma lstrip_head (s : string) :
  match Py.lstrip s with
  | EmptyString => True
  | String c _ => Py.isspace c = false
  end.
Proof.
  induction s as [|c s IH]; simpl; [done|].
  destruct (Py.isspace c) eqn:E; [exact IH | exact E].
Qed.

Lemma lstrip_id (c : ascii) (s : string) :
  Py.isspace c = false -> Py.lstrip (String c s) = String c s.
Proof. intros H. simpl. by rewrite H. Qed.

Lemma rstrip_idempotent (s : string) : Py.rstrip (Py.rstrip s) = Py.rstrip s.
Proof.
  induction s as [|c s IH]; simpl; [done|].
  destruct (Py.rstrip s) as [|d r] eqn:E.
  - destruct (Py.isspace c) eqn:Ec; simpl; [done | by rewrite Ec].
  - simpl. simpl in IH. by rewrite IH.
Qed.

Lemma rstrip_head (c : ascii) (s : string) :
  Py.isspace c = false -> exists r, Py.rstrip (String c s) = String c r.
Proof.
  intros H. simpl. destruct (Py.rstrip s) as [|d r]; [|by eexists].
  rewrite H. by eexists.
Qed.

Lemma strip_idempotent (s : string) : trimmed (Py.strip s).
Proof.
  unfold trimmed, Py.strip.
  pose proof (lstrip_head s) as Hl.
  destruct (Py.lstrip s) as [|c t]; [done|].
  destruct (rstrip_head c t Hl) as [r Hr]. rewrite Hr.
  rewrite (lstrip_id c r Hl), <- Hr. apply rstrip_idempotent.
Qed.

(** ** The URLs [gather_snippets] returns are trimmed *)

Lemma normalize_url_normalized (url : option string) :
  normalized_url (Search.normalize_url url).
Proof.
  destruct url as [[|c s]|]; simpl; [by left | | done].
  destruct (Py.strip (String c s)) eqn:E; [by left|].
  right. split; [done|]. rewrite <- E. apply strip_idempotent.
Qed.

Lemma serpapi_result_url (item : Dict) :
  get_or_empty (Search.serpapi_result item) "url"
  = Search.normalize_url (get item "link").
Proof. reflexivity. Qed.

Lemma google_cse_result_url (item : Dict) :
  get_or_empty (Search.google_cse_result item) "url"
  = Search.normalize_url (get item "link").
Proof. reflexivity. Qed.

Section TrimmedUrls.
Context {R : Type} (env : Env R).

Lemma provider_call_hits (endpoint key query : string) (count : Z)
  (result : Dict -> Dict) (w w' : World R) (hits : list Dict) :
  (forall item, normalized_url (get_or_empty (result item) "url")) ->
  (r <- do_requests_get env endpoint query (Z.min 10 count) ;;
   Search.raise_for_status r ;;;
   data <- lift_outcome (json r) ;;
   ret (map result (default [] (data !! key)))) w = (Returned hits, w') ->
  Forall (fun h => normalized_url (get_or_empty h "url")) hits.
Proof.
  intros Hres. unfold bind at 1, do_requests_get.
  destruct (requests_get env (http_calls w) endpoint query (Z.min 10 count))
    as [r|e]; [|done].
  unfold bind at 1, Search.raise_for_status. destruct (_ && _); [done|].
  cbn [ret]. unfold bind, lift_outcome. destruct (json r) as [data|e]; [|done].
  intros [= <- _]. apply Forall_forall. intros h Hh.
  apply list_elem_of_In, in_map_iff in Hh as (item & <- & _). apply Hres.
Qed.

Lemma web_search_hits (query : string) (count : Z) (w w' : World R)
  (hits : list Dict) :
  Search.web_search env query count w = (Returned hits, w') ->
  Forall (fun h => normalized_url (get_or_empty h "url")) hits.
Proof.
  assert (forall item, normalized_url (get_or_empty (Search.serpapi_result item) "url"))
    as Hs by (intros; rewrite serpapi_result_url; apply normalize_url_normalized).
  assert (forall item, normalized_url (get_or_empty (Search.google_cse_result item) "url"))
    as Hg by (intros; rewrite google_cse_result_url; apply normalize_url_normalized).
  unfold Search.web_search, Search.serpapi_google_search, Search.google_cse_search.
  destruct (String.eqb _ "serpapi"); [|destruct (_ || _)];
    destruct (negb _);
    try (intros [= <- _]; constructor);
    eauto using provider_call_hits.
Qed.

Lemma append_hits_Forall (P : Item -> Prop) (hits : list Dict) (acc : list Item) :
  Forall P acc ->
  Forall (fun h => Py.truthy (item_url (RetrieverAgent.make_item h)) = true ->
                   P (RetrieverAgent.make_item h)) hits ->
  Forall P (RetrieverAgent.append_hits hits acc).
Proof.
  intros Hacc Hhits. rewrite append_hits_eq. apply Forall_app. split; [done|].
  apply Forall_forall. intros r Hr.
  apply list_elem_of_In, filter_In in Hr as [Hr Ht].
  apply in_map_iff in Hr as (h & <- & Hh).
  rewrite Forall_forall in Hhits. apply Hhits; [by apply list_elem_of_In | done].
Qed.

Lemma search_loop_Forall (queries : list string) (count : Z) (acc results : list Item)
  (w w' : World R) :
  Forall (fun r => exists u, item_url r = Some u /\ u <> "" /\ trimmed u) acc ->
  RetrieverAgent.search_loop env queries count acc w = (Returned results, w') ->
  Forall (fun r => exists u, item_url r = Some u /\ u <> "" /\ trimmed u) results.
Proof.
  revert acc w. induction queries as [|q qs IH]; intros acc w Hacc; simpl.
  - by intros [= <- _].
  - unfold bind.
    destruct (Search.web_search env q count w) as [[hits|e] w1] eqn:E; [|done].
    apply IH. apply append_hits_Forall; [done|].
    apply web_search_hits in E. eapply Forall_impl; [exact E|].
    intros h Hn Ht. simpl in *.
    destruct (get_or_empty h "url") as [u|]; [|done].
    destruct Hn as [->|[? ?]]; [done|]. by exists u.
Qed.

(** X7. Every entry [gather_snippets] returns has a URL that is a
    non-empty string without leading or trailing whitespace: the
    providers strip the link, so a link that is missing, [None],
    empty or only whitespace makes the hit drop out. *)
Theorem gather_snippets_urls_trimmed (queries : list string) (count : Z)
  (w w' : World R) (res : list Item) :
  RetrieverAgent.gather_snippets env queries count w = (Returned res, w') ->
  Forall (fun r => exists u, item_url r = Some u /\ u <> "" /\ trimmed u) res.
Proof.
  unfold RetrieverAgent.gather_snippets, bind at 1, log, modify. cbn [fst snd].
  unfold bind.
  destruct (RetrieverAgent.search_loop env queries count [] _) as [[results|e] w1] eqn:E;
    [|done].
  intros [= <- _]. apply search_loop_Forall in E; [|constructor].
  apply Forall_forall. intros r Hr.
  rewrite Forall_forall in E. apply E.
  eapply elem_of_sublist; [exact Hr|].
  etrans; [apply sublist_take | apply dedup_loop_sublist].
Qed.

End TrimmedUrls.

(** X7, on the two overlapping queries. *)
Lemma gather_snippets_urls_trimmed_witness :
  Forall (fun r => exists u, item_url r = Some u /\ u <> "" /\ trimmed u)
    [ mkItem (Some "A") (Some "https://a.example") (Some "a");
      mkItem (Some "B") (Some "https://b.example") (Some "b");
      mkItem (Some "C") (Some "https://c.example") (Some "c") ].
Proof.
  apply (gather_snippets_urls_trimmed Fixture.overlap_env ["q1"; "q2"] 6
           World_init Fixture.overlap_world).
  vm_cast_no_check
    (eq_refl (Returned [ mkItem (Some "A") (Some "https://a.example") (Some "a");
                         mkItem (Some "B") (Some "https://b.example") (Some "b");
                         mkItem (Some "C") (Some "https://c.example") (Some "c") ],
              Fixture.overlap_world)).
Defined.

(** ** SynthesizerAgent.answer: the sources *)

Section Fromkeys.
Context {A : Type} `{EqDecision A}.

Lemma fromkeys_loop_spec (xs seen : list A) :
  NoDup seen ->
  exists new : list A,
    fromkeys_loop xs seen = (seen ++ new)%list
    /\ NoDup (seen ++ new)
    /\ new `sublist_of` xs
    /\ (forall x, x ∈ xs -> x ∈ (seen ++ new)%list).
Proof.
  revert seen. induction xs as [|x xs IH]; intros seen Hseen; simpl.
  - exists []. rewrite app_nil_r. repeat split; try done.
    intros x Hx. by apply elem_of_nil in Hx.
  - case_decide as Hin.
    + destruct (IH seen Hseen) as (new & -> & Hnd & Hsub & Hall).
      exists new. repeat split; try done; [by constructor|].
      intros y [->|Hy]%elem_of_cons; [|by apply Hall].
      apply elem_of_app. by left.
    + assert (NoDup (seen ++ [x])) as Hseen'.
      { apply NoDup_app. repeat split; [done| |apply NoDup_singleton].
        intros y Hy ->%list_elem_of_singleton. done. }
      destruct (IH (seen ++ [x])%list Hseen') as (new & -> & Hnd & Hsub & Hall).
      exists (x :: new). rewrite <- app_assoc in *. simpl in *.
      repeat split; try done; [by constructor|].
      intros y [->|Hy]%elem_of_cons; [|by apply Hall].
      apply elem_of_app. right. apply list_elem_of_here.
Qed.

Lemma fromkeys_spec (xs : list A) :
  NoDup (fromkeys xs)
  /\ fromkeys xs `sublist_of` xs
  /\ (forall x, x ∈ xs <-> x ∈ fromkeys xs).
Proof.
  unfold fromkeys.
  destruct (fromkeys_loop_spec xs [] (NoDup_nil_2)) as (new & -> & Hnd & Hsub & Hall).
  simpl in *. repeat split; try done; [apply Hall|].
  intros Hx. eapply elem_of_sublist; done.
Qed.

End Fromkeys.

Section AnswerSources.
Context {R : Type} (env : Env R).

Lemma for_each_source_of (hs : list (R * Dict)) (w w' : World R)
  (pdf_sources : list (option string)) :
  for_each SynthesizerAgent.source_of hs w = (Returned pdf_sources, w') ->
  w' = w /\ Forall2 (fun h s => snd h !! "source" = Some s) hs pdf_sources.
Proof.
  revert pdf_sources. induction hs as [|h hs IH]; intros pdf_sources; simpl.
  - intros [= <- <-]. split; [done | constructor].
  - unfold bind at 1, SynthesizerAgent.source_of at 1.
    destruct (snd h !! "source") as [s|] eqn:E; [|done]. cbn [ret].
    unfold bind. destruct (for_each _ hs w) as [[ss|e] w1] eqn:E'; [|done].
    intros [= <- <-]. destruct (IH ss eq_refl) as [-> IH']. split; [done|].
    by constructor.
Qed.

(** X8. When [SynthesizerAgent.answer] returns, its sources have no
    duplicates and at most 6 entries, and each is the "source" of an
    evidence hit or the non-empty URL of a fresh snippet.  On an empty
    index there are no hits, the index is not touched, and the sources
    are fresh-snippet URLs in snippet order. *)
Theorem answer_sources (company question : string) (overview_results : list Dict)
  (fresh_snippets : list Item) (w w' : World R) (resp : Response R) :
  SynthesizerAgent.answer env company question overview_results fresh_snippets w
    = (Returned resp, w') ->
  NoDup (sources resp)
  /\ length (sources resp) <= 6
  /\ (forall s, s ∈ sources resp ->
        (exists h, h ∈ hits resp /\ snd h !! "source" = Some s)
        \/ (exists r, r ∈ fresh_snippets /\ item_url r = s /\ nonempty_url r))
  /\ ((vectors (index w) = None \/ texts (index w) = []) ->
      hits resp = []
      /\ index w' = index w
      /\ sources resp `sublist_of` map item_url fresh_snippets).
Proof.
  unfold SynthesizerAgent.answer, bind at 1, log, modify. cbn [fst snd].
  set (w0 := mkWorld _ _ _ _ _).
  unfold bind at 1, gets. cbn [index w0].
  set (urls := map item_url (List.filter (fun r => Py.truthy (item_url r))
                                         fresh_snippets)).
  assert (forall s, s ∈ urls ->
            exists r, r ∈ fresh_snippets /\ item_url r = s /\ nonempty_url r) as Hurls.
  { intros s Hs. apply list_elem_of_In, in_map_iff in Hs as (r & <- & Hr).
    apply filter_In in Hr as [Hr Ht]. exists r.
    split; [by apply list_elem_of_In|]. split; [done|]. by apply truthy_spec. }
  assert (urls `sublist_of` map item_url fresh_snippets) as Hsub.
  { unfold urls. clear. induction fresh_snippets as [|r l IH]; simpl; [constructor|].
    destruct (Py.truthy (item_url r)); simpl; by constructor. }
  (* the two ways the evidence is obtained *)
  assert (forall (pdf_sources : list (option string)) (hs : list (R * Dict))
                 (w1 : World R),
             Forall2 (fun h s => snd h !! "source" = Some s) hs pdf_sources ->
             (ans <- do_call_gemini env SYSTEM_BASE
                       (SynthesizerAgent.answer_prompt env company question
                          (Py.join newline
                             (map (fun r => Py.or_empty (get_or_empty r "snippet"))
                                (List.filter (fun r => Py.truthy (get r "snippet"))
                                   overview_results)))
                          pdf_sources
                          (Py.join newline (map SynthesizerAgent.fresh_line
                                              fresh_snippets))) ;;
              ret (mkResponse (SynthesizerAgent._clean ans)
                     (take 6 (fromkeys (pdf_sources ++ urls))) hs None)) w1
             = (Returned resp, w') ->
             (NoDup (sources resp)
              /\ length (sources resp) <= 6
              /\ (forall s, s ∈ sources resp ->
                    (exists h, h ∈ hits resp /\ snd h !! "source" = Some s)
                    \/ (exists r, r ∈ fresh_snippets /\ item_url r = s
                                  /\ nonempty_url r)))
             /\ hits resp = hs /\ index w' = index w1
             /\ sources resp = take 6 (fromkeys (pdf_sources ++ urls))) as Hfinish.
  { intros pdf_sources hs w1 Hpdf. unfold bind, do_call_gemini.
    destruct (call_gemini env (llm_calls w1) SYSTEM_BASE _) as [ans|e]; [|done].
    intros [= <- <-]. cbn [sources hits index].
    destruct (fromkeys_spec (pdf_sources ++ urls)%list) as (Hnd & _ & Hall).
    repeat split; try done.
    - eapply sublist_NoDup; [exact Hnd | apply sublist_take].
    - rewrite length_take. lia.
    - intros s Hs.
      assert (s ∈ (pdf_sources ++ urls)%list) as Hin.
      { apply Hall. eapply elem_of_sublist; [exact Hs | apply sublist_take]. }
      apply elem_of_app in Hin as [Hin|Hin]; [left | right; by apply Hurls].
      apply list_elem_of_lookup in Hin as [i Hi].
      destruct (Forall2_lookup_r _ _ _ _ _ Hpdf Hi) as (h & Hh & Hsrc).
      exists h. split; [by eapply list_elem_of_lookup_2 | done]. }
  destruct (vectors (index w)) as [vecs|] eqn:Hv.
  - destruct (Nat.ltb 0 (length (texts (index w)))) eqn:Hn.
    + unfold bind at 1. unfold bind at 1.
      destruct (VectorIndex.search env question 5 w0) as [[hs|e] w1]; [|done].
      unfold bind at 1.
      destruct (for_each SynthesizerAgent.source_of hs w1) as [[pdf|e] w2] eqn:Hsrc;
        [|done].
      apply for_each_source_of in Hsrc as [-> Hpdf]. cbn [ret fst snd].
      intros Hrun. destruct (Hfinish pdf hs w1 Hpdf Hrun) as ((H1 & H2 & H3) & _).
      split; [done|]. split; [done|]. split; [done|].
      intros [?|Ht]; [done|]. rewrite Ht in Hn. done.
    + unfold bind at 1, ret at 1. cbv beta iota. cbn [fst snd]. intros Hrun.
      destruct (Hfinish [] [] w0 (List.Forall2_nil _) Hrun)
        as ((H1 & H2 & H3) & H4 & H5 & H6).
      split; [done|]. split; [done|]. split; [done|]. intros _.
      split; [done|]. split; [done|]. rewrite H6. simpl.
      etrans; [apply sublist_take|]. etrans; [apply fromkeys_spec | exact Hsub].
  - unfold bind at 1, ret at 1. cbv beta iota. cbn [fst snd]. intros Hrun.
    destruct (Hfinish [] [] w0 (List.Forall2_nil _) Hrun)
      as ((H1 & H2 & H3) & H4 & H5 & H6).
    split; [done|]. split; [done|]. split; [done|]. intros _.
    split; [done|]. split; [done|]. rewrite H6. simpl.
    etrans; [apply sublist_take|]. etrans; [apply fromkeys_spec | exact Hsub].
Qed.

End AnswerSources.

(** X8, on the first synthesis of the retry run. *)
Lemma answer_sources_witness :
  NoDup (sources Runs.retry_resp1)
  /\ length (sources Runs.retry_resp1) <= 6
  /\ (forall s, s ∈ sources Runs.retry_resp1 ->
        (exists h, h ∈ hits Runs.retry_resp1 /\ snd h !! "source" = Some s)
        \/ (exists r, r ∈ Runs.retry_fresh /\ item_url r = s /\ nonempty_url r))
  /\ ((vectors (index Runs.retry_w2) = None \/ texts (index Runs.retry_w2) = []) ->
      hits Runs.retry_resp1 = []
      /\ index Runs.retry_w3 = index Runs.retry_w2
      /\ sources Runs.retry_resp1 `sublist_of` map item_url Runs.retry_fresh).
Proof.
  apply (answer_sources Fixture.retry_env "Acme" Runs.retry_prompt [] Runs.retry_fresh
           Runs.retry_w2 Runs.retry_w3 Runs.retry_resp1).
  vm_cast_no_check (eq_refl (Returned Runs.retry_resp1, Runs.retry_w3)).
Defined.

(** ** SynthesizerAgent._clean *)

Lemma commas_spaced_tail (c : ascii) (s : string) :
  commas_spaced (String c s) = true -> commas_spaced s = true.
Proof. simpl. by intros [_ ?]%andb_true_iff. Qed.

Lemma commas_spaced_spec (s : string) :
  commas_spaced s = true ->
  forall (pre post : string) (c : ascii),
    s = pre ++ String SynthesizerAgent.comma (String c post) ->
    Py.isspace c = true.
Proof.
  intros Hs pre. revert s Hs. induction pre as [|a pre IH]; intros s Hs post c ->.
  - rewrite append_nil_l in Hs. simpl in Hs. by apply andb_true_iff in Hs as [? _].
  - rewrite append_cons in Hs. apply commas_spaced_tail in Hs. by eapply IH.
Qed.

Lemma sub_comma_head (c : ascii) (s : string) :
  Py.head (SynthesizerAgent.sub_comma (String c s)) = Some c.
Proof.
  simpl. destruct (Py.code c =? 44)%N eqn:E; [|done].
  destruct s as [|c' s]; simpl; [done|].
  destruct (Py.isspace c'); simpl; [done|].
  apply N.eqb_eq in E. unfold SynthesizerAgent.comma. f_equal.
  rewrite <- (ascii_N_embedding c). unfold Py.code in E. by rewrite E.
Qed.

Lemma sub_comma_spaced (s : string) :
  commas_spaced (SynthesizerAgent.sub_comma s) = true.
Proof.
  induction s as [|c s IH]; [done|].
  pose proof (sub_comma_head c s) as Hhead. simpl in *.
  destruct (Py.code c =? 44)%N eqn:E; simpl.
  - destruct s as [|c' s]; simpl; [by rewrite E|].
    destruct (Py.isspace c') eqn:Es; simpl.
    + rewrite E. simpl in IH.
      assert ((Py.code c' =? 44)%N = false) as Ec'.
      { destruct (Py.code c' =? 44)%N eqn:Ec'; [|done]. apply N.eqb_eq in Ec'.
        unfold Py.isspace, Py.between in Es. rewrite Ec' in Es. done. }
      rewrite Ec' in *. simpl in *. by rewrite Es.
    + exact IH.
  - rewrite E. exact IH.
Qed.

Lemma sub_currency_head (prev : option ascii) (s : string) :
  Py.head (SynthesizerAgent.sub_currency prev s) = Py.head s.
Proof.
  destruct s as [|a [|b [|c rest]]];
    cbn [SynthesizerAgent.sub_currency Py.head]; try reflexivity.
  destruct (_ && _); reflexivity.
Qed.

Lemma is_currency_no_comma (a b c : ascii) :
  SynthesizerAgent.is_currency a b c = true ->
  (Py.code a =? 44)%N = false /\ (Py.code b =? 44)%N = false
  /\ (Py.code c =? 44)%N = false.
Proof.
  unfold SynthesizerAgent.is_currency. rewrite orb_true_iff, !String.eqb_eq.
  intros [[= -> -> ->]|[= -> -> ->]]; repeat split; reflexivity.
Qed.

Lemma sub_currency_spaced_bounded (n : nat) :
  forall (prev : option ascii) (s : string),
    String.length s <= n ->
    commas_spaced s = true ->
    commas_spaced (SynthesizerAgent.sub_currency prev s) = true.
Proof.
  induction n as [|n IH]; intros prev s Hlen Hs.
  - destruct s; [done | simpl in Hlen; lia].
  - destruct s as [|a rest]; [done|]. simpl in Hlen.
    assert (commas_spaced (String a (SynthesizerAgent.sub_currency (Some a) rest))
            = true) as Hplain.
    { simpl in Hs |- *. apply andb_true_iff in Hs as [Ha Hrest].
      apply andb_true_iff. split; [|apply IH; [lia | done]].
      destruct (Py.code a =? 44)%N; [|done].
      pose proof (sub_currency_head (Some a) rest) as Hh.
      destruct rest as [|c' rest]; [done|].
      destruct (SynthesizerAgent.sub_currency (Some a) (String c' rest)); [done|].
      simpl in Hh. by injection Hh as ->. }
    destruct rest as [|b [|c rest']]; try exact Hplain.
    cbn [SynthesizerAgent.sub_currency].
    destruct (_ && _) eqn:Hcond; [|exact Hplain].
    apply andb_true_iff in Hcond as [[_ Hcur]%andb_true_iff _].
    apply is_currency_no_comma in Hcur as (Ea & Eb & Ec).
    simpl in Hlen. simpl. rewrite Ea, Eb, Ec. simpl.
    apply IH; [lia|]. by do 3 apply commas_spaced_tail in Hs.
Qed.

Lemma lstrip_spaced (s : string) :
  commas_spaced s = true -> commas_spaced (Py.lstrip s) = true.
Proof.
  induction s as [|c s IH]; [done|]. intros Hs. simpl.
  destruct (Py.isspace c); [|exact Hs]. by apply IH, (commas_spaced_tail c).
Qed.

Lemma rstrip_head_inv (s r : string) (d : ascii) :
  Py.rstrip s = String d r -> Py.head s = Some d.
Proof.
  destruct s as [|c s]; simpl; [done|].
  destruct (Py.rstrip s); [destruct (Py.isspace c)|]; by intros [= -> _].
Qed.

Lemma rstrip_spaced (s : string) :
  commas_spaced s = true -> commas_spaced (Py.rstrip s) = true.
Proof.
  induction s as [|c s IH]; [done|]. intros Hs.
  pose proof (commas_spaced_tail c s Hs) as Hs'. specialize (IH Hs').
  simpl. destruct (Py.rstrip s) as [|d r] eqn:E.
  - destruct (Py.isspace c); simpl; [done|]. by destruct (Py.code c =? 44)%N.
  - simpl in Hs |- *. apply andb_true_iff in Hs as [Hc _].
    apply andb_true_iff. split; [|exact IH].
    destruct (Py.code c =? 44)%N; [|done].
    apply rstrip_head_inv in E. destruct s; [done|]. simpl in E. by injection E as <-.
Qed.

(** X9. The text [_clean] returns has no leading or trailing
    whitespace, and every comma in it is its last character or is
    followed by whitespace. *)
Theorem _clean_trimmed_commas_spaced (text : option string) :
  trimmed (SynthesizerAgent._clean text)
  /\ (forall (pre post : string) (c : ascii),
        SynthesizerAgent._clean text
          = pre ++ String SynthesizerAgent.comma (String c post) ->
        Py.isspace c = true).
Proof.
  unfold SynthesizerAgent._clean. split; [apply strip_idempotent|].
  apply commas_spaced_spec. unfold Py.strip.
  apply rstrip_spaced, lstrip_spaced.
  eapply sub_currency_spaced_bounded; [reflexivity | apply sub_comma_spaced].
Qed.

(* ================================================================== *)
(** ** services/llm.py *)
(* ================================================================== *)

Section LlmFacts.
Context {F : Type} (g : Llm.GenAI F).

Lemma _invoke_calls (system_prompt user_prompt : string) (temperature : F)
  (model_name : string) (s : Llm.Calls) :
  snd (Llm._invoke g system_prompt user_prompt temperature model_name s)
  = Llm.mkCalls (Llm.listings s) (Llm.uses s ++ [model_name])%list.
Proof.
  unfold Llm._invoke. by destruct (Llm.generate_content g _ _ _ _ _).
Qed.

Lemma try_candidates_calls (system_prompt user_prompt : string) (temperature : F)
  (candidates : list string) (s : Llm.Calls) :
  let s' := snd (Llm.try_candidates g system_prompt user_prompt temperature
                                    candidates s) in
  Llm.listings s' = Llm.listings s
  /\ Llm.uses s `prefix_of` Llm.uses s'
  /\ length (Llm.uses s') <= length (Llm.uses s) + length candidates.
Proof.
  revert s. induction candidates as [|fb rest IH]; intros s; simpl.
  - split; [done|]. split; [done|lia].
  - pose proof (_invoke_calls system_prompt user_prompt temperature
                              ("models/" ++ fb) s) as Hs.
    destruct (Llm._invoke g _ _ _ _ s) as [[text|e] s1]; simpl in Hs; subst s1; simpl.
    + split; [done|]. split; [by apply prefix_app_r|]. rewrite length_app. simpl. lia.
    + destruct (IH (Llm.mkCalls (Llm.listings s) (Llm.uses s ++ [("models/" ++ fb)%string])%list))
        as (Hl & Hp & Hn).
      simpl in *. split; [done|]. split.
      * etrans; [|exact Hp]. by apply prefix_app_r.
      * rewrite length_app in Hn. simpl in Hn. lia.
Qed.

Lemma _pick_valid_model_calls (preferred : string) (s : Llm.Calls) :
  snd (Llm._pick_valid_model g preferred s)
  = Llm.mkCalls (S (Llm.listings s)) (Llm.uses s).
Proof.
  unfold Llm._pick_valid_model, Llm._available_generate_models.
  by destruct (Llm.list_models g _).
Qed.

Lemma call_gemini_unrelated (system_prompt user_prompt : string)
  (temperature : F) (s : Llm.Calls) :
  Llm.validate_question (Some user_prompt) = false ->
  Llm.call_gemini g system_prompt user_prompt temperature s = (Llm.Ok Llm.unrelated, s).
Proof. intros H. unfold Llm.call_gemini. by rewrite H. Qed.

(** How [call_gemini] ends, and the calls it makes. *)
Lemma call_gemini_calls (system_prompt user_prompt : string)
  (temperature : F) (s : Llm.Calls) :
  exists (text : string) (s' : Llm.Calls),
    Llm.call_gemini g system_prompt user_prompt temperature s = (Llm.Ok text, s')
    /\ (Llm.validate_question (Some user_prompt) = false ->
        text = Llm.unrelated /\ s' = s)
    /\ (Llm.validate_question (Some user_prompt) = true ->
        (Llm.uses s ++ [Llm._VALID_MODEL g])%list `prefix_of` Llm.uses s'
        /\ length (Llm.uses s') <= length (Llm.uses s) + 4
        /\ Llm.listings s <= Llm.listings s' <= Llm.listings s + 1).
Proof.
  unfold Llm.call_gemini.
  destruct (Llm.validate_question (Some user_prompt)) eqn:Hv; cbn [negb].
  2: { eexists _, _. split; [reflexivity|]. split; [done|]. intros; done. }
  pose proof (_invoke_calls system_prompt user_prompt temperature
                            (Llm._VALID_MODEL g) s) as Hs.
  destruct (Llm._invoke g _ _ _ _ s) as [[text|[e|e|e]] s1];
    cbn [snd] in Hs; subst s1.
  - eexists _, _. split; [reflexivity|]. split; [done|]. intros _.
    cbn [Llm.uses Llm.listings].
    split; [done|]. rewrite length_app. simpl. lia.
  - set (s1 := Llm.mkCalls _ _).
    pose proof (try_candidates_calls system_prompt user_prompt temperature
                                     Llm.FLASH_CANDIDATES s1) as H.
    cbv zeta in H. destruct H as (Hl & Hp & Hn).
    destruct (Llm.try_candidates g _ _ _ _ s1) as [[text|] s2];
      cbn [snd s1 Llm.uses Llm.listings] in Hl, Hp, Hn;
      rewrite length_app in Hn; cbn [length Llm.FLASH_CANDIDATES] in Hn;
      (eexists _, _; split; [reflexivity|]; split; [done|]; intros _;
       split; [done|]; lia).
  - set (s1 := Llm.mkCalls _ _).
    pose proof (_pick_valid_model_calls (Llm.GEMINI_MODEL g) s1) as Hp.
    destruct (Llm._pick_valid_model g _ s1) as [alt s2]. cbn [snd] in Hp. subst s2.
    pose proof (_invoke_calls system_prompt user_prompt temperature alt
                  (Llm.mkCalls (S (Llm.listings s1)) (Llm.uses s1))) as Hi.
    destruct (Llm._invoke g _ _ _ alt _) as [[text|e2] s3]; cbn [snd] in Hi; subst s3;
      (eexists _, _; split; [reflexivity|]; split; [done|]; intros _;
       cbn [s1 Llm.uses Llm.listings];
       split; [by apply prefix_app_r|]; rewrite !length_app; simpl; lia).
  - eexists _, _. split; [reflexivity|]. split; [done|]. intros _.
    cbn [Llm.uses Llm.listings].
    split; [done|]. rewrite length_app. simpl. lia.
Qed.

(** X10. [call_gemini] never raises: whatever the client does, it
    returns a text.  For a prompt off the allowed topics the text is
    the fixed refusal and the client is not used at all.  Otherwise
    the model is used at least once and at most 4 times (the selected
    model, then the three Flash candidates or one alternative), and
    the models are listed at most once. *)
Theorem call_gemini_never_raises (system_prompt user_prompt : string)
  (temperature : F) (s : Llm.Calls) :
  exists (text : string) (s' : Llm.Calls),
    Llm.call_gemini g system_prompt user_prompt temperature s = (Llm.Ok text, s')
    /\ (Llm.validate_question (Some user_prompt) = false ->
        text = Llm.unrelated /\ s' = s)
    /\ (Llm.validate_question (Some user_prompt) = true ->
        (Llm.uses s ++ [Llm._VALID_MODEL g])%list `prefix_of` Llm.uses s'
        /\ length (Llm.uses s') <= length (Llm.uses s) + 4
        /\ Llm.listings s <= Llm.listings s' <= Llm.listings s + 1).
Proof. apply call_gemini_calls. Qed.

End LlmFacts.

Lemma nonblank_lines_unrelated :
  PlannerAgent.nonblank_lines Llm.unrelated = [Llm.unrelated].
Proof. vm_compute. reflexivity. Qed.

(** X11. With [llm.call_gemini] as the text generator, a planner
    prompt off the allowed topics (neither the company nor the request
    brings one in) makes the refusal sentence the plan's only search
    query: no template query is used. *)
Theorem plan_unrelated_prompt {R F : Type} (env : Env R) (g : Llm.GenAI F)
  (temperature : F) (company user_prompt : string) (kb_ready : bool) (w : World R) :
  runs_llm env g temperature ->
  Llm.validate_question (Some (PlannerAgent.plan_prompt company user_prompt)) = false ->
  exists p : Plan,
    fst (PlannerAgent.plan env company user_prompt kb_ready w) = Returned p
    /\ search_queries p = [Llm.unrelated].
Proof.
  intros Hllm Hoff. rewrite plan_eq. eexists. split; [reflexivity|].
  cbn [search_queries].
  destruct (Hllm (llm_calls w) SYSTEM_BASE
                 (PlannerAgent.plan_prompt company user_prompt)) as [s ->].
  rewrite call_gemini_unrelated by done.
  cbn [fst of_reply planner_lines Py.or_empty].
  rewrite nonblank_lines_unrelated. reflexivity.
Qed.

Lemma plan_unrelated_prompt_witness :
  exists p : Plan,
    fst (PlannerAgent.plan Fixture_llm_env "Acme" "hello there" true World_init)
    = Returned p
    /\ search_queries p = [Llm.unrelated].
Proof.
  apply (plan_unrelated_prompt Fixture_llm_env Fixture_genai tt).
  - intros n system_prompt user_prompt. by exists (Llm.mkCalls 0 []).
  - vm_compute. reflexivity.
Defined.

(* ================================================================== *)
(** ** The report sections *)
(* ================================================================== *)

Lemma dom_setdefault (d : gmap string string) (k v : string) :
  dom (setdefault d k v) = ({[ k ]} ∪ dom d : gset string).
Proof.
  unfold setdefault. destruct (d !! k) eqn:E.
  - apply elem_of_dom_2 in E. apply set_eq. intros j.
    rewrite elem_of_union, elem_of_singleton. split; [by right|].
    by intros [->|?].
  - by rewrite dom_insert_L.
Qed.

Lemma dom_fold_setdefault (ks : list string) (v : string) (d : gmap string string) :
  dom (fold_left (fun d k => setdefault d k v) ks d)
  = (list_to_set ks ∪ dom d : gset string).
Proof.
  revert d. induction ks as [|k ks IH]; intros d; simpl.
  - by rewrite (left_id_L ∅ (∪)).
  - rewrite IH, dom_setdefault.
    by rewrite (assoc_L (∪)), (comm_L (∪) (list_to_set ks)).
Qed.

Lemma map_Forall_setdefault (P : string -> Prop) (d : gmap string string)
  (k v : string) :
  P v -> map_Forall (fun _ x => P x) d ->
  map_Forall (fun _ x => P x) (setdefault d k v).
Proof.
  intros Hv Hd. unfold setdefault. destruct (d !! k); [done|].
  by apply map_Forall_insert_2.
Qed.

Lemma map_Forall_fold_setdefault (P : string -> Prop) (ks : list string)
  (v : string) (d : gmap string string) :
  P v -> map_Forall (fun _ x => P x) d ->
  map_Forall (fun _ x => P x) (fold_left (fun d k => setdefault d k v) ks d).
Proof.
  intros Hv. revert d. induction ks as [|k ks IH]; intros d Hd; simpl; [done|].
  by apply IH, map_Forall_setdefault.
Qed.

Lemma string_append_assoc (s t u : string) : (s ++ t) ++ u = s ++ (t ++ u).
Proof.
  induction s as [|c s IH]; [done|]. by rewrite !append_cons, IH.
Qed.

Lemma rstrip_nonspace_end (s : string) (c : ascii) :
  Py.isspace c = false ->
  Py.rstrip (s ++ String c "") = s ++ String c "".
Proof.
  intros Hc. induction s as [|a s IH].
  - rewrite append_nil_l. simpl. by rewrite Hc.
  - rewrite append_cons. simpl. rewrite IH.
    destruct s as [|b s]; [by rewrite append_nil_l | by rewrite append_cons].
Qed.

Lemma trimmed_between (a c : ascii) (s : string) :
  Py.isspace a = false -> Py.isspace c = false ->
  trimmed (String a (s ++ String c "")).
Proof.
  intros Ha Hc. unfold trimmed, Py.strip. rewrite lstrip_id by done.
  rewrite <- append_cons. by apply rstrip_nonspace_end.
Qed.

Lemma directive_placeholder_trimmed (directive : string) :
  trimmed (Report.directive_placeholder directive).
Proof.
  assert (Report.directive_placeholder directive
          = String "(" (("Directive was: " ++ directive
               ++ ". This build used the older 'Structured Insights' bucket. "
               ++ "Edit this section in the UI if you want to add directive-specific notes.")
               ++ String ")" "")) as ->.
  { unfold Report.directive_placeholder.
    rewrite !string_append_assoc. reflexivity. }
  by apply trimmed_between.
Qed.

Section ReportFacts.
Context {R V : Type} (env : Env R) (js : LlmJson.JsonEnv V).

Lemma coerce_sections_spec (raw : LlmJson.parsed V) (sections : gmap string string) :
  LlmJson.coerce_sections js raw = inl sections ->
  dom sections = (list_to_set LlmJson.EXPECTED_KEYS : gset string)
  /\ map_Forall (fun _ v => trimmed v) sections.
Proof.
  destruct raw as [members|]; [|done]. intros [= <-].
  unfold LlmJson.coerce_object. split.
  - rewrite dom_list_to_map_L, <- list_fmap_compose. reflexivity.
  - intros k v Hk. apply elem_of_list_to_map_2, list_elem_of_In, in_map_iff in Hk
      as (k' & [= _ <-] & _).
    apply strip_idempotent.
Qed.

Lemma call_gemini_json_spec (company : string) (years : Z) (dept directive : string)
  (w w' : World R) (sections : gmap string string) :
  LlmJson.call_gemini_json js company years dept directive w = (inl sections, w') ->
  dom sections = (list_to_set LlmJson.EXPECTED_KEYS : gset string)
  /\ map_Forall (fun _ v => trimmed v) sections.
Proof.
  unfold LlmJson.call_gemini_json.
  destruct (LlmJson.generate_content js _ _ _ _); [|done].
  intros [= H _]. by eapply coerce_sections_spec.
Qed.

Lemma fallback_sections_spec (self : ResearchAgent) (directive : string)
  (w w' : World R) (sections : gmap string string) :
  Report.fallback_sections env self directive w = (Returned sections, w') ->
  dom sections = (list_to_set LlmJson.EXPECTED_KEYS : gset string)
  /\ map_Forall (fun _ v => trimmed v) sections.
Proof.
  unfold Report.fallback_sections, bind at 1.
  destruct (do_read_json env _ _ w) as [[doc|e] w1]; [|done].
  unfold bind at 1.
  destruct (PlannerAgent.plan env _ _ _ w1) as [[plan|e] w2]; [|done].
  unfold bind at 1.
  set (retrieve := if need_fresh_search plan then _ else _).
  destruct (retrieve w2) as [[fresh|e] w3]; [|done].
  unfold bind at 1, Report.build_report_sections, bind at 1.
  destruct (do_call_gemini env _ _ w3) as [[content|e] w4]; [|done].
  unfold ret.
  match goal with |- (Returned ?x, _) = _ -> _ => remember x as result eqn:Hr end.
  intros [= <- _]. subst result.
  rewrite lookup_singleton_ne by done.
  split.
  - rewrite dom_fold_setdefault, dom_insert_L, dom_singleton_L.
    unfold Report.original_keys, LlmJson.EXPECTED_KEYS. simpl. set_solver.
  - apply map_Forall_fold_setdefault; [done|].
    apply map_Forall_insert_2; [apply directive_placeholder_trimmed|].
    apply map_Forall_singleton. apply strip_idempotent.
Qed.

(** X12. Whenever [generate_report_multi] returns -- with the JSON
    sections or with the fallback synthesis -- the report has exactly
    the ten expected section keys, and every section text is free of
    leading and trailing whitespace. *)
Theorem generate_report_multi_sections (self : ResearchAgent) (directive : string)
  (w w' : World R) (sections : gmap string string) :
  Report.generate_report_multi env js self directive w = (Returned sections, w') ->
  dom sections = (list_to_set LlmJson.EXPECTED_KEYS : gset string)
  /\ map_Forall (fun _ v => trimmed v) sections.
Proof.
  unfold Report.generate_report_multi.
  destruct (LlmJson.call_gemini_json js _ _ _ _ w) as [[json|e] w1] eqn:E.
  - destruct (Report.any_nonblank json).
    + intros [= <- _]. by eapply call_gemini_json_spec.
    + apply fallback_sections_spec.
  - apply fallback_sections_spec.
Qed.

End ReportFacts.

Lemma generate_report_multi_sections_witness :
  dom Fixture_report_sections = (list_to_set LlmJson.EXPECTED_KEYS : gset string)
  /\ map_Forall (fun _ v => trimmed v) Fixture_report_sections.
Proof.
  apply (generate_report_multi_sections Fixture.base_env Fixture_no_json
           Fixture.acme "compare revenue" World_init Fixture_report_world).
  vm_cast_no_check (eq_refl (Returned Fixture_report_sections, Fixture_report_world)).
Defined.

(* ================================================================== *)
(** ** ResearchAgent.ensure_index_loaded *)
(* ================================================================== *)

Section EnsureLoaded.
Context {R : Type} (env : Env R) (pdf : PdfEnv).

(** The loop adds texts and metadata in step, and every record it
    builds names its source. *)
Lemma load_pdfs_spec (downloaded : list Dict) (texts : list string) (metas : list Dict) :
  length texts = length metas ->
  Forall (fun m : Dict => is_Some (m !! "source")) metas ->
  length (fst (ResearchIndex.load_pdfs pdf downloaded texts metas))
  = length (snd (ResearchIndex.load_pdfs pdf downloaded texts metas))
  /\ Forall (fun m : Dict => is_Some (m !! "source"))
            (snd (ResearchIndex.load_pdfs pdf downloaded texts metas)).
Proof.
  revert texts metas. induction downloaded as [|d rest IH]; intros texts metas Hlen Hsrc.
  - done.
  - cbn [ResearchIndex.load_pdfs]. cbv zeta.
    destruct (Py.is_empty _); [by apply IH|].
    apply IH.
    + rewrite !length_app. simpl. lia.
    + apply Forall_app. split; [done|]. constructor; [|done].
      rewrite lookup_insert_eq. by eexists.
Qed.

(** What a returning [add] of a non-empty list leaves in the index. *)
Lemma add_returned (t : string) (ts : list string) (new_metadatas : list Dict)
  (w w' : World R) :
  VectorIndex.add env (t :: ts) new_metadatas w = (Returned tt, w') ->
  exists (embeds : ndarray R) (w1 : World R),
    VectorIndex._embed env (t :: ts) w = (Returned embeds, w1)
    /\ texts (index w') = (texts (index w) ++ t :: ts)%list
    /\ metadatas (index w') = (metadatas (index w) ++ new_metadatas)%list
    /\ match vectors (index w) with
       | None => vectors (index w') = Some embeds
       | Some old =>
           vectors (index w')
           = Some (mkArray (nd_cols old) (nd_rows old ++ nd_rows embeds))
       end.
Proof.
  intros Hadd.
  destruct (add_eq env t ts new_metadatas w) as (embeds & w1 & d & He & _ & _ & H).
  exists embeds, w1. split; [exact He|].
  rewrite Hadd in H.
  destruct (vectors (index w)) as [old|].
  - destruct (Nat.eqb (nd_cols old) (nd_cols embeds)); [|discriminate].
    by injection H as ->.
  - by injection H as ->.
Qed.

(** X13. When [ensure_index_loaded] returns, the index still has as
    many texts as metadata records as vectors, every metadata record
    names its source, and what was stored before is still there.  On
    an index that holds texts it does nothing, so a second call never
    loads the cached PDFs twice. *)
Theorem ensure_index_loaded_invariants (self : ResearchAgent) (w w' : World R) :
  one_vector_per_input env ->
  parallel_arrays (index w) ->
  sourced (index w) ->
  ResearchIndex.ensure_index_loaded env pdf self w = (Returned tt, w') ->
  parallel_arrays (index w')
  /\ sourced (index w')
  /\ store_extends (index w) (index w')
  /\ (texts (index w') <> [] ->
      ResearchIndex.ensure_index_loaded env pdf self w' = (Returned tt, w')).
Proof.
  intros Hone Hpar Hsrc.
  assert (forall w0 : World R,
            parallel_arrays (index w0) -> texts (index w0) <> [] ->
            ResearchIndex.ensure_index_loaded env pdf self w0 = (Returned tt, w0))
    as Hloaded.
  { intros w0 [_ Hrows] Hne. unfold ResearchIndex.ensure_index_loaded, bind at 1, gets.
    destruct (vectors (index w0)); [|done].
    destruct (texts (index w0)); [done|]. reflexivity. }
  assert (store_extends (index w) (index w)) as Hrefl.
  { unfold store_extends. split; [done|]. split; [done|].
    destruct (vectors (index w)) as [v|]; [|done]. by exists v. }
  intros Hrun.
  cut (parallel_arrays (index w') /\ sourced (index w')
       /\ store_extends (index w) (index w')).
  { intros (H1 & H2 & H3). split; [done|]. split; [done|]. split; [done|].
    intros Hne. by apply Hloaded. }
  revert Hrun.
  unfold ResearchIndex.ensure_index_loaded, bind at 1, gets.
  destruct (match vectors (index w) with Some _ => true | None => false end
            && Nat.ltb 0 (length (texts (index w)))) eqn:Hguard.
  { by intros [= <-]. }
  unfold bind at 1, log, modify. cbn [fst snd].
  set (w0 := mkWorld _ _ _ _ _).
  assert (index w0 = index w) as Hw0 by done.
  unfold bind at 1, lift_outcome.
  destruct (read_deep_collect pdf (company self)) as [deep|e]; [|done].
  destruct (default [] (doc_downloaded deep)) as [|d0 downloaded].
  { intros [= <-]. by rewrite Hw0. }
  pose proof (load_pdfs_spec (d0 :: downloaded) [] [] eq_refl (List.Forall_nil _))
    as [Hlen Hmetas].
  destruct (ResearchIndex.load_pdfs pdf (d0 :: downloaded) [] []) as [new_texts metas].
  cbn [fst snd] in Hlen, Hmetas.
  destruct new_texts as [|t ts].
  { intros [= <-]. by rewrite Hw0. }
  intros Hadd.
  destruct (add_returned _ _ _ _ _ Hadd) as (embeds & w1 & He & Ht & Hm & Hv).
  apply (_embed_rows _ _ _ _ _ Hone) in He.
  rewrite Hw0 in Ht, Hm, Hv.
  destruct Hpar as [Hpm Hpv].
  split.
  { unfold parallel_arrays. rewrite Ht, Hm, !length_app, Hpm, Hlen. split; [done|].
    destruct (vectors (index w)) as [old|]; rewrite Hv.
    - cbn [nd_rows]. rewrite length_app, Hpv, He, Hlen. done.
    - rewrite Hpv, He, Hlen. done. }
  split.
  { unfold sourced. rewrite Hm. apply Forall_app. by split. }
  unfold store_extends. rewrite Ht, Hm.
  split; [by apply prefix_app_r|]. split; [by apply prefix_app_r|].
  destruct (vectors (index w)) as [old|]; [|done].
  eexists. split; [exact Hv|]. split; [by apply prefix_app_r | done].
Qed.

End EnsureLoaded.

Lemma ensure_index_loaded_invariants_witness :
  parallel_arrays (index Fixture_loaded_world)
  /\ sourced (index Fixture_loaded_world)
  /\ store_extends (index (World_init : World Z)) (index Fixture_loaded_world)
  /\ (texts (index Fixture_loaded_world) <> [] ->
      ResearchIndex.ensure_index_loaded IndexRuns.env Fixture_pdf_env Fixture.acme
        Fixture_loaded_world
      = (Returned tt, Fixture_loaded_world)).
Proof.
  apply (ensure_index_loaded_invariants IndexRuns.env Fixture_pdf_env Fixture.acme
           World_init Fixture_loaded_world).
  - intros n inputs embs [= <-]. by rewrite length_map.
  - split; reflexivity.
  - constructor.
  - vm_cast_no_check (eq_refl (Returned tt, Fixture_loaded_world)).
Defined.

(* ================================================================== *)
(** ** ResearchAgent.extract_swot *)
(* ================================================================== *)

Lemma contains_refl (s : string) : contains s s.
Proof.
  exists "", "". rewrite append_nil_l. induction s as [|c s IH]; [done|].
  by rewrite append_cons, <- IH.
Qed.

Lemma contains_cons (sub s : string) (c : ascii) :
  contains sub s -> contains sub (String c s).
Proof. intros (pre & post & ->). by exists (String c pre), post. Qed.

Lemma contains_trans (a b c : string) : contains a b -> contains b c -> contains a c.
Proof.
  intros (p1 & q1 & ->) (p2 & q2 & ->). exists (p2 ++ p1), (q1 ++ q2).
  by rewrite !string_append_assoc.
Qed.

Lemma contains_lstrip (s : string) : contains (Py.lstrip s) s.
Proof.
  induction s as [|c s IH]; simpl; [apply contains_refl|].
  destruct (Py.isspace c); [by apply contains_cons | apply contains_refl].
Qed.

Lemma contains_rstrip (s : string) : exists post : string, s = Py.rstrip s ++ post.
Proof.
  induction s as [|c s [post IH]]; [by exists ""|]. simpl.
  destruct (Py.rstrip s) as [|d r] eqn:E.
  - destruct (Py.isspace c).
    + by exists (String c s).
    + exists s. by rewrite !append_cons.
  - exists post. rewrite append_cons. by rewrite <- IH.
Qed.

Lemma contains_strip (s : string) : contains (Py.strip s) s.
Proof.
  unfold Py.strip. eapply contains_trans; [|apply contains_lstrip].
  destruct (contains_rstrip (Py.lstrip s)) as [post H].
  exists "", post. by rewrite append_nil_l.
Qed.

Lemma lower_app (s t : string) : Py.lower (s ++ t) = Py.lower s ++ Py.lower t.
Proof.
  induction s as [|c s IH]; [done|]. rewrite append_cons. simpl.
  by rewrite IH, append_cons.
Qed.

Lemma contains_lower (sub s : string) :
  contains sub s -> contains (Py.lower sub) (Py.lower s).
Proof.
  intros (pre & post & ->). exists (Py.lower pre), (Py.lower post).
  by rewrite !lower_app.
Qed.

Lemma up_to_newline_prefix (s : string) :
  exists post : string, s = Swot.up_to_newline s ++ post.
Proof.
  induction s as [|c s [post IH]]; [by exists ""|]. simpl.
  destruct (Swot.is_newline c).
  - by exists (String c s).
  - exists post. by rewrite append_cons, <- IH.
Qed.

Lemma last_non_newline_contains (s : string) (d : ascii) :
  Swot.last_non_newline s = Some d -> contains (String d "") s.
Proof.
  induction s as [|c s IH]; simpl; [done|].
  destruct (Swot.last_non_newline s) as [d'|].
  - intros [= ->]. by apply contains_cons, IH.
  - destruct (Swot.is_newline c); [done|]. intros [= ->].
    exists "", s. by rewrite append_nil_l.
Qed.

Lemma bullet_text_contains (s g : string) :
  Swot.bullet_text s = Some g -> contains g s.
Proof.
  destruct s as [|c rest]; simpl; [done|].
  destruct (_ || _); [|done].
  destruct (Py.lstrip rest) as [|b body] eqn:E.
  - destruct (Swot.last_non_newline rest) as [d|] eqn:El; [|done].
    intros [= <-]. by apply contains_cons, last_non_newline_contains.
  - intros [= <-]. apply contains_cons.
    eapply contains_trans; [|apply contains_lstrip]. rewrite E.
    destruct (up_to_newline_prefix (String b body)) as [post H].
    exists "", post. by rewrite append_nil_l.
Qed.

(** A string whose whitespace is all there is has an empty [rstrip]. *)
Lemma lstrip_empty_rstrip (s : string) : Py.lstrip s = "" -> Py.rstrip s = "".
Proof.
  induction s as [|c s IH]; simpl; [done|].
  destruct (Py.isspace c) eqn:E; [|done]. intros H. by rewrite (IH H).
Qed.

Lemma rstrip_tail (c : ascii) (s rest : string) :
  Py.rstrip s = String c rest -> Py.rstrip rest = rest.
Proof.
  intros H. pose proof (rstrip_idempotent s) as Hi. rewrite H in Hi.
  simpl in Hi. destruct (Py.rstrip rest) as [|d r] eqn:E.
  - destruct (Py.isspace c); [done|]. by injection Hi as <-.
  - by injection Hi as <-.
Qed.

(** On a stripped line the bullet's text starts with a character that
    is no whitespace. *)
Lemma bullet_text_stripped (line g : string) :
  Swot.bullet_text (Py.strip line) = Some g ->
  exists (c : ascii) (r : string), g = String c r /\ Py.isspace c = false.
Proof.
  unfold Py.strip. destruct (Py.rstrip (Py.lstrip line)) as [|c rest] eqn:E; [done|].
  apply rstrip_tail in E. simpl.
  destruct (_ || _); [|done].
  pose proof (lstrip_head rest) as Hh.
  destruct (Py.lstrip rest) as [|b body] eqn:El.
  - apply lstrip_empty_rstrip in El. rewrite E in El. subst rest. done.
  - intros [= <-]. simpl.
    destruct (Swot.is_newline b) eqn:Hn; [|by eexists _, _].
    unfold Swot.is_newline in Hn. apply N.eqb_eq in Hn.
    unfold Py.isspace, Py.between in Hh. rewrite Hn in Hh. done.
Qed.

Lemma strip_nonspace_head (c : ascii) (r : string) :
  Py.isspace c = false -> Py.strip (String c r) <> "".
Proof.
  intros H. unfold Py.strip. rewrite lstrip_id by done.
  destruct (rstrip_head c r H) as [r' ->]. done.
Qed.

Lemma not_contains_heading (h : string) :
  Py.str_in "strength" h = false -> Py.str_in "weakness" h = false ->
  Py.str_in "opportunit" h = false -> Py.str_in "threat" h = false ->
  forall hw : string, hw ∈ heading_words -> ~ contains hw h.
Proof.
  intros H1 H2 H3 H4 hw Hhw. apply str_in_false.
  unfold heading_words in Hhw. rewrite !elem_of_cons, elem_of_nil in Hhw.
  destruct Hhw as [->|[->|[->|[->|[]]]]]; done.
Qed.

Lemma swot_entries_append_to (cur : Swot.heading) (item : string) (sw : Swot.swot) :
  Forall swot_entry (swot_entries sw) -> swot_entry item ->
  Forall swot_entry (swot_entries (Swot.append_to cur item sw)).
Proof.
  unfold swot_entries. rewrite !Forall_app. intros (H1 & H2 & H3 & H4) Hi.
  destruct cur; simpl; rewrite ?Forall_app; repeat split; try done;
    by constructor.
Qed.

Lemma scan_entries (lines : list string) (current : option Swot.heading)
  (sw : Swot.swot) :
  Forall swot_entry (swot_entries sw) ->
  Forall swot_entry (swot_entries (Swot.scan lines current sw)).
Proof.
  revert current sw. induction lines as [|line rest IH]; intros current sw Hsw; [done|].
  cbn [Swot.scan]. cbv zeta.
  destruct (Py.str_in "strength" _) eqn:H1; [by apply IH|].
  destruct (Py.str_in "weakness" _) eqn:H2; [by apply IH|].
  destruct (Py.str_in "opportunit" _) eqn:H3; [by apply IH|].
  destruct (Py.str_in "threat" _) eqn:H4; [by apply IH|].
  destruct current as [cur|]; [|by apply IH].
  destruct (Swot.bullet_text (Py.strip line)) as [g|] eqn:Hg; [|by apply IH].
  apply IH, swot_entries_append_to; [done|].
  destruct (bullet_text_stripped line g Hg) as (c & r & -> & Hc).
  split; [by apply strip_nonspace_head|]. split; [apply strip_idempotent|].
  intros hw Hhw Hin.
  apply (not_contains_heading _ H1 H2 H3 H4 hw Hhw).
  eapply contains_trans; [exact Hin|]. apply contains_lower.
  eapply contains_trans; [apply contains_strip|].
  by apply bullet_text_contains.
Qed.

(** X14. In the result of [extract_swot] each of the four lists has
    at most 6 entries, and every entry is a non-empty text without
    leading or trailing whitespace that contains none of "strength",
    "weakness", "opportunit", "threat" in any letter case: a bullet
    that mentions one of these words is read as a heading and is not
    stored. *)
Theorem extract_swot_entries (text : option string) :
  length (Swot.strengths (Swot.extract_swot text)) <= 6
  /\ length (Swot.weaknesses (Swot.extract_swot text)) <= 6
  /\ length (Swot.opportunities (Swot.extract_swot text)) <= 6
  /\ length (Swot.threats (Swot.extract_swot text)) <= 6
  /\ Forall swot_entry (swot_entries (Swot.extract_swot text)).
Proof.
  unfold Swot.extract_swot. cbv zeta. cbn [Swot.strengths Swot.weaknesses
    Swot.opportunities Swot.threats].
  rewrite !length_take.
  split; [lia|]. split; [lia|]. split; [lia|]. split; [lia|].
  pose proof (scan_entries (Py.splitlines (Py.or_empty text)) None
                           (Swot.mkSwot [] [] [] []) (List.Forall_nil _)) as H.
  unfold swot_entries in *.
  cbn [Swot.strengths Swot.weaknesses Swot.opportunities Swot.threats].
  rewrite !Forall_app in *. destruct H as (H1 & H2 & H3 & H4).
  repeat split; by apply Forall_take.
Qed.

(* ================================================================== *)
(** ** services/cache.py *)
(* ================================================================== *)

Lemma lower_char_keep (c : ascii) :
  Cache.keep c = true -> (Py.code c < 128)%N ->
  bool_decide (Py.lower_char c ∈ dir_chars) = true.
Proof.
  destruct c as [[] [] [] [] [] [] [] []]; vm_compute; intros H1 H2;
    first [discriminate H1 | discriminate H2 | reflexivity].
Qed.

Lemma safe_chars (company : string) :
  ascii_only company -> Forall (fun c => c ∈ dir_chars) (chars (Cache.safe company)).
Proof.
  unfold ascii_only, Cache.safe, chars.
  induction company as [|c s IH]; simpl; [constructor|].
  intros H. apply Forall_cons in H as [Hc H].
  destruct (Cache.keep c) eqn:E; [|by apply IH].
  simpl. constructor; [|by apply IH].
  eapply bool_decide_eq_true_1. by apply lower_char_keep.
Qed.

Lemma dir_char_fixed (c : ascii) :
  c ∈ dir_chars -> Cache.keep c = true /\ Py.lower_char c = c.
Proof.
  unfold dir_chars, chars. simpl. rewrite !elem_of_cons, elem_of_nil.
  intros H. repeat (destruct H as [->|H]; [by vm_compute|]). done.
Qed.

Lemma filter_lower_fixed (s : string) :
  Forall (fun c => c ∈ dir_chars) (chars s) -> Cache.safe s = s.
Proof.
  unfold Cache.safe, chars.
  induction s as [|c s IH]; simpl; [done|].
  intros H. apply Forall_cons in H as [Hc H].
  apply dir_char_fixed in Hc as [Hk Hl].
  rewrite Hk. simpl. by rewrite Hl, IH.
Qed.

(** X15. For a company name of ASCII characters, the directory name
    [company_dir] derives from it consists of the lower-case letters
    [a]-[z], the digits, [-] and [_] only: it holds no path separator,
    dot, colon or whitespace, so the directory is a direct child of
    the cache directory (or that directory itself, when no character
    is left).  Deriving the name again from the name gives the same
    name. *)
Theorem company_dir_safe (company : string) :
  ascii_only company ->
  Forall (fun c => c ∈ dir_chars) (chars (Cache.safe company))
  /\ Cache.safe (Cache.safe company) = Cache.safe company.
Proof.
  intros H. split; [by apply safe_chars|]. by apply filter_lower_fixed, safe_chars.
Qed.

(** X15, on a name with upper-case letters, blanks, dots and
    parentheses. *)
Lemma company_dir_safe_witness :
  Forall (fun c => c ∈ dir_chars) (chars (Cache.safe "Acme Corp. (EU-27)"))
  /\ Cache.safe (Cache.safe "Acme Corp. (EU-27)") = Cache.safe "Acme Corp. (EU-27)".
Proof.
  apply (company_dir_safe "Acme Corp. (EU-27)").
  unfold ascii_only, chars. simpl. repeat (constructor; [reflexivity|]). constructor.
Defined.

(* ================================================================== *)
(** ** SynthesizerAgent.answer returns *)
(* ================================================================== *)

Lemma slice_to_elem_of {A : Type} (k : Z) (xs : list A) (x : A) :
  x ∈ slice_to k xs -> x ∈ xs.
Proof.
  unfold slice_to. destruct (0 <=? k)%Z; intros H;
    apply elem_of_take in H as (j & Hj & _); by eapply list_elem_of_lookup_2.
Qed.

Lemma with_call_gemini_laws (env : Env Z)
  (f : nat -> string -> string -> outcome (option string)) :
  numpy_laws env -> numpy_laws (Fixture.with_call_gemini env f).
Proof. intros [H1 H2 H3 H4 H5]. by constructor. Qed.

Lemma offline_env_laws : numpy_laws Fixture_offline_env.
Proof. destruct base_env_laws as [H1 H2 H3 H4 H5]. by constructor. Qed.

Section AnswerReturns.
Context {R F : Type} (env : Env R) (laws : numpy_laws env).
Context (g : Llm.GenAI F) (temperature : F).

(** [search] returns, for every [k], when the query is embedded as
    wide as the stored vectors; its hits carry stored metadata. *)
Lemma search_returns (w : World R) (query : string) (k : Z) (vecs q : ndarray R)
  (w1 : World R) :
  vectors (index w) = Some vecs ->
  texts (index w) <> [] ->
  parallel_arrays (index w) ->
  VectorIndex._embed env [query] w = (Returned q, w1) ->
  nd_cols q = nd_cols vecs ->
  exists res : list (R * Dict),
    VectorIndex.search env query k w = (Returned res, w1)
    /\ Forall (fun r => snd r ∈ metadatas (index w)) res.
Proof.
  intros Hvecs Htexts [Hmeta Hrows] Hembed Hcols.
  rewrite Hvecs in Hrows.
  destruct (_embed_returns env [query] w)
    as (q' & w1' & Hembed' & Hshape & Hne & d & Hix).
  rewrite Hembed in Hembed'. injection Hembed' as <- <-.
  destruct (nd_rows q) as [|qv rest] eqn:Hq; [by destruct Hne|].
  assert (length qv = nd_cols q) as Hqv by (by inversion Hshape).
  unfold VectorIndex.search. unfold bind at 1, gets. rewrite Hvecs.
  destruct (length (texts (index w))) eqn:Hn; [by destruct (texts (index w))|].
  cbn [Nat.eqb]. unfold bind at 1. rewrite Hembed.
  unfold bind at 1, index_at at 1. rewrite Hq. cbn [lookup list_lookup ret].
  unfold bind at 1, VectorIndex.np_matvec.
  rewrite <- Hcols, <- Hqv, Nat.eqb_refl. cbn [ret].
  unfold bind at 1. cbn [gets]. rewrite Hix. cbn [metadatas with_dim].
  rewrite map_map, zip_with_map_same.
  match goal with
  | |- context [np_argsort env (map (np_neg env) ?s)] => set (sims := s)
  end.
  set (idxs := slice_to k (np_argsort env (map (np_neg env) sims))).
  assert (length sims = length (nd_rows vecs)) as Hsims
    by (unfold sims; by rewrite length_map).
  assert (exists res,
             Forall2 (fun i r => sims !! i = Some (fst r)
                                 /\ metadatas (index w) !! i = Some (snd r))
                     idxs res) as [res Hres].
  { apply Forall_exists_Forall2, Forall_forall. intros i Hi.
    apply slice_to_elem_of, (argsort_bound env laws) in Hi.
    rewrite length_map, Hsims in Hi.
    destruct (lookup_lt_is_Some_2 sims i) as [s Hs]; [lia|].
    destruct (lookup_lt_is_Some_2 (metadatas (index w)) i) as [md Hmd]; [lia|].
    by exists (s, md). }
  exists res. split.
  - apply for_each_pure.
    eapply Forall2_impl; [exact Hres|]. intros i [s md] [Hs Hmd] s0.
    simpl in Hmd, Hs. unfold bind, index_at. rewrite Hs. simpl. by rewrite Hmd.
  - clear -Hres. induction Hres as [|i r idxs res [_ H] _ IH]; constructor; [|done].
    by eapply list_elem_of_lookup_2.
Qed.

Lemma for_each_source_of_returns (hs : list (R * Dict)) (w : World R) :
  Forall (fun h => is_Some (snd h !! "source")) hs ->
  exists pdf_sources : list (option string),
    for_each SynthesizerAgent.source_of hs w = (Returned pdf_sources, w).
Proof.
  intros H.
  assert (exists ss, Forall2 (fun h s => snd h !! "source" = Some s) hs ss) as [ss Hss].
  { apply Forall_exists_Forall2. eapply Forall_impl; [exact H|]. by intros h [s ?]; exists s. }
  exists ss. apply for_each_pure.
  eapply Forall2_impl; [exact Hss|]. intros h s Hs s0.
  unfold SynthesizerAgent.source_of. by rewrite Hs.
Qed.

Lemma runs_llm_returns (n : nat) (system_prompt user_prompt : string) :
  runs_llm env g temperature ->
  exists text : string,
    call_gemini env n system_prompt user_prompt = Returned (Some text).
Proof.
  intros H. destruct (H n system_prompt user_prompt) as [s ->].
  destruct (call_gemini_calls g system_prompt user_prompt temperature s)
    as (text & s' & -> & _).
  by exists text.
Qed.

Lemma _embed_http (inputs : list string) (w : World R) :
  http_calls (snd (VectorIndex._embed env inputs w)) = http_calls w.
Proof.
  unfold VectorIndex._embed, VectorIndex.random_embeddings, VectorIndex.set_dim,
    VectorIndex.update_index, modify.
  destruct (client env); cbn [negb]; [|reflexivity].
  unfold try_except, bind at 1, do_embeddings_create.
  destruct (embeddings_create env (embed_calls w) inputs) as [embs|e]; [|reflexivity].
  unfold bind at 1, index_at.
  destruct (embs !! 0) as [e0|]; [|reflexivity].
  unfold bind at 1. cbn [ret fst snd].
  unfold VectorIndex.np_array_float32.
  destruct embs as [|e1 embs]; [reflexivity|].
  destruct (forallb _ _); reflexivity.
Qed.

(** [answer] under the invariants: it returns, and leaves the stored
    data and the request count as they were. *)
Lemma answer_returns_state (company question : string) (overview_results : list Dict)
  (fresh_snippets : list Item) (w : World R) :
  runs_llm env g temperature ->
  forced_failure env ->
  parallel_arrays (index w) ->
  sourced (index w) ->
  (forall v, vectors (index w) = Some v -> nd_cols v = 512) ->
  exists (resp : Response R) (w' : World R),
    SynthesizerAgent.answer env company question overview_results fresh_snippets w
    = (Returned resp, w')
    /\ Forall (fun h => snd h ∈ metadatas (index w)) (hits resp)
    /\ (exists d, index w' = with_dim d (index w))
    /\ http_calls w' = http_calls w
    /\ resp_followups resp = None.
Proof.
  intros Hllm Hff Hpar Hsrc Hwide.
  unfold SynthesizerAgent.answer, bind at 1, log, modify. cbn [fst snd].
  set (w0 := mkWorld _ _ _ _ _).
  unfold bind at 1, gets. cbn [index w0].
  assert (forall (pdf_sources : list (option string)) (hs : list (R * Dict))
                 (w2 : World R) (prompt : string),
            Forall (fun h => snd h ∈ metadatas (index w)) hs ->
            (exists d, index w2 = with_dim d (index w)) ->
            http_calls w2 = http_calls w ->
            exists (resp : Response R) (w' : World R),
              (ans <- do_call_gemini env SYSTEM_BASE prompt ;;
               ret (mkResponse (SynthesizerAgent._clean ans)
                      (take 6 (fromkeys
                         (pdf_sources
                          ++ map item_url
                               (List.filter (fun r => Py.truthy (item_url r))
                                            fresh_snippets))))
                      hs None)) w2 = (Returned resp, w')
              /\ Forall (fun h => snd h ∈ metadatas (index w)) (hits resp)
              /\ (exists d, index w' = with_dim d (index w))
              /\ http_calls w' = http_calls w
              /\ resp_followups resp = None) as Hfinish.
  { intros pdf_sources hs w2 prompt Hhs Hd Hhttp. unfold bind, do_call_gemini.
    destruct (runs_llm_returns (llm_calls w2) SYSTEM_BASE prompt Hllm) as [text ->].
    eexists _, _. split; [reflexivity|]. done. }
  assert (exists d, index w0 = with_dim d (index w)) as Hd0
    by (exists (dim (index w)); apply with_dim_id).
  destruct (vectors (index w)) as [vecs|] eqn:Hvecs.
  2: { unfold bind at 1. cbn [ret fst snd]. by apply Hfinish. }
  destruct (texts (index w)) as [|t ts] eqn:Htexts.
  { cbn [length Nat.ltb Nat.leb]. unfold bind at 1. cbn [ret fst snd].
    by apply Hfinish. }
  cbn [length Nat.ltb Nat.leb].
  destruct (_embed_forced_failure env [question] w0 Hff) as [Hq Hix].
  pose proof (_embed_http [question] w0) as Hhttp.
  destruct (VectorIndex._embed env [question] w0) as [oq w1] eqn:Hembed.
  cbn [fst snd] in Hq, Hix, Hhttp. subst oq.
  destruct (search_returns w0 question 5 vecs
              (VectorIndex.rng_random env 42 (length [question]) 512) w1)
    as (hs & Hsearch & Hhs);
    [done | cbn [index w0]; by rewrite Htexts | done | exact Hembed
     | cbn [VectorIndex.rng_random nd_cols]; symmetry; by apply Hwide |].
  assert (Forall (fun h => is_Some (snd h !! "source")) hs) as Hsourced.
  { eapply Forall_impl; [exact Hhs|]. intros h Hh. cbn [index w0] in Hh.
    unfold sourced in Hsrc. rewrite Forall_forall in Hsrc. by apply Hsrc. }
  destruct (for_each_source_of_returns hs w1 Hsourced) as [pdf_sources Hfor].
  unfold bind at 1. unfold bind at 1. rewrite Hsearch.
  unfold bind at 1. rewrite Hfor. cbn [ret fst snd].
  apply Hfinish; [done | by eexists | done].
Qed.

(** X16. With [llm.call_gemini] as the text generator and the
    embeddings in fallback mode, [SynthesizerAgent.answer] never
    raises on an index that keeps the parallel-array invariant, whose
    vectors are 512 wide and whose metadata records all name a source
    (as [ensure_index_loaded] builds them): it returns, and every
    evidence hit carries a stored metadata record. *)
Theorem answer_returns (company question : string) (overview_results : list Dict)
  (fresh_snippets : list Item) (w : World R) :
  runs_llm env g temperature ->
  forced_failure env ->
  parallel_arrays (index w) ->
  sourced (index w) ->
  (forall v, vectors (index w) = Some v -> nd_cols v = 512) ->
  exists (resp : Response R) (w' : World R),
    SynthesizerAgent.answer env company question overview_results fresh_snippets w
    = (Returned resp, w')
    /\ Forall (fun h => snd h ∈ metadatas (index w)) (hits resp).
Proof.
  intros Hllm Hff Hpar Hsrc Hwide.
  destruct (answer_returns_state company question overview_results fresh_snippets w
              Hllm Hff Hpar Hsrc Hwide) as (resp & w' & H & Hhits & _).
  by exists resp, w'.
Qed.

Lemma gather_snippets_unconfigured (queries : list string) (count : Z) (w : World R) :
  search_configured env = false ->
  exists w' : World R,
    RetrieverAgent.gather_snippets env queries count w = (Returned [], w')
    /\ index w' = index w /\ http_calls w' = http_calls w.
Proof.
  intros Hc. unfold RetrieverAgent.gather_snippets, bind at 1, log, modify.
  cbn [fst snd]. unfold bind.
  rewrite (proj2 (search_loop_requests env queries count [] _) Hc).
  eexists. split; [reflexivity|]. done.
Qed.

(** X17. Offline, [answer_multi] always answers: with no API key for
    the search provider, the embeddings in fallback mode,
    [llm.call_gemini] as the text generator and a readable overview
    cache, it returns on every index that keeps the invariants of
    X16 -- whether or not the critic asks for the retry --, makes no
    HTTP request, and attaches the planner's three follow-ups. *)
Theorem answer_multi_returns_offline (self : ResearchAgent) (user_prompt : string)
  (kb_ready : bool) (ov : CacheDoc) (w : World R) :
  runs_llm env g temperature ->
  forced_failure env ->
  search_configured env = false ->
  read_json env (company self) "basic_overview" = Returned ov ->
  parallel_arrays (index w) ->
  sourced (index w) ->
  (forall v, vectors (index w) = Some v -> nd_cols v = 512) ->
  exists (resp : Response R) (w' : World R),
    ResearchAgent.answer_multi env self user_prompt kb_ready w = (Returned resp, w')
    /\ http_calls w' = http_calls w
    /\ resp_followups resp = Some PlannerAgent.fixed_followups.
Proof.
  intros Hllm Hff Hc Hov Hpar Hsrc Hwide.
  assert (forall (d : option nat) (ix : VectorIndex R),
            ix = with_dim d (index w) ->
            parallel_arrays ix /\ sourced ix
            /\ (forall v, vectors ix = Some v -> nd_cols v = 512)) as Hinv.
  { intros d ix ->. done. }
  rewrite answer_multi_unfold. unfold bind at 1, do_read_json. rewrite Hov.
  set (w0 := mkWorld _ _ _ _ _).
  unfold bind at 1. rewrite plan_eq.
  set (p := mkPlan _ _ _).
  set (w1 := after_generate w0 _ _).
  unfold bind at 1.
  assert (exists w2 : World R,
             first_retrieval env p w1 = (Returned [], w2)
             /\ index w2 = index w /\ http_calls w2 = http_calls w)
    as (w2 & -> & Hix2 & Hh2).
  { unfold first_retrieval. destruct (need_fresh_search p).
    - destruct (gather_snippets_unconfigured (search_queries p) 6 w1 Hc)
        as (w2 & H & ? & ?). by exists w2.
    - by exists w1. }
  destruct (Hinv (dim (index w2)) (index w2)) as (Hp2 & Hs2 & Hw2);
    [rewrite <- Hix2; apply with_dim_id|].
  destruct (answer_returns_state (company self) user_prompt
              (default [] (doc_results ov)) [] w2 Hllm Hff Hp2 Hs2 Hw2)
    as (resp1 & w3 & Ha1 & _ & [d3 Hix3] & Hh3 & _).
  cbv beta iota. unfold bind at 1. rewrite Ha1.
  unfold bind at 1.
  destruct (CriticAgent.needs_retry (answer resp1)).
  - destruct (gather_snippets_unconfigured
                (ResearchAgent.refine_q self user_prompt) 6 w3 Hc)
      as (w4 & Hg & Hix4 & Hh4).
    destruct (Hinv d3 (index w4)) as (Hp4 & Hs4 & Hw4);
      [by rewrite Hix4, Hix3, Hix2|].
    destruct (answer_returns_state (company self) user_prompt
                (default [] (doc_results ov)) [] w4 Hllm Hff Hp4 Hs4 Hw4)
      as (resp2 & w5 & Ha & _ & _ & Hh5 & _).
    unfold bind at 1. rewrite Hg. cbv beta iota. rewrite Ha.
    eexists _, _. split; [reflexivity|]. split; [congruence | done].
  - unfold bind. eexists _, _. split; [reflexivity|]. split; [congruence | done].
Qed.

End AnswerReturns.

Lemma answer_returns_witness :
  exists (resp : Response Z) (w' : World Z),
    SynthesizerAgent.answer Fixture_llm_env "Acme" "revenue by product" [] []
      Fixture_fallback_world
    = (Returned resp, w')
    /\ Forall (fun h => snd h ∈ metadatas (index Fixture_fallback_world)) (hits resp).
Proof.
  apply (answer_returns Fixture_llm_env
           (with_call_gemini_laws _ _ base_env_laws) Fixture_genai tt).
  - intros n system_prompt user_prompt. by exists (Llm.mkCalls 0 []).
  - by left.
  - split; reflexivity.
  - constructor; [|constructor]. by eexists.
  - intros v [= <-]. reflexivity.
Defined.

Lemma answer_multi_returns_offline_witness :
  exists (resp : Response Z) (w' : World Z),
    ResearchAgent.answer_multi Fixture_offline_env Fixture.acme "revenue by product"
      false Fixture_fallback_world = (Returned resp, w')
    /\ http_calls w' = http_calls Fixture_fallback_world
    /\ resp_followups resp = Some PlannerAgent.fixed_followups.
Proof.
  apply (answer_multi_returns_offline Fixture_offline_env
           offline_env_laws
           Fixture_genai tt Fixture.acme "revenue by product" false
           (mkCacheDoc None None)).
  - intros n system_prompt user_prompt. by exists (Llm.mkCalls 0 []).
  - by left.
  - reflexivity.
  - reflexivity.
  - split; reflexivity.
  - constructor; [|constructor]. by eexists.
  - intros v [= <-]. reflexivity.
Defined.

(* ================================================================== *)
(** ** report_builder._fetch_sources *)
(* ================================================================== *)

Lemma first_match_found (kw : string) (results : list Dict) (r : Dict) :
  ReportBuilder.first_match kw results = ReportBuilder.Found r ->
  r ∈ results
  /\ exists u : string, get_or_empty r "url" = Some u /\ contains kw (Py.lower u).
Proof.
  induction results as [|x rest IH]; simpl; [done|].
  destruct (get_or_empty x "url") as [u|] eqn:E; [|done].
  destruct (Py.str_in kw (Py.lower u)) eqn:Hin.
  - intros [= <-]. split; [apply list_elem_of_here|].
    exists u. split; [done | by apply str_in_spec].
  - intros H. destruct (IH H) as [? ?]. split; [by apply list_elem_of_further | done].
Qed.

Lemma first_match_raises (kw : string) (results : list Dict) :
  ReportBuilder.first_match kw results = ReportBuilder.Raises ->
  exists r : Dict, r ∈ results /\ r !! "url" = Some None.
Proof.
  induction results as [|x rest IH]; simpl; [done|].
  destruct (get_or_empty x "url") as [u|] eqn:E.
  - destruct (Py.str_in kw (Py.lower u)); [done|].
    intros H. destruct (IH H) as (r & ? & ?). exists r.
    split; [by apply list_elem_of_further | done].
  - intros _. exists x. split; [apply list_elem_of_here|].
    unfold get_or_empty in E. by destruct (x !! "url") as [[?|]|].
Qed.

Lemma add_source_spec (kw label : string) (results : list Dict)
  (sources : list ReportBuilder.Source) :
  kw ∈ ReportBuilder.keywords -> kw <> "" ->
  Forall (picked results) sources ->
  match ReportBuilder.add_source kw label results sources with
  | ReportBuilder.Fetched sources' =>
      Forall (picked results) sources' /\ length sources' <= S (length sources)
  | ReportBuilder.Failed e =>
      e = ReportBuilder.AttributeError
      /\ exists r : Dict, r ∈ results /\ r !! "url" = Some None
  end.
Proof.
  intros Hkw Hne Hsrc. unfold ReportBuilder.add_source.
  destruct (ReportBuilder.first_match kw results) as [r| |] eqn:E.
  - apply first_match_found in E as (Hr & u & Hu & Hin).
    case_bool_decide; [split; [done|lia]|].
    unfold get_or_empty in Hu.
    destruct (r !! "url") as [v|] eqn:Ev.
    + subst v. split.
      * apply Forall_app. split; [done|]. constructor; [|done].
        by exists r, u, kw.
      * rewrite length_app. simpl. lia.
    + injection Hu as <-. destruct Hin as (pre & post & Hin).
      destruct pre; [destruct kw; [done|discriminate Hin] | discriminate Hin].
  - split; [done|lia].
  - split; [done|]. by apply (first_match_raises kw).
Qed.

Section FetchSources.
Context {R : Type} (env : Env R).

(** The searches: every failure is skipped, and a query costs at most
    one request. *)
Lemma fetch_results_returns (queries : list string) (acc : list Dict) (w : World R) :
  exists w' : World R,
    ReportBuilder.fetch_results env queries acc w
    = (Returned (acc ++ concat (map hits_of (searches env queries w)))%list, w')
    /\ requests_at_most (length queries) w w'.
Proof.
  revert acc w. induction queries as [|q rest IH]; intros acc w.
  - exists w. cbn [searches map concat]. rewrite app_nil_r.
    split; [done | apply requests_at_most_refl].
  - cbn [ReportBuilder.fetch_results searches map concat].
    unfold bind at 1, try_except, bind at 1.
    pose proof (proj1 (web_search_requests env q 5 w)) as Hreq.
    assert (requests_at_most 1 w (snd (Search.web_search env q 5 w))) as Hreq1.
    { eapply requests_at_most_mono; [|exact Hreq].
      destruct (search_configured env); lia. }
    destruct (Search.web_search env q 5 w) as [[out|e] w1];
      cbn [ret fst snd hits_of] in *.
    + destruct (IH (acc ++ out)%list w1) as (w' & -> & Hr).
      exists w'. rewrite <- app_assoc. split; [done|].
      apply (requests_at_most_trans 1 (length rest) w w1 w'); done.
    + destruct (IH acc w1) as (w' & -> & Hr).
      exists w'. split; [done|].
      apply (requests_at_most_trans 1 (length rest) w w1 w'); done.
Qed.

(** X18. [_fetch_sources] never fails because a search fails: each of
    its four searches is guarded, and the results it works on are the
    hits of the searches that returned, in the order of the queries,
    with nothing in place of a search that raised; at most four
    requests are made.  It returns at most three sources, each with
    the URL of a hit that contains "nokia.com", "stockanalysis" or
    "macrotrends" in some letter case.  It can still raise:
    [AttributeError], and only when some hit has the URL [None] (a
    result without a link); it does so whenever the first hit is
    one. *)
Theorem _fetch_sources_guarded (company : string) (w : World R) :
  exists (results : list Dict) (w' : World R),
    results = concat (map hits_of (searches env (ReportBuilder.queries company) w))
    /\ ReportBuilder.fetch_results env (ReportBuilder.queries company) [] w
       = (Returned results, w')
    /\ requests_at_most 4 w w'
    /\ ReportBuilder._fetch_sources env company w
       = (Returned (ReportBuilder.pick_sources results), w')
    /\ match ReportBuilder.pick_sources results with
       | ReportBuilder.Fetched sources =>
           length sources <= 3 /\ Forall (picked results) sources
       | ReportBuilder.Failed e =>
           e = ReportBuilder.AttributeError
           /\ exists r : Dict, r ∈ results /\ r !! "url" = Some None
       end
    /\ (forall (r : Dict) (rest : list Dict),
          results = r :: rest -> r !! "url" = Some None ->
          ReportBuilder.pick_sources results
          = ReportBuilder.Failed ReportBuilder.AttributeError).
Proof.
  destruct (fetch_results_returns (ReportBuilder.queries company) [] w)
    as (w' & Hrun & Hreq).
  cbn [app] in Hrun.
  set (results := concat (map hits_of (searches env (ReportBuilder.queries company) w)))
    in *.
  exists results, w'. split; [reflexivity|].
  split; [exact Hrun|]. split; [exact Hreq|]. split.
  { unfold ReportBuilder._fetch_sources, bind. by rewrite Hrun. }
  split.
  - unfold ReportBuilder.pick_sources.
    pose proof (add_source_spec "nokia.com"
                  "[S2] Nokia newsroom - FY2024 Financial Report" results []) as H1.
    destruct (ReportBuilder.add_source "nokia.com" _ results []) as [s1|e1];
      [|apply H1; [by left | done | constructor]].
    destruct H1 as [Hp1 Hl1]; [by left | done | constructor |].
    pose proof (add_source_spec "stockanalysis"
                  "[S1] StockAnalysis - Annual EUR series" results s1) as H2.
    destruct (ReportBuilder.add_source "stockanalysis" _ results s1) as [s2|e2];
      [|apply H2; [by right; left | done | done]].
    destruct H2 as [Hp2 Hl2]; [by right; left | done | done |].
    pose proof (add_source_spec "macrotrends"
                  "[S3] Macrotrends - Annual USD cross-check" results s2) as H3.
    destruct (ReportBuilder.add_source "macrotrends" _ results s2) as [s3|e3];
      [|apply H3; [by right; right; left | done | done]].
    destruct H3 as [Hp3 Hl3]; [by right; right; left | done | done |].
    split; [simpl in *; lia | done].
  - intros r rest -> Hr. unfold ReportBuilder.pick_sources, ReportBuilder.add_source.
    cbn [ReportBuilder.first_match]. unfold get_or_empty. by rewrite Hr.
Qed.

End FetchSources.

(* ================================================================== *)
(** ** research_agent._clean *)
(* ================================================================== *)

Lemma newline_is_space (c : ascii) : Swot.is_newline c = true -> Py.isspace c = true.
Proof.
  unfold Swot.is_newline. intros H%N.eqb_eq.
  unfold Py.isspace, Py.between. by rewrite H.
Qed.

Lemma nonspace_not_newline (c : ascii) :
  Py.isspace c = false -> Swot.is_newline c = false.
Proof.
  intros H. destruct (Swot.is_newline c) eqn:E; [|done].
  apply newline_is_space in E. congruence.
Qed.

Lemma tab_is_space (c : ascii) : ResearchClean.is_tab c = true -> Py.isspace c = true.
Proof.
  unfold ResearchClean.is_tab. intros H%N.eqb_eq.
  unfold Py.isspace, Py.between. by rewrite H.
Qed.

(** *** No tab is left *)

Lemma no_tabs_app (s t : string) :
  no_tabs (s ++ t) = no_tabs s && no_tabs t.
Proof.
  induction s as [|c s IH]; [done|]. rewrite append_cons. simpl.
  by rewrite IH, andb_assoc.
Qed.

Lemma no_tabs_sub_tabs (s : string) : no_tabs (ResearchClean.sub_tabs s) = true.
Proof.
  induction s as [|c s IH]; [done|]. cbn [ResearchClean.sub_tabs].
  destruct (ResearchClean.is_tab c) eqn:E.
  - destruct s as [|c' s]; [done|].
    destruct (ResearchClean.is_tab c'); [exact IH|].
    cbn [no_tabs]. by rewrite IH.
  - cbn [no_tabs]. by rewrite E, IH.
Qed.

Lemma no_tabs_sub_newlines (s pending : string) (nl : bool) :
  no_tabs pending = true -> no_tabs s = true ->
  no_tabs (ResearchClean.sub_newlines pending nl s) = true.
Proof.
  revert pending nl. induction s as [|c s IH]; intros pending nl Hp Hs.
  - simpl. by destruct nl.
  - simpl in Hs. apply andb_true_iff in Hs as [Hc Hs].
    cbn [ResearchClean.sub_newlines]. destruct (Py.isspace c).
    + apply IH; [|done]. rewrite no_tabs_app, Hp. simpl. by rewrite Hc.
    + rewrite no_tabs_app. cbn [no_tabs]. rewrite Hc, IH by done.
      by destruct nl; rewrite ?Hp.
Qed.

Lemma no_tabs_drop_chars (n : nat) (s : string) :
  no_tabs s = true -> no_tabs (Py.drop_chars n s) = true.
Proof.
  revert s. induction n as [|n IH]; intros s Hs; [done|].
  destruct s as [|c s]; [done|]. simpl in *.
  apply andb_true_iff in Hs as [_ Hs]. by apply IH.
Qed.

Lemma no_tabs_replace (old new s : string) :
  no_tabs new = true -> no_tabs s = true -> no_tabs (Py.replace old new s) = true.
Proof.
  intros Hn. unfold Py.replace. destruct (Py.is_empty old); [done|].
  generalize (String.length s) as fuel. intros fuel. revert s.
  induction fuel as [|fuel IH]; intros s Hs; [done|].
  destruct s as [|c s]; [done|]. cbn [Py.replace_fuel].
  destruct (Py.startswith old (String c s)).
  - rewrite no_tabs_app, Hn. simpl. by apply IH, no_tabs_drop_chars.
  - simpl in *. apply andb_true_iff in Hs as [Hc Hs]. by rewrite Hc, IH.
Qed.

Lemma no_tabs_unescape (s : string) :
  no_tabs s = true -> no_tabs (Llm.unescape s) = true.
Proof.
  intros H. unfold Llm.unescape. by repeat (apply no_tabs_replace; [done|]).
Qed.

Lemma no_tabs_sub_comma (s : string) :
  no_tabs s = true -> no_tabs (SynthesizerAgent.sub_comma s) = true.
Proof.
  induction s as [|c s IH]; [done|]. intros H. simpl in H.
  apply andb_true_iff in H as [Hc Hs]. cbn [SynthesizerAgent.sub_comma].
  destruct (_ && _) eqn:E.
  - apply andb_true_iff in E as [E%N.eqb_eq _]. cbn [no_tabs]. by rewrite IH.
  - cbn [no_tabs]. by rewrite Hc, IH.
Qed.

Lemma no_tabs_sub_currency_bounded (n : nat) :
  forall (prev : option ascii) (s : string),
    String.length s <= n ->
    no_tabs s = true ->
    no_tabs (SynthesizerAgent.sub_currency prev s) = true.
Proof.
  induction n as [|n IH]; intros prev s Hlen Hs.
  - destruct s; [done | simpl in Hlen; lia].
  - destruct s as [|a rest]; [done|]. simpl in Hlen.
    pose proof Hs as Hs0. simpl in Hs. apply andb_true_iff in Hs as [Ha Hrest].
    assert (no_tabs (String a (SynthesizerAgent.sub_currency (Some a) rest)) = true)
      as Hplain.
    { cbn [no_tabs]. rewrite Ha. apply IH; [lia | done]. }
    destruct rest as [|b [|c rest']]; try exact Hplain.
    cbn [SynthesizerAgent.sub_currency].
    destruct (_ && _); [|exact Hplain].
    simpl in Hrest, Hlen. apply andb_true_iff in Hrest as [Hb Hrest].
    apply andb_true_iff in Hrest as [Hc Hrest].
    cbn [no_tabs]. rewrite Ha, Hb, Hc. simpl. apply IH; [lia | done].
Qed.

Lemma no_tabs_lstrip (s : string) : no_tabs s = true -> no_tabs (Py.lstrip s) = true.
Proof.
  induction s as [|c s IH]; [done|]. intros H. simpl.
  destruct (Py.isspace c); [|exact H]. simpl in H.
  apply andb_true_iff in H as [_ H]. by apply IH.
Qed.

Lemma no_tabs_rstrip (s : string) : no_tabs s = true -> no_tabs (Py.rstrip s) = true.
Proof.
  induction s as [|c s IH]; [done|]. intros H. simpl in H.
  apply andb_true_iff in H as [Hc Hs]. specialize (IH Hs). simpl.
  destruct (Py.rstrip s) as [|d r].
  - destruct (Py.isspace c); [done|]. simpl. by rewrite Hc.
  - cbn [no_tabs] in *. by rewrite Hc, IH.
Qed.

Lemma no_tabs_spec (s : string) :
  no_tabs s = true ->
  forall (pre post : string) (c : ascii),
    s = pre ++ String c post -> ResearchClean.is_tab c = false.
Proof.
  intros Hs pre. revert s Hs. induction pre as [|a pre IH]; intros s Hs post c ->.
  - rewrite append_nil_l in Hs. simpl in Hs.
    apply andb_true_iff in Hs as [H _]. by destruct (ResearchClean.is_tab c).
  - rewrite append_cons in Hs. simpl in Hs. apply andb_true_iff in Hs as [_ Hs].
    by eapply IH.
Qed.

(** *** No whitespace next to a newline *)

Lemma tight_cons (prev : option ascii) (c : ascii) (rest : string) :
  newlines_tight prev (String c rest)
  = (if Swot.is_newline c
     then negb (isspace_opt prev) && negb (isspace_opt (Py.head rest))
     else true)
    && newlines_tight (Some c) rest.
Proof. reflexivity. Qed.

Lemma tight_prev (p q : option ascii) (s : string) :
  match Py.head s with Some c => Swot.is_newline c = false | None => True end ->
  newlines_tight p s = newlines_tight q s.
Proof. destruct s as [|c s]; simpl; [done|]. by intros ->. Qed.

Lemma no_newline_app (s t : string) :
  no_newline (s ++ t) = no_newline s && no_newline t.
Proof.
  induction s as [|c s IH]; [done|]. rewrite append_cons. simpl.
  by rewrite IH, andb_assoc.
Qed.

Lemma tight_no_newline (prev : option ascii) (s : string) :
  no_newline s = true -> newlines_tight prev s = true.
Proof.
  revert prev. induction s as [|c s IH]; intros prev H; [done|]. simpl in *.
  apply andb_true_iff in H as [Hc Hs]. apply negb_true_iff in Hc.
  by rewrite Hc, IH.
Qed.

Lemma tight_app_no_newline (prev : option ascii) (p : string) (c : ascii) (t : string) :
  no_newline p = true -> Swot.is_newline c = false ->
  newlines_tight prev (p ++ String c t) = newlines_tight (Some c) t.
Proof.
  revert prev. induction p as [|a p IH]; intros prev Hp Hc.
  - rewrite append_nil_l. simpl. by rewrite Hc.
  - rewrite append_cons. simpl in *. apply andb_true_iff in Hp as [Ha Hp].
    apply negb_true_iff in Ha. rewrite Ha. simpl. by apply IH.
Qed.

Lemma tight_sub_newlines (s pending : string) (nl : bool) (prev : option ascii) :
  isspace_opt prev = false ->
  (nl = false -> no_newline pending = true) ->
  newlines_tight prev (ResearchClean.sub_newlines pending nl s) = true.
Proof.
  revert pending nl prev. induction s as [|c s IH]; intros pending nl prev Hprev Hp.
  - simpl. destruct nl; [|by apply tight_no_newline, Hp].
    simpl. by rewrite Hprev.
  - cbn [ResearchClean.sub_newlines]. destruct (Py.isspace c) eqn:Ec.
    + apply IH; [done|]. intros [Hnl Hc]%orb_false_iff.
      rewrite no_newline_app, (Hp Hnl). simpl. by rewrite Hc.
    + pose proof (nonspace_not_newline c Ec) as Hc.
      assert (newlines_tight (Some c) (ResearchClean.sub_newlines "" false s) = true)
        as Hrest by (by apply IH).
      destruct nl.
      * unfold newline. rewrite append_cons, append_nil_l.
        cbn [newlines_tight Py.head isspace_opt].
        rewrite Hprev, Ec, Hc, Hrest. reflexivity.
      * rewrite tight_app_no_newline by auto. exact Hrest.
Qed.

(** Removing a backslash before [x]. *)
Section Unescape.
Variables bs x : ascii.
Hypothesis Hbs : Py.isspace bs = false.
Hypothesis Hx : Py.isspace x = false.

Lemma replace_fuel_head (fuel : nat) (s : string) :
  isspace_opt (Py.head (Py.replace_fuel fuel (String bs (String x ""))
                                        (String x "") s))
  = isspace_opt (Py.head s).
Proof.
  destruct fuel as [|fuel]; [done|]. destruct s as [|c s]; [done|].
  cbn [Py.replace_fuel].
  destruct (Py.startswith _ (String c s)) eqn:E; [|done].
  apply startswith_spec in E as [post E].
  rewrite !append_cons, append_nil_l in E. injection E as -> _.
  rewrite append_cons. simpl. by rewrite Hbs, Hx.
Qed.

Lemma tight_replace_fuel (fuel : nat) :
  forall (prev : option ascii) (s : string),
    newlines_tight prev s = true ->
    newlines_tight prev (Py.replace_fuel fuel (String bs (String x ""))
                                         (String x "") s) = true.
Proof.
  induction fuel as [|fuel IH]; intros prev s Hs; [done|].
  destruct s as [|c s]; [done|]. cbn [Py.replace_fuel].
  destruct (Py.startswith _ (String c s)) eqn:E.
  - apply startswith_spec in E as [post E].
    rewrite !append_cons, append_nil_l in E. injection E as -> ->.
    cbn [String.length Py.drop_chars]. rewrite append_cons, append_nil_l.
    cbn [newlines_tight] in Hs |- *.
    rewrite (nonspace_not_newline _ Hbs), (nonspace_not_newline _ Hx) in Hs.
    rewrite (nonspace_not_newline _ Hx). simpl in *. by apply IH.
  - cbn [newlines_tight] in Hs |- *. apply andb_true_iff in Hs as [Hc Hs].
    rewrite replace_fuel_head, Hc. simpl. by apply IH.
Qed.

Lemma tight_replace (prev : option ascii) (s : string) :
  newlines_tight prev s = true ->
  newlines_tight prev (Py.replace (String bs (String x "")) (String x "") s) = true.
Proof. intros H. unfold Py.replace. simpl. by apply tight_replace_fuel. Qed.

End Unescape.

Lemma tight_unescape (prev : option ascii) (s : string) :
  newlines_tight prev s = true -> newlines_tight prev (Llm.unescape s) = true.
Proof.
  intros H. unfold Llm.unescape.
  by repeat (apply (tight_replace "\"%char); [done | done |]).
Qed.

Lemma sub_comma_head_eq (s : string) :
  Py.head (SynthesizerAgent.sub_comma s) = Py.head s.
Proof. destruct s as [|c s]; [done|]. apply sub_comma_head. Qed.

Lemma tight_sub_comma (s : string) (prev : option ascii) :
  newlines_tight prev s = true ->
  newlines_tight prev (SynthesizerAgent.sub_comma s) = true.
Proof.
  revert prev. induction s as [|c s IH]; intros prev H; [done|].
  cbn [newlines_tight] in H. apply andb_true_iff in H as [Hc Hs].
  cbn [SynthesizerAgent.sub_comma].
  destruct ((Py.code c =? 44)%N && _) eqn:E.
  - apply andb_true_iff in E as [E Hnext]. apply N.eqb_eq in E.
    destruct s as [|c' s]; [done|]. apply negb_true_iff in Hnext.
    cbn [newlines_tight]. 
    assert (Swot.is_newline SynthesizerAgent.comma = false) as -> by done.
    assert (Swot.is_newline SynthesizerAgent.space = false) as -> by done.
    cbn [andb].
    rewrite (tight_prev _ (Some c)).
    + by apply IH.
    + rewrite sub_comma_head. by apply nonspace_not_newline.
  - cbn [newlines_tight]. rewrite sub_comma_head_eq, Hc. simpl. by apply IH.
Qed.

Lemma is_currency_no_newline (a b c : ascii) :
  SynthesizerAgent.is_currency a b c = true ->
  Swot.is_newline a = false /\ Swot.is_newline b = false
  /\ Swot.is_newline c = false.
Proof.
  unfold SynthesizerAgent.is_currency.
  intros [H|H]%orb_true_iff; apply String.eqb_eq in H; injection H as -> -> ->; done.
Qed.

Lemma tight_sub_currency_bounded (n : nat) :
  forall (prev wprev : option ascii) (s : string),
    String.length s <= n ->
    newlines_tight prev s = true ->
    newlines_tight prev (SynthesizerAgent.sub_currency wprev s) = true.
Proof.
  induction n as [|n IH]; intros prev wprev s Hlen Hs.
  - destruct s; [done | simpl in Hlen; lia].
  - destruct s as [|a rest]; [done|]. simpl in Hlen.
    pose proof Hs as Hs0. cbn [newlines_tight] in Hs.
    apply andb_true_iff in Hs as [Ha Hrest].
    assert (newlines_tight prev
              (String a (SynthesizerAgent.sub_currency (Some a) rest)) = true)
      as Hplain.
    { cbn [newlines_tight]. rewrite sub_currency_head, Ha. simpl.
      apply IH; [lia | done]. }
    destruct rest as [|b [|c rest']]; try exact Hplain.
    cbn [SynthesizerAgent.sub_currency].
    destruct (Py.word_boundary _ _ && _ && _) eqn:Hcond; [|exact Hplain].
    apply andb_true_iff in Hcond as [[_ Hcur]%andb_true_iff Hdigit].
    apply is_currency_no_newline in Hcur as (Ea & Eb & Ec).
    cbn [newlines_tight] in Hrest |- *. rewrite Ea, Eb, Ec in *.
    assert (Swot.is_newline SynthesizerAgent.space = false) as -> by done.
    simpl in Hlen, Hrest |- *.
    rewrite (tight_prev _ (Some c)).
    + apply IH; [lia | done].
    + rewrite sub_currency_head. destruct rest' as [|d rest']; [done|].
      simpl. unfold Py.isdecimal, Py.between in Hdigit.
      unfold Swot.is_newline. apply N.eqb_neq. intros E. rewrite E in Hdigit. done.
Qed.

Lemma tight_lstrip (s : string) (prev : option ascii) :
  newlines_tight prev s = true -> newlines_tight None (Py.lstrip s) = true.
Proof.
  revert prev. induction s as [|c s IH]; intros prev H; [done|].
  cbn [newlines_tight] in H. apply andb_true_iff in H as [Hc Hs]. simpl.
  destruct (Py.isspace c) eqn:E; [by eapply IH|].
  cbn [newlines_tight]. by rewrite (nonspace_not_newline c E), Hs.
Qed.

Lemma rstrip_head_eq (s : string) :
  Py.rstrip s <> "" -> Py.head (Py.rstrip s) = Py.head s.
Proof.
  intros H. destruct (Py.rstrip s) as [|d r] eqn:E; [done|].
  symmetry. by eapply rstrip_head_inv.
Qed.

Lemma tight_rstrip (s : string) (prev : option ascii) :
  newlines_tight prev s = true -> newlines_tight prev (Py.rstrip s) = true.
Proof.
  revert prev. induction s as [|c s IH]; intros prev H; [done|].
  cbn [newlines_tight] in H. apply andb_true_iff in H as [Hc Hs].
  specialize (IH _ Hs). simpl.
  destruct (Py.rstrip s) as [|d r] eqn:E.
  - destruct (Py.isspace c) eqn:Ec; [done|].
    cbn [newlines_tight]. by rewrite (nonspace_not_newline c Ec).
  - rewrite tight_cons, IH, andb_true_r.
    destruct (Swot.is_newline c); [|done].
    apply andb_true_iff in Hc as [Hp Hn]. rewrite Hp. simpl.
    by rewrite (rstrip_head_inv s r d E) in Hn.
Qed.

Lemma tight_spec (s : string) (prev : option ascii) :
  newlines_tight prev s = true ->
  forall (pre post : string) (a b : ascii),
    Swot.is_newline b = true ->
    (s = pre ++ String a (String b post) -> Py.isspace a = false)
    /\ (s = pre ++ String b (String a post) -> Py.isspace a = false).
Proof.
  intros Hs pre. revert s prev Hs.
  induction pre as [|p pre IH]; intros s prev Hs post a b Hb.
  - rewrite !append_nil_l. split; intros ->; cbn [newlines_tight Py.head] in Hs.
    + rewrite Hb in Hs. apply andb_true_iff in Hs as [_ Hs].
      apply andb_true_iff in Hs as [Hs _]. apply andb_true_iff in Hs as [Hs _].
      by apply negb_true_iff in Hs.
    + rewrite Hb in Hs. apply andb_true_iff in Hs as [Hs _].
      apply andb_true_iff in Hs as [_ Hs]. by apply negb_true_iff in Hs.
  - rewrite !append_cons.
    split; intros ->; rewrite tight_cons in Hs;
      apply andb_true_iff in Hs as [_ Hs].
    + exact (proj1 (IH _ _ Hs post a b Hb) eq_refl).
    + exact (proj2 (IH _ _ Hs post a b Hb) eq_refl).
Qed.

(** X19. The text [research_agent._clean] returns has no leading or
    trailing whitespace and no tab; every comma in it is its last
    character or is followed by whitespace; and no newline in it has
    whitespace before or after it, so the text has no blank line and
    no line that starts or ends with whitespace. *)
Theorem research_clean_normalized (text : option string) :
  trimmed (ResearchClean._clean text)
  /\ (forall (pre post : string) (c : ascii),
        ResearchClean._clean text = pre ++ String c post ->
        ResearchClean.is_tab c = false)
  /\ (forall (pre post : string) (c : ascii),
        ResearchClean._clean text
          = pre ++ String SynthesizerAgent.comma (String c post) ->
        Py.isspace c = true)
  /\ (forall (pre post : string) (a b : ascii),
        Swot.is_newline b = true ->
        (ResearchClean._clean text = pre ++ String a (String b post) ->
         Py.isspace a = false)
        /\ (ResearchClean._clean text = pre ++ String b (String a post) ->
            Py.isspace a = false)).
Proof.
  unfold ResearchClean._clean. cbv zeta.
  split; [apply strip_idempotent|]. split; [|split].
  - apply no_tabs_spec. unfold Py.strip.
    apply no_tabs_rstrip, no_tabs_lstrip.
    eapply no_tabs_sub_currency_bounded; [reflexivity|].
    apply no_tabs_sub_comma, no_tabs_unescape, no_tabs_sub_newlines; [done|].
    apply no_tabs_sub_tabs.
  - apply commas_spaced_spec. unfold Py.strip.
    apply rstrip_spaced, lstrip_spaced.
    eapply sub_currency_spaced_bounded; [reflexivity | apply sub_comma_spaced].
  - apply (tight_spec _ None). unfold Py.strip.
    apply tight_rstrip, (tight_lstrip _ None).
    eapply tight_sub_currency_bounded; [reflexivity|].
    apply tight_sub_comma, tight_unescape, tight_sub_newlines; done.
Qed.
